(** * Invoice resolution and analysis orchestration

    A shallow embedding of [src/function_app.py] (the [analyze_invoice] tool and
    the identifier resolver [_load_invoice_from_data]) and of
    [src/content_understanding_service.py] (the [ContentUnderstandingService]
    orchestrator), followed by the properties of the specification that concern
    them. The [get_weather] tool and [src/weather_service.py] are embedded in
    the module [Weather], with the exceptions and the trace of their own.

    Conventions of the embedding.
    - A Python [str] is a [string]; each character stands for the code point of
      the same number (0..255).
    - [Optional[str]] is [option string]; [x or y] on such values is written
      out with its truthiness test (None and the empty string are false).
    - A Python [float] is a [spec_float] (IEEE 754 binary64 data).
    - Paths follow the POSIX flavour of [pathlib].
    - Everything the program obtains from outside (environment variables, the
      file system, the builtin [float] parser, [mimetypes], the credential and
      client constructors, the analyzer service) is a field of the record
      [World]; the theorems quantify over every world.
    - Code that raises returns [Err]; the service object's attributes are
      threaded as explicit state, and every external call and log record is
      emitted into a trace. *)

From Stdlib Require Import String Ascii List ZArith NArith Bool Lia.
From Stdlib Require Import SpecFloat.
Import ListNotations.
Open Scope string_scope.
Set Warnings "-register-all".

(* ===================================================================== *)
(** ** Python strings *)
(* ===================================================================== *)

Module PyStr.

(** [str.isspace] on the code points below 256. *)
Definition is_space (c : ascii) : bool :=
  let n := N_of_ascii c in
  (((9 <=? n) && (n <=? 13)) || ((28 <=? n) && (n <=? 32))
   || (n =? 133) || (n =? 160))%N.

Fixpoint lstrip (s : string) : string :=
  match s with
  | EmptyString => EmptyString
  | String c s' => if is_space c then lstrip s' else s
  end.

Fixpoint rstrip (s : string) : string :=
  match s with
  | EmptyString => EmptyString
  | String c s' =>
      match rstrip s' with
      | EmptyString => if is_space c then EmptyString else String c EmptyString
      | r => String c r
      end
  end.

(** [s.strip()] *)
Definition strip (s : string) : string := rstrip (lstrip s).

(** [str.lower] on one code point below 256. *)
Definition lower_char (c : ascii) : ascii :=
  let n := N_of_ascii c in
  if (((65 <=? n) && (n <=? 90))
      || ((192 <=? n) && (n <=? 222) && negb (n =? 215)))%N
  then ascii_of_N (n + 32) else c.

Fixpoint lower (s : string) : string :=
  match s with
  | EmptyString => EmptyString
  | String c s' => String (lower_char c) (lower s')
  end.

(** Truthiness of a [str]: [bool(s)]. *)
Definition truthy (s : string) : bool := negb (s =? "").

(** Truthiness of an [Optional[str]]. *)
Definition opt_truthy (o : option string) : bool :=
  match o with
  | Some s => truthy s
  | None => false
  end.

(** [a or b] where both are [Optional[str]]. *)
Definition or_opt (a b : option string) : option string :=
  if opt_truthy a then a else b.

(** [a or b] where [a] is [Optional[str]] and [b] is a [str]. *)
Definition or_str (a : option string) (b : string) : string :=
  match a with
  | Some s => if truthy s then s else b
  | None => b
  end.

(** [s or None] for a [str] or [Optional[str]] value. *)
Definition or_none (a : option string) : option string := or_opt a None.

(** [sub in s] *)
Definition contains (sub s : string) : bool :=
  match String.index 0 sub s with
  | Some _ => true
  | None => false
  end.

(** [sep.join(l)] *)
Fixpoint join (sep : string) (l : list string) : string :=
  match l with
  | [] => ""
  | [x] => x
  | x :: rest => x ++ sep ++ join sep rest
  end.

(** [x in l] for a tuple or list of strings. *)
Fixpoint mem (x : string) (l : list string) : bool :=
  match l with
  | [] => false
  | y :: rest => (x =? y) || mem x rest
  end.

End PyStr.

(* ===================================================================== *)
(** ** [pathlib] paths, POSIX flavour *)
(* ===================================================================== *)

Module Path.

(** A parsed path: the root ("", "/" or "//") and the components after it. *)
Record t := mk { root : string; names : list string }.

(** Split at every "/" (empty pieces are kept). *)
Fixpoint split_slash (s : string) : list string :=
  match s with
  | EmptyString => [EmptyString]
  | String c s' =>
      if (c =? "/")%char then EmptyString :: split_slash s'
      else match split_slash s' with
           | [] => [String c EmptyString]
           | x :: xs => String c x :: xs
           end
  end.

Fixpoint leading_slashes (s : string) : nat :=
  match s with
  | String c s' => if (c =? "/")%char then S (leading_slashes s') else 0
  | EmptyString => 0
  end.

(** POSIX: exactly two leading slashes are kept as the root "//". *)
Definition parse_root (s : string) : string :=
  match leading_slashes s with
  | 0 => ""
  | 2 => "//"
  | _ => "/"
  end.

Definition keep_component (x : string) : bool :=
  negb (x =? "") && negb (x =? ".").

(** [Path(s)] *)
Definition of_string (s : string) : t :=
  {| root := parse_root s; names := filter keep_component (split_slash s) |}.

(** [p.is_absolute()] *)
Definition is_absolute (p : t) : bool := negb (root p =? "").

(** [p.parts] *)
Definition parts (p : t) : list string :=
  if is_absolute p then root p :: names p else names p.

(** [p / q] *)
Definition joinpath (p q : t) : t :=
  if is_absolute q then q
  else {| root := root p; names := names p ++ names q |}.

(** [Path] applied to the unpacked list [segments] (line 241). *)
Definition of_segments (segments : list string) : t :=
  fold_left joinpath (map of_string segments) {| root := ""; names := [] |}.

(** [p.name] *)
Definition name (p : t) : string := last (names p) "".

(** [str(p)] *)
Definition to_string (p : t) : string :=
  match root p, names p with
  | "", [] => "."
  | r, l => r ++ PyStr.join "/" l
  end.

Fixpoint proper_prefix (l1 l2 : list string) : bool :=
  match l1, l2 with
  | [], _ :: _ => true
  | x :: l1', y :: l2' => (x =? y) && proper_prefix l1' l2'
  | _, [] => false
  end.

(** [p] lies strictly below [dir]: same root, and the components of [dir]
    are a proper prefix of those of [p]. *)
Definition is_descendant (dir p : t) : bool :=
  (root dir =? root p) && proper_prefix (names dir) (names p).

End Path.

(* ===================================================================== *)
(** ** Decoded JSON values and dictionaries *)
(* ===================================================================== *)

(** What [json.loads] produces, and what the analyzer client returns. *)
Inductive json : Type :=
| JNull
| JBool (b : bool)
| JInt (z : Z)
| JFloat (f : spec_float)
| JStr (s : string)
| JList (l : list json)
| JDict (d : list (string * json)).

Module Dict.

(** A [dict] with [str] keys, as the list of its items; the first item of a
    key is the one the dictionary holds. *)
Definition t : Type := list (string * json).

Fixpoint lookup (d : t) (k : string) : option json :=
  match d with
  | [] => None
  | (k', v) :: rest => if k' =? k then Some v else lookup rest k
  end.

(** The dictionary without the key [k]. *)
Fixpoint remove (k : string) (d : t) : t :=
  match d with
  | [] => []
  | (k', v) :: rest => if k' =? k then remove k rest else (k', v) :: remove k rest
  end.

End Dict.

(** [type(v).__name__] *)
Definition type_name (v : json) : string :=
  match v with
  | JNull => "NoneType"
  | JBool _ => "bool"
  | JInt _ => "int"
  | JFloat _ => "float"
  | JStr _ => "str"
  | JList _ => "list"
  | JDict _ => "dict"
  end.

(** An [Optional[str]] as a JSON value. *)
Definition json_of_opt (o : option string) : json :=
  match o with
  | Some s => JStr s
  | None => JNull
  end.

(* ===================================================================== *)
(** ** Exceptions *)
(* ===================================================================== *)

Inductive exn_class : Type :=
| TypeError
| JSONDecodeError
| AttributeError
| ValueError
| FileNotFoundError
| OSError
| ContentUnderstandingServiceError
| AzureContentUnderstandingClientError
| OtherError.

(** An exception object: its class and [str(exc)]. *)
Record exn : Type := Exn { class_of : exn_class; str_of : string }.

Definition exn_class_eqb (a b : exn_class) : bool :=
  match a, b with
  | TypeError, TypeError | JSONDecodeError, JSONDecodeError
  | AttributeError, AttributeError | ValueError, ValueError
  | FileNotFoundError, FileNotFoundError | OSError, OSError
  | ContentUnderstandingServiceError, ContentUnderstandingServiceError
  | AzureContentUnderstandingClientError, AzureContentUnderstandingClientError
  | OtherError, OtherError => true
  | _, _ => false
  end.

(** [issubclass]: [json.JSONDecodeError] derives from [ValueError] and
    [FileNotFoundError] from [OSError]. *)
Definition issubclass (c base : exn_class) : bool :=
  match c, base with
  | JSONDecodeError, ValueError => true
  | FileNotFoundError, OSError => true
  | _, _ => exn_class_eqb c base
  end.

(** Does [except base] catch [e]? *)
Definition isinstance (e : exn) (base : exn_class) : bool :=
  issubclass (class_of e) base.

Inductive result (A : Type) : Type :=
| Ok (a : A)
| Err (e : exn).
Arguments Ok {A} a.
Arguments Err {A} e.

(* ===================================================================== *)
(** ** Records of the two modules *)
(* ===================================================================== *)

Module InvoiceAnalysisRequest.
Record t : Type := mk {
  file_path : Path.t;
  content_type : option string;
  file_name : option string;
  analyzer_id : option string }.
End InvoiceAnalysisRequest.

Module _ServiceConfig.
Record t : Type := mk {
  endpoint : string;
  analyzer_id : string;
  api_version : string;
  user_agent : string;
  poll_interval_seconds : spec_float;
  poll_timeout_seconds : spec_float;
  subscription_key : option string }.
End _ServiceConfig.

(** [DefaultAzureCredential(exclude_interactive_browser_credential=...)] *)
Record Credential : Type :=
  DefaultAzureCredential { exclude_interactive_browser_credential : bool }.

(** [get_bearer_token_provider(credential, scope)] *)
Record TokenProvider : Type :=
  get_bearer_token_provider { provider_credential : Credential; provider_scope : string }.

(** An [AzureContentUnderstandingClient], identified by the arguments of its
    constructor. *)
Module Client.
Record t : Type := mk {
  endpoint : string;
  api_version : string;
  token_provider : option TokenProvider;
  subscription_key : option string;
  x_ms_useragent : string }.
End Client.

(** The handle [begin_analyze] returns and [poll_result] consumes. *)
Definition Operation : Type := json.

(** The dictionary [_load_invoice_from_data] returns, with its three keys. *)
Module StoredFile.
Record t : Type := mk {
  path : Path.t;
  content_type : option string;
  file_name : string }.
End StoredFile.

(** The attributes of a [ContentUnderstandingService] object. *)
Record service : Type := mk_service {
  _config : option _ServiceConfig.t;
  _credential : option Credential;
  _client : option Client.t }.

(** [ContentUnderstandingService.__init__] *)
Definition __init__ : service :=
  {| _config := None; _credential := None; _client := None |}.

(* ===================================================================== *)
(** ** The outside world, and the trace of what the program does to it *)
(* ===================================================================== *)

Record World : Type := {
  (** [os.getenv(name)] *)
  getenv : string -> option string;
  (** the builtin [float(text)]; [None] when it raises [ValueError] *)
  float_of_str : string -> option spec_float;
  (** [mimetypes.guess_type(name)[0]] *)
  guess_type : string -> option string;
  (** [path.resolve()] *)
  resolve : Path.t -> Path.t;
  (** [path.exists()] *)
  path_exists : Path.t -> bool;
  (** [path.stat().st_size] *)
  st_size : Path.t -> N;
  (** does the constructor of the credential raise? *)
  credential_init : Credential -> option exn;
  (** does [get_bearer_token_provider] raise? *)
  token_provider_init : TokenProvider -> option exn;
  (** does the constructor of the client raise? *)
  client_init : Client.t -> option exn;
  (** [client.begin_analyze(analyzer_id, file_location=..., content_type=...)] *)
  begin_analyze : Client.t -> string -> string -> option string -> result Operation;
  (** [client.poll_result(operation, timeout_seconds=..., polling_interval_seconds=...)] *)
  poll_result : Client.t -> Operation -> spec_float -> spec_float -> result json }.

Inductive logger : Type :=
| logging      (* the root logger: [logging.info(...)] *)
| _LOGGER.     (* [logging.getLogger(__name__)] of the service module *)

Inductive level : Type := DEBUG | INFO | WARNING | ERROR | EXCEPTION.

(** The arguments of a log record, kept as the values they are. *)
Inductive log_arg : Type :=
| AStr (s : string)
| AOpt (o : option string)
| APath (p : Path.t)
| AFloat (f : spec_float)
| AExn (e : exn)
| ASize (n : option N).

Inductive event : Type :=
| Log (lg : logger) (lv : level) (fmt : string) (args : list log_arg)
| Getenv (name : string)
| Resolve (p : Path.t)
| Exists (p : Path.t)
| Stat (p : Path.t)
| NewCredential (c : Credential)
| NewTokenProvider (p : TokenProvider)
| NewClient (c : Client.t)
| BeginAnalyze (c : Client.t) (analyzer_id file_location : string) (content_type : option string)
| PollResult (c : Client.t) (operation : Operation) (timeout_seconds polling_interval_seconds : spec_float).

(* ===================================================================== *)
(** ** The monad of the embedding: state, trace and exceptions *)
(* ===================================================================== *)

(** A computation starts from the attributes of the service object and yields
    the events it emitted, the attributes afterwards, and a value or the
    exception it raised. *)
Definition M (A : Type) : Type := service -> list event * service * result A.

Definition ret {A : Type} (a : A) : M A := fun s => ([], s, Ok a).

Definition raise {A : Type} (e : exn) : M A := fun s => ([], s, Err e).

Definition bind {A B : Type} (m : M A) (k : A -> M B) : M B :=
  fun s =>
    match m s with
    | (t, s', Ok a) => let '(t', s'', r) := k a s' in ((t ++ t')%list, s'', r)
    | (t, s', Err e) => (t, s', Err e)
    end.

Declare Scope py_scope.
Delimit Scope py_scope with py.
Notation "x <- m ;; k" := (bind m (fun x => k))
  (at level 61, m at next level, right associativity) : py_scope.
Notation "m ;;; k" := (bind m (fun _ => k))
  (at level 61, right associativity) : py_scope.
Open Scope py_scope.

Definition emit (e : event) : M unit := fun s => ([e], s, Ok tt).

Definition lift {A : Type} (r : result A) : M A := fun s => ([], s, r).

(** [try: body  except ...: handler]. [handler e] is [None] when no [except]
    clause catches [e], which then propagates. *)
Definition try_except {A : Type} (body : M A) (handler : exn -> option (M A)) : M A :=
  fun s =>
    match body s with
    | (t, s', Ok a) => (t, s', Ok a)
    | (t, s', Err e) =>
        match handler e with
        | Some h => let '(t', s'', r) := h s' in ((t ++ t')%list, s'', r)
        | None => (t, s', Err e)
        end
    end.

Definition log (lg : logger) (lv : level) (fmt : string) (args : list log_arg) : M unit :=
  emit (Log lg lv fmt args).

(** The external calls, each recorded in the trace. *)
Definition os_getenv (w : World) (name : string) : M (option string) :=
  emit (Getenv name) ;;; ret (getenv w name).

Definition float (w : World) (text : string) : M spec_float :=
  match float_of_str w text with
  | Some v => ret v
  | None => raise (Exn ValueError ("could not convert string to float: '" ++ text ++ "'"))
  end.

Definition Path_resolve (w : World) (p : Path.t) : M Path.t :=
  emit (Resolve p) ;;; ret (resolve w p).

Definition Path_exists (w : World) (p : Path.t) : M bool :=
  emit (Exists p) ;;; ret (path_exists w p).

Definition Path_stat_st_size (w : World) (p : Path.t) : M N :=
  emit (Stat p) ;;; ret (st_size w p).

Definition raise_if {A : Type} (o : option exn) (a : A) : M A :=
  match o with
  | Some e => raise e
  | None => ret a
  end.

Definition new_credential (w : World) (c : Credential) : M Credential :=
  emit (NewCredential c) ;;; raise_if (credential_init w c) c.

Definition new_token_provider (w : World) (p : TokenProvider) : M TokenProvider :=
  emit (NewTokenProvider p) ;;; raise_if (token_provider_init w p) p.

Definition new_client (w : World) (c : Client.t) : M Client.t :=
  emit (NewClient c) ;;; raise_if (client_init w c) c.

Definition client_begin_analyze (w : World) (c : Client.t) (analyzer_id file_location : string)
    (content_type : option string) : M Operation :=
  emit (BeginAnalyze c analyzer_id file_location content_type) ;;;
  lift (begin_analyze w c analyzer_id file_location content_type).

Definition client_poll_result (w : World) (c : Client.t) (operation : Operation)
    (timeout_seconds polling_interval_seconds : spec_float) : M json :=
  emit (PollResult c operation timeout_seconds polling_interval_seconds) ;;;
  lift (poll_result w c operation timeout_seconds polling_interval_seconds).

(** [self._config], [self._client] and the assignments to the attributes. *)
Definition get_config : M (option _ServiceConfig.t) := fun s => ([], s, Ok (_config s)).

Definition get_client : M (option Client.t) := fun s => ([], s, Ok (_client s)).

Definition set_config (c : _ServiceConfig.t) : M unit :=
  fun s => ([], {| _config := Some c; _credential := _credential s; _client := _client s |}, Ok tt).

Definition set_client (c : Client.t) : M unit :=
  fun s => ([], {| _config := _config s; _credential := _credential s; _client := Some c |}, Ok tt).

Definition set_credential (c : option Credential) : M unit :=
  fun s => ([], {| _config := _config s; _credential := c; _client := _client s |}, Ok tt).

(** The float [0] of the comparison [value <= 0]. *)
Definition float_zero : spec_float := S754_zero false.

(** A float that is a whole number. *)
Definition float_of_Z (z : Z) : spec_float := binary_normalize 53 1024 z 0 false.

(** [0 < v]. *)
Definition strictly_positive (v : spec_float) : bool := SFltb float_zero v.

(* ===================================================================== *)
(** ** content_understanding_service.py *)
(* ===================================================================== *)

Module ContentUnderstandingService.

Definition _DEFAULT_ANALYZER_ID : string := "prebuilt-invoice".
Definition _DEFAULT_API_VERSION : string := "2025-05-01-preview".
Definition _DEFAULT_USER_AGENT : string := "remote-mcp-functions-python/1.0".
Definition _DEFAULT_POLL_INTERVAL_SECONDS : spec_float := Eval vm_compute in float_of_Z 2.
Definition _DEFAULT_POLL_TIMEOUT_SECONDS : spec_float := Eval vm_compute in float_of_Z 180.
Definition _AUTH_SCOPE : string := "https://cognitiveservices.azure.com/.default".

Definition endpoint_required : string :=
  "CONTENT_UNDERSTANDING_ENDPOINT is required to call Azure AI Content Understanding.".
Definition analyzer_required : string :=
  "Analyzer ID is required for invoice analysis.".

(** Lines 190-201. *)
Definition _get_float_env (w : World) (name : string) (default : spec_float) : M spec_float :=
  raw_value <- os_getenv w name ;;
  match raw_value with
  | None => ret default
  | Some raw =>
      try_except
        (value <- float w raw ;;
         if SFleb value float_zero
         then raise (Exn ValueError "value must be positive")
         else ret value)
        (fun e =>
           if isinstance e ValueError
           then Some (log logging WARNING "Ignoring invalid %s value '%s'; using default %.2f"
                        [AStr name; AStr raw; AFloat default] ;;;
                      ret default)
           else None)
  end.

(** Lines 123-166. *)
Definition _ensure_configuration (w : World) : M _ServiceConfig.t :=
  cached <- get_config ;;
  match cached with
  | Some config => ret config
  | None =>
      e <- os_getenv w "CONTENT_UNDERSTANDING_ENDPOINT" ;;
      let endpoint := PyStr.strip (PyStr.or_str e "") in
      k <- os_getenv w "CONTENT_UNDERSTANDING_API_KEY" ;;
      let subscription_key := PyStr.or_none (Some (PyStr.strip (PyStr.or_str k ""))) in
      a <- os_getenv w "CONTENT_UNDERSTANDING_ANALYZER_ID" ;;
      let analyzer_id := PyStr.strip (PyStr.or_str a _DEFAULT_ANALYZER_ID) in
      v <- os_getenv w "CONTENT_UNDERSTANDING_API_VERSION" ;;
      let api_version := PyStr.strip (PyStr.or_str v _DEFAULT_API_VERSION) in
      let analyzer_id :=
        if negb (PyStr.truthy analyzer_id) then _DEFAULT_ANALYZER_ID else analyzer_id in
      let api_version :=
        if negb (PyStr.truthy api_version) then _DEFAULT_API_VERSION else api_version in
      if negb (PyStr.truthy endpoint)
      then raise (Exn ContentUnderstandingServiceError endpoint_required)
      else
        u <- os_getenv w "CONTENT_UNDERSTANDING_USER_AGENT" ;;
        let user_agent := PyStr.strip (PyStr.or_str u _DEFAULT_USER_AGENT) in
        poll_interval <- _get_float_env w "CONTENT_UNDERSTANDING_POLL_INTERVAL_SECONDS"
                           _DEFAULT_POLL_INTERVAL_SECONDS ;;
        poll_timeout <- _get_float_env w "CONTENT_UNDERSTANDING_POLL_TIMEOUT_SECONDS"
                          _DEFAULT_POLL_TIMEOUT_SECONDS ;;
        let config :=
          {| _ServiceConfig.endpoint := endpoint;
             _ServiceConfig.analyzer_id := analyzer_id;
             _ServiceConfig.api_version := api_version;
             _ServiceConfig.user_agent := user_agent;
             _ServiceConfig.poll_interval_seconds := poll_interval;
             _ServiceConfig.poll_timeout_seconds := poll_timeout;
             _ServiceConfig.subscription_key := subscription_key |} in
        set_config config ;;;
        log _LOGGER INFO
          "Content Understanding config resolved (endpoint=%s, analyzerId=%s, apiVersion=%s, auth=%s, pollInterval=%.1fs, pollTimeout=%.1fs)"
          [AStr endpoint; AStr analyzer_id; AStr api_version;
           AStr (if PyStr.opt_truthy subscription_key then "subscription-key" else "managed-identity");
           AFloat poll_interval; AFloat poll_timeout] ;;;
        ret config
  end.

(** Lines 168-188. *)
Definition _ensure_client (w : World) (config : _ServiceConfig.t) : M Client.t :=
  cached <- get_client ;;
  match cached with
  | Some client => ret client
  | None =>
      auth <- (if negb (PyStr.opt_truthy (_ServiceConfig.subscription_key config))
               then
                 credential <- new_credential w (DefaultAzureCredential true) ;;
                 token_provider <-
                   new_token_provider w (get_bearer_token_provider credential _AUTH_SCOPE) ;;
                 ret (Some credential, Some token_provider)
               else ret (None, None)) ;;
      let credential := fst auth in
      let token_provider := snd auth in
      client <- new_client w
                  {| Client.endpoint := _ServiceConfig.endpoint config;
                     Client.api_version := _ServiceConfig.api_version config;
                     Client.token_provider := token_provider;
                     Client.subscription_key := _ServiceConfig.subscription_key config;
                     Client.x_ms_useragent := _ServiceConfig.user_agent config |} ;;
      set_client client ;;;
      set_credential credential ;;;
      ret client
  end.

(** Lines 203-217. *)
Definition _build_analysis_response (analyzer_id : string)
    (request : InvoiceAnalysisRequest.t) (config : _ServiceConfig.t) (result : json) : json :=
  JDict [ ("analyzerId", JStr analyzer_id);
          ("apiVersion", JStr (_ServiceConfig.api_version config));
          ("contentType", json_of_opt (InvoiceAnalysisRequest.content_type request));
          ("fileName", json_of_opt (InvoiceAnalysisRequest.file_name request));
          ("result", result) ].

(** Line 78: [(request.analyzer_id or config.analyzer_id or "").strip()]. *)
Definition effective_analyzer_id (request : InvoiceAnalysisRequest.t)
    (config : _ServiceConfig.t) : string :=
  PyStr.strip
    (PyStr.or_str
       (Some (PyStr.or_str (InvoiceAnalysisRequest.analyzer_id request)
                (_ServiceConfig.analyzer_id config)))
       "").

(** The classes of line 102. *)
Definition caught_by_analyze (exc : exn) : bool :=
  isinstance exc AzureContentUnderstandingClientError
  || isinstance exc OSError || isinstance exc ValueError.

(** Lines 73-119 of [analyze_invoice]: what is done with the configuration
    and the client once both are there. *)
Definition analyze_with (w : World) (request : InvoiceAnalysisRequest.t)
    (config : _ServiceConfig.t) (client : Client.t) : M json :=
  let file_path := InvoiceAnalysisRequest.file_path request in
  present <- Path_exists w file_path ;;
  if negb present
  then
    log _LOGGER ERROR "Invoice file not found on disk: %s" [APath file_path] ;;;
    raise (Exn ContentUnderstandingServiceError
             ("Invoice file not found: " ++ Path.to_string file_path))
  else
    let analyzer_id := effective_analyzer_id request config in
    if negb (PyStr.truthy analyzer_id)
    then raise (Exn ContentUnderstandingServiceError analyzer_required)
    else
      log _LOGGER INFO
        "Submitting invoice '%s' to analyzer '%s' (endpoint=%s, apiVersion=%s, contentType=%s)"
        [AStr (PyStr.or_str (InvoiceAnalysisRequest.file_name request) (Path.name file_path));
         AStr analyzer_id;
         AStr (_ServiceConfig.endpoint config);
         AStr (_ServiceConfig.api_version config);
         AStr (PyStr.or_str (InvoiceAnalysisRequest.content_type request) "auto-detect")] ;;;
      result <-
        try_except
          (operation <- client_begin_analyze w client analyzer_id
                          (Path.to_string file_path)
                          (InvoiceAnalysisRequest.content_type request) ;;
           client_poll_result w client operation
             (_ServiceConfig.poll_timeout_seconds config)
             (_ServiceConfig.poll_interval_seconds config))
          (fun exc =>
             if caught_by_analyze exc
             then Some (log _LOGGER ERROR
                          "Analyzer request failed (analyzerId=%s, endpoint=%s, file=%s): %s"
                          [AStr analyzer_id; AStr (_ServiceConfig.endpoint config);
                           APath file_path; AExn exc] ;;;
                        raise (Exn ContentUnderstandingServiceError
                                 ("Failed to analyze invoice: " ++ str_of exc)))
             else None) ;;
      still_present <- Path_exists w file_path ;;
      size <- (if still_present
               then n <- Path_stat_st_size w file_path ;; ret (Some n)
               else ret None) ;;
      log _LOGGER INFO "Invoice analysis succeeded (analyzerId=%s, file=%s, bytes=%s)"
        [AStr analyzer_id; APath file_path; ASize size] ;;;
      ret (_build_analysis_response analyzer_id request config result).

(** Lines 67-119. *)
Definition analyze_invoice (w : World) (request : InvoiceAnalysisRequest.t) : M json :=
  config <- _ensure_configuration w ;;
  client <- _ensure_client w config ;;
  analyze_with w request config client.

End ContentUnderstandingService.

(* ===================================================================== *)
(** ** function_app.py *)
(* ===================================================================== *)

Module function_app.

Definition _INVOICE_FILE_NAME_PROPERTY_NAME : string := "fileName".
Definition _INVOICE_CONTENT_TYPE_PROPERTY_NAME : string := "contentType".
Definition _INVOICE_ANALYZER_ID_PROPERTY_NAME : string := "analyzerId".
Definition _INVOICE_ID_PROPERTY_NAME : string := "invoiceId".

(** [value.get(...)] on a decoded value: only a [dict] has the method. *)
Definition no_get (value : json) : exn :=
  Exn AttributeError ("'" ++ type_name value ++ "' object has no attribute 'get'").

(** [arguments.get(key)] *)
Definition get (arguments : json) (key : string) : M json :=
  match arguments with
  | JDict d => ret (match Dict.lookup d key with Some v => v | None => JNull end)
  | other => raise (no_get other)
  end.

(** [content.get(key, default)] *)
Definition get_default (content : json) (key : string) (default : json) : M json :=
  match content with
  | JDict d => ret (match Dict.lookup d key with Some v => v | None => default end)
  | other => raise (no_get other)
  end.

(** Lines 220-224. *)
Definition _get_trimmed_argument (arguments : json) (key : string) : M (option string) :=
  value <- get arguments key ;;
  match value with
  | JStr text => ret (Some (PyStr.strip text))
  | _ => ret None
  end.

Definition not_relative : string :=
  "invoiceId must be a relative path inside the data directory.".
Definition not_absolute_or_traversing : string :=
  "invoiceId must not be absolute or traverse outside the data directory.".
Definition no_file_specified : string :=
  "invoiceId must specify a file within the data directory.".
Definition not_inside : string :=
  "invoiceId must resolve inside the data directory.".

(** Lines 228-241 of [_load_invoice_from_data]: the checks made on the text
    of the identifier, and the relative path they leave. [invoice_id] is a
    [str], so [invoice_id or ""] is [invoice_id]. *)
Definition request_path_of (_DATA_DIRECTORY : Path.t) (invoice_id : string) : result Path.t :=
  let sanitized_id := PyStr.strip invoice_id in
  if negb (PyStr.truthy sanitized_id)
  then Err (Exn ValueError not_relative)
  else
    let request_path := Path.of_string sanitized_id in
    if Path.is_absolute request_path || PyStr.mem ".." (Path.parts request_path)
    then Err (Exn ValueError not_absolute_or_traversing)
    else
      let request_parts := Path.parts request_path in
      let data_segment := PyStr.lower (Path.name _DATA_DIRECTORY) in
      match request_parts with
      | first :: rest =>
          if PyStr.lower first =? data_segment
          then
            match rest with
            | [] => Err (Exn ValueError no_file_specified)
            | _ => Ok (Path.of_segments rest)
            end
          else Ok request_path
      | [] => Ok request_path
      end.

(** Lines 227-260. *)
Definition _load_invoice_from_data (w : World) (_DATA_DIRECTORY : Path.t)
    (invoice_id : string) : M StoredFile.t :=
  request_path <- lift (request_path_of _DATA_DIRECTORY invoice_id) ;;
  let data_root := _DATA_DIRECTORY in
  target_path <- Path_resolve w (Path.joinpath data_root request_path) ;;
  if negb (String.prefix (Path.to_string data_root) (Path.to_string target_path))
  then raise (Exn ValueError not_inside)
  else
    present <- Path_exists w target_path ;;
    if negb present
    then raise (Exn FileNotFoundError (Path.to_string target_path))
    else
      let guessed_type := guess_type w (Path.name target_path) in
      log logging DEBUG "Resolved invoiceId '%s' to %s (contentType=%s)"
        [AStr (PyStr.strip invoice_id); APath target_path; AOpt guessed_type] ;;;
      ret {| StoredFile.path := target_path;
             StoredFile.content_type := guessed_type;
             StoredFile.file_name := Path.name target_path |}.

(** The two-key object of a failure. *)
Definition error_envelope (error details : string) : json :=
  JDict [("error", JStr error); ("details", JStr details)].

Definition fileName_is_required : json :=
  error_envelope "fileName is required"
    "Provide the file name relative to the data directory, for example invoice_sample.jpg.".

(** Lines 157-162 of [analyze_invoice]. [loaded] is the outcome of
    [json.loads(context)]; the result is either the response returned from the
    [except] clause or the argument map. *)
Definition decode_arguments (loaded : result json) : M (json + json) :=
  try_except
    (content <- lift loaded ;;
     arguments <- get_default content "arguments" (JDict []) ;;
     ret (inr arguments))
    (fun err =>
       if isinstance err TypeError || isinstance err JSONDecodeError
       then Some (log logging EXCEPTION "Failed to decode tool arguments for analyze_invoice" [] ;;;
                  ret (inl (error_envelope "Invalid request payload" (str_of err))))
       else None).

(** Lines 177-189 of [analyze_invoice]: the stored file, or the response
    returned from one of the two [except] clauses. *)
Definition load_or_report (w : World) (_DATA_DIRECTORY : Path.t)
    (source_identifier : string) : M (json + StoredFile.t) :=
  try_except
    (stored <- _load_invoice_from_data w _DATA_DIRECTORY source_identifier ;;
     ret (inr stored))
    (fun exc =>
       if isinstance exc FileNotFoundError
       then Some (log logging ERROR "Invoice '%s' was not found under %s"
                    [AStr source_identifier; APath _DATA_DIRECTORY] ;;;
                  ret (inl (error_envelope "Invoice sample not found"
                              ("Add " ++ source_identifier ++ " to the data directory."))))
       else if isinstance exc ValueError
       then Some (log logging ERROR "Invalid invoice identifier '%s': %s"
                    [AStr source_identifier; AExn exc] ;;;
                  ret (inl (error_envelope "Invalid file reference" (str_of exc))))
       else None).

(** Lines 191-209 of [analyze_invoice]: the request built for the service
    from the arguments and the stored file. *)
Definition request_of (file_name_argument content_type analyzer_id : option string)
    (stored_invoice : StoredFile.t) : InvoiceAnalysisRequest.t :=
  let file_name :=
    PyStr.or_str file_name_argument (StoredFile.file_name stored_invoice) in
  let content_type :=
    if negb (PyStr.opt_truthy content_type)
       && PyStr.opt_truthy (StoredFile.content_type stored_invoice)
    then StoredFile.content_type stored_invoice
    else content_type in
  {| InvoiceAnalysisRequest.file_path := StoredFile.path stored_invoice;
     InvoiceAnalysisRequest.content_type := PyStr.or_none content_type;
     InvoiceAnalysisRequest.file_name := PyStr.or_none (Some file_name);
     InvoiceAnalysisRequest.analyzer_id := PyStr.or_none analyzer_id |}.

(** Lines 191-217 of [analyze_invoice]. *)
Definition analyze_stored (w' : World) (arguments : json)
    (file_name_argument content_type : option string)
    (stored_invoice : StoredFile.t) : M json :=
  let file_name :=
    PyStr.or_str file_name_argument (StoredFile.file_name stored_invoice) in
  let content_type' :=
    if negb (PyStr.opt_truthy content_type)
       && PyStr.opt_truthy (StoredFile.content_type stored_invoice)
    then StoredFile.content_type stored_invoice
    else content_type in
  analyzer_id <- _get_trimmed_argument arguments _INVOICE_ANALYZER_ID_PROPERTY_NAME ;;
  log logging INFO
    "Starting invoice analysis: file=%s, path=%s, contentType=%s, analyzerId=%s"
    [AStr file_name; APath (StoredFile.path stored_invoice);
     AOpt (PyStr.or_opt content_type' (StoredFile.content_type stored_invoice));
     AStr (PyStr.or_str analyzer_id "<default>")] ;;;
  let request := request_of file_name_argument content_type analyzer_id stored_invoice in
  try_except
    (ContentUnderstandingService.analyze_invoice w' request)
    (fun exc =>
       if isinstance exc ContentUnderstandingServiceError
       then Some (log logging ERROR "Invoice analysis failed: %s" [AExn exc] ;;;
                  ret (error_envelope "Unable to analyze invoice" (str_of exc)))
       else None).

(** Lines 164-217 of [analyze_invoice]. *)
Definition analyze_arguments (w w' : World) (_DATA_DIRECTORY : Path.t)
    (arguments : json) : M json :=
  invoice_id <- _get_trimmed_argument arguments _INVOICE_ID_PROPERTY_NAME ;;
  file_name_argument <- _get_trimmed_argument arguments _INVOICE_FILE_NAME_PROPERTY_NAME ;;
  content_type <- _get_trimmed_argument arguments _INVOICE_CONTENT_TYPE_PROPERTY_NAME ;;
  match PyStr.or_opt invoice_id file_name_argument with
  | None => ret fileName_is_required
  | Some source_identifier =>
      if negb (PyStr.truthy source_identifier)
      then ret fileName_is_required
      else
        loaded_invoice <- load_or_report w _DATA_DIRECTORY source_identifier ;;
        match loaded_invoice with
        | inl response => ret response
        | inr stored_invoice =>
            analyze_stored w' arguments file_name_argument content_type stored_invoice
        end
  end.

(** Lines 154-217, from the pieces above. [w] is the world while the
    identifier is resolved and [w'] the world while the service runs. The
    value returned is the object handed to [json.dumps]. *)
Definition analyze_invoice (w w' : World) (_DATA_DIRECTORY : Path.t)
    (loaded : result json) : M json :=
  decoded <- decode_arguments loaded ;;
  match decoded with
  | inl response => ret response
  | inr arguments => analyze_arguments w w' _DATA_DIRECTORY arguments
  end.

End function_app.

(* ===================================================================== *)
(** ** A concrete world: a POSIX file system with symbolic links, an
       environment given as a list, and the decimal reader of [float] *)
(* ===================================================================== *)

Module PyFloat.

Definition digit_of (c : ascii) : option Z :=
  let n := N_of_ascii c in
  if ((48 <=? n) && (n <=? 57))%N then Some (Z.of_N n - 48)%Z else None.

(** Reads the digits at the head of [s]: their value after [acc], how many
    there are, and what follows them. *)
Fixpoint digits (s : string) (acc : Z) (count : nat) : Z * nat * string :=
  match s with
  | String c s' =>
      match digit_of c with
      | Some d => digits s' (10 * acc + d)%Z (S count)
      | None => (acc, count, s)
      end
  | EmptyString => (acc, count, s)
  end.

Definition sign_of (s : string) : bool * string :=
  match s with
  | String "-" s' => (true, s')
  | String "+" s' => (false, s')
  | _ => (false, s)
  end.

(** The exponent part: empty, or [e], an optional sign and digits. *)
Definition exponent (s : string) : option Z :=
  match s with
  | EmptyString => Some 0%Z
  | String "e" s' =>
      let '(neg, body) := sign_of s' in
      match digits body 0 0 with
      | (_, O, _) => None
      | (v, _, EmptyString) => Some (if neg then - v else v)%Z
      | _ => None
      end
  | _ => None
  end.

(** [m * 10 ^ e10], rounded to the nearest binary64 value. *)
Definition of_decimal (neg : bool) (m e10 : Z) : spec_float :=
  let signed (x : Z) := if neg then (- x)%Z else x in
  if (m =? 0)%Z then S754_zero neg
  else if (0 <=? e10)%Z
  then binary_normalize 53 1024 (signed (m * 10 ^ e10)%Z) 0 neg
  else
    let d := (10 ^ (- e10))%Z in
    let k := (64 + Z.log2 d + 1)%Z in
    let q := ((m * 2 ^ k) / d)%Z in
    let sticky := if ((m * 2 ^ k) mod d =? 0)%Z then 0%Z else 1%Z in
    binary_normalize 53 1024 (signed (2 * q + sticky)%Z) (- (k + 1)) neg.

(** The builtin [float] on text: surrounding white space, a sign, then
    [inf], [infinity] or [nan] in any case, or decimal digits with an optional
    fraction and exponent. Digit-group underscores are not read. *)
Definition parse (text : string) : option spec_float :=
  let '(neg, body) := sign_of (PyStr.lower (PyStr.strip text)) in
  if (body =? "inf") || (body =? "infinity") then Some (S754_infinity neg)
  else if body =? "nan" then Some S754_nan
  else
    let '(int_value, int_count, after_int) := digits body 0 0 in
    let '(value, frac_count, after_frac) :=
      match after_int with
      | String "." s' => digits s' int_value 0
      | _ => (int_value, O, after_int)
      end in
    match (int_count + frac_count)%nat with
    | O => None
    | _ =>
        match exponent after_frac with
        | Some e => Some (of_decimal neg value (e - Z.of_nat frac_count))
        | None => None
        end
    end.

End PyFloat.

Module Posix.

Inductive node : Type :=
| File (size : N)
| Dir
| Symlink (target : string).

(** The entries of the file system, by absolute path. *)
Definition filesystem : Type := list (string * node).

Fixpoint assoc {A : Type} (l : list (string * A)) (k : string) : option A :=
  match l with
  | [] => None
  | (k', v) :: rest => if k' =? k then Some v else assoc rest k
  end.

Definition absolute (names : list string) : Path.t :=
  {| Path.root := "/"; Path.names := names |}.

(** [os.path.realpath]: walks the components, follows every symbolic link
    and steps back at [..]; [fuel] bounds the walk through chains of links. *)
Fixpoint realpath (fuel : nat) (fs : filesystem) (resolved rest : list string)
  : list string :=
  match fuel with
  | O => (resolved ++ rest)%list
  | S fuel' =>
      match rest with
      | [] => resolved
      | name :: rest' =>
          if name =? ".." then realpath fuel' fs (removelast resolved) rest'
          else
            let newpath := (resolved ++ [name])%list in
            match assoc fs (Path.to_string (absolute newpath)) with
            | Some (Symlink target) =>
                let link := Path.of_string target in
                realpath fuel' fs
                  (if Path.is_absolute link then [] else resolved)
                  (Path.names link ++ rest')%list
            | _ => realpath fuel' fs newpath rest'
            end
      end
  end.

Definition canonical (fs : filesystem) (p : Path.t) : Path.t :=
  absolute (realpath 64 fs [] (Path.names p)).

Definition exists_ (fs : filesystem) (p : Path.t) : bool :=
  match assoc fs (Path.to_string (canonical fs p)) with
  | Some (File _) | Some Dir => true
  | _ => false
  end.

Definition size_of (fs : filesystem) (p : Path.t) : N :=
  match assoc fs (Path.to_string (canonical fs p)) with
  | Some (File n) => n
  | _ => 4096
  end.

(** The type map of [mimetypes], for the suffixes of the samples. *)
Fixpoint suffix_of (s : string) : string :=
  match s with
  | EmptyString => EmptyString
  | String c s' =>
      let rest := suffix_of s' in
      if PyStr.contains "." s' then rest else if (c =? ".")%char then s else rest
  end.

Definition type_map (name : string) : option string :=
  assoc [ (".pdf", "application/pdf"); (".jpg", "image/jpeg");
          (".png", "image/png"); (".txt", "text/plain") ]
        (PyStr.lower (suffix_of name)).

(** A world over a file system and an environment, in which credentials and
    clients are always constructed, and the analyzer service answers
    [submit] to every submission and [poll] to every poll. *)
Definition world (env : list (string * string)) (fs : filesystem)
    (submit : result Operation) (poll : result json) : World :=
  {| getenv := assoc env;
     float_of_str := PyFloat.parse;
     guess_type := type_map;
     resolve := canonical fs;
     path_exists := exists_ fs;
     st_size := size_of fs;
     credential_init := fun _ => None;
     token_provider_init := fun _ => None;
     client_init := fun _ => None;
     begin_analyze := fun _ _ _ _ => submit;
     poll_result := fun _ _ _ _ => poll |}.

End Posix.

(* ===================================================================== *)
(** ** Values the statements refer to *)
(* ===================================================================== *)

(** The value of [_get_trimmed_argument] on a dictionary. *)
Definition trimmed (d : Dict.t) (key : string) : option string :=
  match Dict.lookup d key with
  | Some (JStr text) => Some (PyStr.strip text)
  | _ => None
  end.

(** The value [_get_float_env] returns. *)
Definition float_env_value (w : World) (name : string) (default : spec_float) : spec_float :=
  match getenv w name with
  | None => default
  | Some raw =>
      match float_of_str w raw with
      | Some value => if SFleb value float_zero then default else value
      | None => default
      end
  end.

(** The warning [_get_float_env] logs when it falls back to the default. *)
Definition float_env_warning (w : World) (name : string) (default : spec_float) : list event :=
  match getenv w name with
  | None => []
  | Some raw =>
      let warning := [Log logging WARNING "Ignoring invalid %s value '%s'; using default %.2f"
                        [AStr name; AStr raw; AFloat default]] in
      match float_of_str w raw with
      | Some value => if SFleb value float_zero then warning else []
      | None => warning
      end
  end.

(** The snapshot [_ensure_configuration] builds from the environment. *)
Definition config_of_env (w : World) : _ServiceConfig.t :=
  let analyzer_id :=
    PyStr.strip (PyStr.or_str (getenv w "CONTENT_UNDERSTANDING_ANALYZER_ID")
                   ContentUnderstandingService._DEFAULT_ANALYZER_ID) in
  let api_version :=
    PyStr.strip (PyStr.or_str (getenv w "CONTENT_UNDERSTANDING_API_VERSION")
                   ContentUnderstandingService._DEFAULT_API_VERSION) in
  {| _ServiceConfig.endpoint :=
       PyStr.strip (PyStr.or_str (getenv w "CONTENT_UNDERSTANDING_ENDPOINT") "");
     _ServiceConfig.analyzer_id :=
       if negb (PyStr.truthy analyzer_id)
       then ContentUnderstandingService._DEFAULT_ANALYZER_ID else analyzer_id;
     _ServiceConfig.api_version :=
       if negb (PyStr.truthy api_version)
       then ContentUnderstandingService._DEFAULT_API_VERSION else api_version;
     _ServiceConfig.user_agent :=
       PyStr.strip (PyStr.or_str (getenv w "CONTENT_UNDERSTANDING_USER_AGENT")
                      ContentUnderstandingService._DEFAULT_USER_AGENT);
     _ServiceConfig.poll_interval_seconds :=
       float_env_value w "CONTENT_UNDERSTANDING_POLL_INTERVAL_SECONDS"
         ContentUnderstandingService._DEFAULT_POLL_INTERVAL_SECONDS;
     _ServiceConfig.poll_timeout_seconds :=
       float_env_value w "CONTENT_UNDERSTANDING_POLL_TIMEOUT_SECONDS"
         ContentUnderstandingService._DEFAULT_POLL_TIMEOUT_SECONDS;
     _ServiceConfig.subscription_key :=
       PyStr.or_none
         (Some (PyStr.strip (PyStr.or_str (getenv w "CONTENT_UNDERSTANDING_API_KEY") ""))) |}.

(** The service object once [config] is cached. *)
Definition with_config (s : service) (config : _ServiceConfig.t) : service :=
  {| _config := Some config; _credential := _credential s; _client := _client s |}.

(** [config] with another subscription key. *)
Definition with_subscription_key (config : _ServiceConfig.t) (key : option string)
  : _ServiceConfig.t :=
  {| _ServiceConfig.endpoint := _ServiceConfig.endpoint config;
     _ServiceConfig.analyzer_id := _ServiceConfig.analyzer_id config;
     _ServiceConfig.api_version := _ServiceConfig.api_version config;
     _ServiceConfig.user_agent := _ServiceConfig.user_agent config;
     _ServiceConfig.poll_interval_seconds := _ServiceConfig.poll_interval_seconds config;
     _ServiceConfig.poll_timeout_seconds := _ServiceConfig.poll_timeout_seconds config;
     _ServiceConfig.subscription_key := key |}.

(* ===================================================================== *)
(** ** A sample deployment *)
(* ===================================================================== *)

Module Sample.

(** The data directory with one invoice and a link to a sibling directory
    whose name starts with the name of the data directory. *)
Definition fs : Posix.filesystem :=
  [ ("/srv", Posix.Dir);
    ("/srv/app", Posix.Dir);
    ("/srv/app/data", Posix.Dir);
    ("/srv/app/data/invoice_sample.jpg", Posix.File 48213);
    ("/srv/app/data/archive", Posix.Symlink "../data-archive");
    ("/srv/app/data-archive", Posix.Dir);
    ("/srv/app/data-archive/payroll.pdf", Posix.File 9120) ].

Definition _DATA_DIRECTORY : Path.t := Path.of_string "/srv/app/data".

Definition endpoint : string := "https://cu.example.com".

Definition env : list (string * string) :=
  [ ("CONTENT_UNDERSTANDING_ENDPOINT", endpoint) ].

Definition payload : json :=
  JDict [ ("status", JStr "Succeeded");
          ("result", JDict [("contents", JList [JDict [("kind", JStr "document")]])]) ].

Definition operation : Operation := JStr "analyzerResults/1".

(** The analyzer answers every submission and every poll. *)
Definition world (env : list (string * string)) : World :=
  Posix.world env fs (Ok operation) (Ok payload).

(** The analyzer cannot be reached. *)
Definition unreachable : World :=
  Posix.world env fs (Err (Exn OSError "connection refused")) (Ok payload).

Definition invoice : Path.t := Path.of_string "/srv/app/data/invoice_sample.jpg".

Definition request (analyzer_id : option string) : InvoiceAnalysisRequest.t :=
  {| InvoiceAnalysisRequest.file_path := invoice;
     InvoiceAnalysisRequest.content_type := Some "image/jpeg";
     InvoiceAnalysisRequest.file_name := Some "invoice_sample.jpg";
     InvoiceAnalysisRequest.analyzer_id := analyzer_id |}.

Definition config : _ServiceConfig.t := Eval vm_compute in config_of_env (world env).

Definition client : Client.t :=
  {| Client.endpoint := endpoint;
     Client.api_version := ContentUnderstandingService._DEFAULT_API_VERSION;
     Client.token_provider :=
       Some (get_bearer_token_provider (DefaultAzureCredential true)
               ContentUnderstandingService._AUTH_SCOPE);
     Client.subscription_key := None;
     Client.x_ms_useragent := ContentUnderstandingService._DEFAULT_USER_AGENT |}.

(** The service object after a first successful call. *)
Definition warm : service :=
  {| _config := Some config;
     _credential := Some (DefaultAzureCredential true);
     _client := Some client |}.

(** The argument map of a tool call. *)
Definition call (arguments : Dict.t) : result json :=
  Ok (JDict [("arguments", JDict arguments)]).

End Sample.

(* ===================================================================== *)
(** ** Further values the statements refer to *)
(* ===================================================================== *)

Fixpoint has_slash (x : string) : bool :=
  match x with
  | EmptyString => false
  | String c x' => (c =? "/")%char || has_slash x'
  end.

(** One component of a path, as [Path.of_string] keeps them: not empty, not
    ".", and without a separator. *)
Definition is_component (x : string) : bool :=
  negb (has_slash x) && Path.keep_component x.

(** A relative path with the given components. *)
Definition relative (names : list string) : Path.t :=
  {| Path.root := ""; Path.names := names |}.

(** Is the event a call of the analyzer client? *)
Definition is_submission (e : event) : bool :=
  match e with
  | BeginAnalyze _ _ _ _ => true
  | _ => false
  end.

Definition is_poll (e : event) : bool :=
  match e with
  | PollResult _ _ _ _ => true
  | _ => false
  end.

(** Is the event a construction of a credential, a token provider or a client? *)
Definition is_construction (e : event) : bool :=
  match e with
  | NewCredential _ | NewTokenProvider _ | NewClient _ => true
  | _ => false
  end.

(** Is the event a call to the file system? *)
Definition is_file_access (e : event) : bool :=
  match e with
  | Resolve _ | Exists _ | Stat _ => true
  | _ => false
  end.

(* ===================================================================== *)
(** * weather_service.py and the [get_weather] tool *)
(* ===================================================================== *)

(** The weather code keeps no state of its own (the session and the timeout
    are set once, in [__init__]), and it raises and catches other exception
    classes than the invoice code: it has its own exception type, its own
    trace, and a writer monad with exceptions. *)
Module Weather.

(** The classes the code raises, names in an [except] clause, or lets through. *)
Inductive error_class : Type :=
| WeatherServiceError        (* RuntimeError *)
| HTTPError                  (* requests.HTTPError *)
| RequestsJSONDecodeError    (* requests.exceptions.JSONDecodeError *)
| RequestException           (* every other requests.RequestException *)
| JSONDecodeError            (* json.JSONDecodeError *)
| ValueError
| TypeError
| AttributeError
| KeyError
| IndexError
| OverflowError
| OtherError.

(** What the handler of line 122 reads of [exc.response]: its truth value and
    its [status_code]. *)
Record attached_response : Type := {
  truth : bool;
  status_code : Z }.

(** An exception object: its class, [str(exc)], and the [response] attribute
    of a request exception ([None] when there is none). *)
Record error : Type := Error {
  class_of : error_class;
  str_of : string;
  response : option attached_response }.

Definition error_class_eqb (a b : error_class) : bool :=
  match a, b with
  | WeatherServiceError, WeatherServiceError | HTTPError, HTTPError
  | RequestsJSONDecodeError, RequestsJSONDecodeError
  | RequestException, RequestException | JSONDecodeError, JSONDecodeError
  | ValueError, ValueError | TypeError, TypeError | AttributeError, AttributeError
  | KeyError, KeyError | IndexError, IndexError | OverflowError, OverflowError
  | OtherError, OtherError => true
  | _, _ => false
  end.

(** [issubclass]: [HTTPError] derives from [RequestException];
    [json.JSONDecodeError] from [ValueError]; the decoding error of [requests]
    (the class [Response.json] raises since requests 2.27) derives from
    [RequestException] and from [json.JSONDecodeError]. *)
Definition issubclass (c base : error_class) : bool :=
  match c, base with
  | HTTPError, RequestException => true
  | RequestsJSONDecodeError, (RequestException | JSONDecodeError | ValueError) => true
  | JSONDecodeError, ValueError => true
  | _, _ => error_class_eqb c base
  end.

(** Does [except base] catch [e]? *)
Definition isinstance (e : error) (base : error_class) : bool :=
  issubclass (class_of e) base.

Inductive outcome (A : Type) : Type :=
| Returns (a : A)
| Raises (e : error).
Arguments Returns {A} a.
Arguments Raises {A} e.

(** The object [session.get] returns: what [raise_for_status()] raises, if
    anything, and what [json()] returns or raises. *)
Module Response.
Record t : Type := mk {
  raise_for_status : option error;
  json : outcome json }.
End Response.

(** The outside of the weather code. *)
Record Web : Type := {
  (** [session.get(url, params=params, timeout=timeout)] *)
  session_get : string -> Dict.t -> Z -> outcome Response.t;
  (** [float(text)] of a [str]; [None] when it raises [ValueError]. *)
  float_of_str : string -> option spec_float }.

Inductive log_arg : Type :=
| AText (s : string)
| AStatus (z : Z)
| AError (e : error)
| AValue (v : json).

Inductive event : Type :=
| Get (url : string) (params : Dict.t) (timeout : Z)
| Log (lv : level) (fmt : string) (args : list log_arg).

(** A computation yields the events it emitted and a value or the exception
    it raised. *)
Definition W (A : Type) : Type := (list event * outcome A)%type.

Definition ret {A : Type} (a : A) : W A := ([], Returns a).

Definition raise {A : Type} (e : error) : W A := ([], Raises e).

Definition bind {A B : Type} (m : W A) (k : A -> W B) : W B :=
  match m with
  | (t, Returns a) => let '(t', r) := k a in ((t ++ t')%list, r)
  | (t, Raises e) => (t, Raises e)
  end.

Declare Scope weather_scope.
Delimit Scope weather_scope with weather.
Notation "x <- m ;; k" := (bind m (fun x => k))
  (at level 61, m at next level, right associativity) : weather_scope.
Notation "m ;;; k" := (bind m (fun _ => k))
  (at level 61, right associativity) : weather_scope.
Local Open Scope weather_scope.

Definition lift {A : Type} (r : outcome A) : W A := ([], r).

(** [try: body  except ...: handler]. [handler e] is [None] when no [except]
    clause catches [e], which then propagates. *)
Definition try_except {A : Type} (body : W A) (handler : error -> option (W A)) : W A :=
  match body with
  | (t, Returns a) => (t, Returns a)
  | (t, Raises e) =>
      match handler e with
      | Some h => let '(t', r) := h in ((t ++ t')%list, r)
      | None => (t, Raises e)
      end
  end.

Definition log (lv : level) (fmt : string) (args : list log_arg) : W unit :=
  ([Log lv fmt args], Returns tt).

(** An exception raised by the code itself: it has no response attached. *)
Definition error_of (c : error_class) (message : string) : error :=
  {| class_of := c; str_of := message; response := None |}.

(** *** Operations on decoded values *)

(** [bool(v)] *)
Definition truthy (v : json) : bool :=
  match v with
  | JNull => false
  | JBool b => b
  | JInt z => negb (z =? 0)%Z
  | JFloat f => negb (SFeqb f float_zero)
  | JStr s => PyStr.truthy s
  | JList l => match l with [] => false | _ :: _ => true end
  | JDict d => match d with [] => false | _ :: _ => true end
  end.

(** [a or b] *)
Definition or_else (a b : json) : json := if truthy a then a else b.

(** [d.get(key)] and [d.get(key, default)] of a [dict] *)
Definition field (d : Dict.t) (key : string) : json :=
  match Dict.lookup d key with
  | Some v => v
  | None => JNull
  end.

Definition field_default (d : Dict.t) (key : string) (default : json) : json :=
  match Dict.lookup d key with
  | Some v => v
  | None => default
  end.

(** [value.<method>] on a value that has no such method. *)
Definition no_attribute (value : json) (method : string) : error :=
  error_of AttributeError
    ("'" ++ type_name value ++ "' object has no attribute '" ++ method ++ "'").

(** [value.get(key)]: only a [dict] has the method. *)
Definition get (value : json) (key : string) : W json :=
  match value with
  | JDict d => ret (field d key)
  | other => raise (no_attribute other "get")
  end.

(** [value.get(key, default)] *)
Definition get_default (value : json) (key : string) (default : json) : W json :=
  match value with
  | JDict d => ret (field_default d key default)
  | other => raise (no_attribute other "get")
  end.

(** [value.strip()]: only a [str] has the method. *)
Definition strip (value : json) : W string :=
  match value with
  | JStr text => ret (PyStr.strip text)
  | other => raise (no_attribute other "strip")
  end.

(** [d[key]] of a [dict]: [str(KeyError(key))] is [repr(key)]. *)
Definition getitem (d : Dict.t) (key : string) : W json :=
  match Dict.lookup d key with
  | Some v => ret v
  | None => raise (error_of KeyError ("'" ++ key ++ "'"))
  end.

(** [value[0]] *)
Definition first_item (value : json) : W json :=
  match value with
  | JList (x :: _) => ret x
  | JList [] => raise (error_of IndexError "list index out of range")
  | JStr (String c _) => ret (JStr (String c ""))
  | JStr EmptyString => raise (error_of IndexError "string index out of range")
  | JDict _ => raise (error_of KeyError "0")
  | other =>
      raise (error_of TypeError ("'" ++ type_name other ++ "' object is not subscriptable"))
  end.

(** [key in value] *)
Definition is_text (key : string) (v : json) : bool :=
  match v with
  | JStr s => s =? key
  | _ => false
  end.

Definition contains (key : string) (value : json) : W bool :=
  match value with
  | JDict d => ret (match Dict.lookup d key with Some _ => true | None => false end)
  | JList l => ret (existsb (is_text key) l)
  | JStr s => ret (PyStr.contains key s)
  | other =>
      raise (error_of TypeError ("argument of type '" ++ type_name other ++ "' is not iterable"))
  end.

(** [float(value)]: a [float] is itself, an [int] (and a [bool]) is rounded to
    the nearest double and refused when it is too large, a [str] is parsed,
    anything else is a [TypeError]. *)
Definition float (web : Web) (value : json) : W spec_float :=
  match value with
  | JFloat f => ret f
  | JInt z =>
      match float_of_Z z with
      | S754_infinity _ => raise (error_of OverflowError "int too large to convert to float")
      | f => ret f
      end
  | JBool b => ret (float_of_Z (if b then 1 else 0))
  | JStr text =>
      match float_of_str web text with
      | Some f => ret f
      | None =>
          raise (error_of ValueError ("could not convert string to float: '" ++ text ++ "'"))
      end
  | other =>
      raise (error_of TypeError
               ("float() argument must be a string or a real number, not '"
                ++ type_name other ++ "'"))
  end.

(** *** The service *)

Module Location.
Record t : Type := mk {
  name : json;
  country : json;
  latitude : spec_float;
  longitude : spec_float }.
End Location.

Module WeatherService.

Definition _GEOCODING_ENDPOINT : string := "https://geocoding-api.open-meteo.com/v1/search".
Definition _WEATHER_ENDPOINT : string := "https://api.open-meteo.com/v1/forecast".

(** The attributes [__init__] sets, less the session, which is the [Web]. *)
Record t : Type := mk { _timeout : Z }.

(** [WeatherService()]: [timeout_seconds: int = 10]. *)
Definition __init__ : t := {| _timeout := 10 |}.

Definition error_response : string := "Weather service returned an error response".
Definition unreachable : string := "Unable to reach the weather service".
Definition unexpected_data : string := "Received unexpected data from the weather service".
Definition missing_current : string := "Weather API response missing current conditions".

Definition no_results (city_name : string) : string :=
  "No results found for '" ++ city_name ++ "'".

(** Line 122: [exc.response.status_code if exc.response else "unknown"]. *)
Definition status_of (exc : error) : log_arg :=
  match response exc with
  | Some r => if truth r then AStatus (status_code r) else AText "unknown"
  | None => AText "unknown"
  end.

(** Lines 116-129. *)
Definition _perform_get (web : Web) (self : t) (url : string) (params : Dict.t) : W json :=
  try_except
    (response <- ([Get url params (_timeout self)],
                  session_get web url params (_timeout self)) ;;
     match Response.raise_for_status response with
     | Some exc => raise exc
     | None => lift (Response.json response)
     end)
    (fun exc =>
       if isinstance exc HTTPError then
         Some (log EXCEPTION "Weather API returned HTTP %s" [status_of exc] ;;;
               raise (error_of WeatherServiceError error_response))
       else if isinstance exc RequestException then
         Some (log EXCEPTION "Weather API request failed: %s" [AError exc] ;;;
               raise (error_of WeatherServiceError unreachable))
       else if isinstance exc ValueError then
         Some (log EXCEPTION "Failed to decode weather API response" [] ;;;
               raise (error_of WeatherServiceError unexpected_data))
       else None).

(** Lines 82-89: the parameters of the geocoding request. *)
Definition geocoding_params (city_name : string) (country_code : json) : Dict.t :=
  ([("name", JStr city_name); ("count", JInt 1); ("language", JStr "en");
    ("format", JStr "json")]
   ++ (if truthy country_code then [("country", country_code)] else []))%list.

(** Lines 92-102 of [_resolve_location]: the location the payload holds.
    [city.get] is the first use of [city], so that a first result that is no
    [dict] raises there. *)
Definition location_of (web : Web) (city_name : string) (payload : json) : W Location.t :=
  found <- get payload "results" ;;
  let results := or_else found (JList []) in
  if negb (truthy results) then
    raise (error_of WeatherServiceError (no_results city_name))
  else
    city <- first_item results ;;
    match city with
    | JDict c =>
        let name := field_default c "name" (JStr city_name) in
        let country := field c "country" in
        latitude <- (raw <- getitem c "latitude" ;; float web raw) ;;
        longitude <- (raw <- getitem c "longitude" ;; float web raw) ;;
        ret {| Location.name := name;
               Location.country := country;
               Location.latitude := latitude;
               Location.longitude := longitude |}
    | other => raise (no_attribute other "get")
    end.

(** Lines 81-102. *)
Definition _resolve_location (web : Web) (self : t) (city_name : string)
    (country_code : json) : W Location.t :=
  payload <- _perform_get web self _GEOCODING_ENDPOINT
               (geocoding_params city_name country_code) ;;
  location_of web city_name payload.

Definition current_readings : string :=
  "temperature_2m,relative_humidity_2m,wind_speed_10m,wind_direction_10m,precipitation,weather_code".

(** Lines 105-109: the parameters of the forecast request. *)
Definition forecast_params (location : Location.t) : Dict.t :=
  [("latitude", JFloat (Location.latitude location));
   ("longitude", JFloat (Location.longitude location));
   ("current", JStr current_readings)].

(** Lines 112-114 of [_fetch_weather]. *)
Definition with_current (payload : json) : W json :=
  present <- contains "current" payload ;;
  if negb present then raise (error_of WeatherServiceError missing_current)
  else ret payload.

(** Lines 104-114. *)
Definition _fetch_weather (web : Web) (self : t) (location : Location.t) : W json :=
  payload <- _perform_get web self _WEATHER_ENDPOINT (forecast_params location) ;;
  with_current payload.

(** One [{"value": ..., "unit": ...}] object of lines 49-70. *)
Definition reading (current units : Dict.t) (key : string) : json :=
  JDict [("value", field current key); ("unit", field units key)].

(** Lines 41-79: the dictionary returned. *)
Definition summary (location : Location.t) (current units : Dict.t) : json :=
  JDict
    [ ("location",
       JDict [ ("city", Location.name location);
               ("country", Location.country location);
               ("latitude", JFloat (Location.latitude location));
               ("longitude", JFloat (Location.longitude location)) ]);
      ("conditions",
       JDict [ ("temperature", reading current units "temperature_2m");
               ("relativeHumidity", reading current units "relative_humidity_2m");
               ("wind",
                JDict [ ("speed", reading current units "wind_speed_10m");
                        ("direction", reading current units "wind_direction_10m") ]);
               ("precipitation", reading current units "precipitation");
               ("weatherCode", field current "weather_code");
               ("time", field current "time") ]);
      ("attribution",
       JDict [ ("source", JStr "Open-Meteo");
               ("license", JStr "CC BY 4.0");
               ("url", JStr "https://open-meteo.com/") ]) ].

(** Lines 38-79 of [get_weather]. The first reading evaluated is
    [current.get], the second [units.get]: a value that is no [dict] raises
    there. *)
Definition summarize (location : Location.t) (weather_payload : json) : W json :=
  current <- get_default weather_payload "current" (JDict []) ;;
  units <- get_default weather_payload "current_units" (JDict []) ;;
  match current, units with
  | JDict c, JDict u => ret (summary location c u)
  | JDict _, other => raise (no_attribute other "get")
  | other, _ => raise (no_attribute other "get")
  end.

(** Lines 32-79. *)
Definition get_weather (web : Web) (self : t) (city_name : string) (country_code : json)
    : W json :=
  location <- _resolve_location web self city_name country_code ;;
  weather_payload <- _fetch_weather web self location ;;
  summarize location weather_payload.

End WeatherService.

(** *** The tool of function_app.py *)

Module function_app.

Definition _CITY_NAME_PROPERTY_NAME : string := "city".
Definition _COUNTRY_CODE_PROPERTY_NAME : string := "countryCode".

Definition city_name_is_required : json :=
  JDict [("error", JStr "City name is required")].

Definition error_envelope (error details : string) : json :=
  JDict [("error", JStr error); ("details", JStr details)].

(** Lines 126-133 of [get_weather]. [loaded] is the outcome of
    [json.loads(context)]; the result is either the response returned from the
    [except] clause, or the city name and the country code. *)
Definition decode_arguments (loaded : outcome json) : W (json + string * json) :=
  try_except
    (content <- lift loaded ;;
     arguments <- get_default content "arguments" (JDict []) ;;
     city <- get arguments _CITY_NAME_PROPERTY_NAME ;;
     city_name <- strip (or_else city (JStr "")) ;;
     country_code <- get arguments _COUNTRY_CODE_PROPERTY_NAME ;;
     ret (inr (city_name, country_code)))
    (fun err =>
       if isinstance err TypeError || isinstance err JSONDecodeError
       then Some (log EXCEPTION "Failed to decode tool arguments for get_weather" [] ;;;
                  ret (inl (error_envelope "Invalid request payload" (str_of err))))
       else None).

(** Lines 138-144 of [get_weather]. *)
Definition lookup_weather (web : Web) (weather_service : WeatherService.t)
    (city_name : string) (country_code : json) : W json :=
  try_except
    (WeatherService.get_weather web weather_service city_name country_code)
    (fun exc =>
       if isinstance exc WeatherServiceError
       then Some (log WARNING "Weather lookup failed for %s (%s)"
                    [AText city_name; AValue (or_else country_code (JStr "no country"))] ;;;
                  ret (error_envelope "Unable to retrieve weather information" (str_of exc)))
       else None).

(** Lines 123-144: the tool. The value is the document that [json.dumps]
    writes out. *)
Definition get_weather (web : Web) (weather_service : WeatherService.t)
    (loaded : outcome json) : W json :=
  decoded <- decode_arguments loaded ;;
  match decoded with
  | inl response => ret response
  | inr (city_name, country_code) =>
      if negb (PyStr.truthy city_name) then ret city_name_is_required
      else lookup_weather web weather_service city_name country_code
  end.

End function_app.

(** *** Values the statements refer to *)

(** Is the event a request? *)
Definition is_request (e : event) : bool :=
  match e with
  | Get _ _ _ => true
  | Log _ _ _ => false
  end.

(** The exceptions an [except] clause of [_perform_get] names. *)
Definition caught_by_perform_get (exc : error) : bool :=
  isinstance exc HTTPError || isinstance exc RequestException || isinstance exc ValueError.

(** A number as [float] takes it without raising: a [float], or an [int] that
    a double can hold. *)
Definition is_number (v : json) : bool :=
  match v with
  | JFloat _ => true
  | JInt z => match float_of_Z z with S754_infinity _ => false | _ => true end
  | _ => false
  end.

(** A value that is a [dict]. *)
Definition is_object (v : json) : bool :=
  match v with
  | JDict _ => true
  | _ => false
  end.

(** A geocoding payload of the expected shape: an object whose [results], if
    present and not null, is a list whose first element, if any, is an object
    with numeric [latitude] and [longitude]. *)
Definition geocoding_shape (payload : json) : bool :=
  match payload with
  | JDict d =>
      match field d "results" with
      | JNull | JList [] => true
      | JList (JDict c :: _) =>
          is_number (field c "latitude") && is_number (field c "longitude")
      | _ => false
      end
  | _ => false
  end.

(** A forecast payload of the expected shape: an object whose [current], if
    present, is an object, and whose [current_units], if present, is one. *)
Definition forecast_shape (payload : json) : bool :=
  match payload with
  | JDict d =>
      is_object (field_default d "current" (JDict []))
      && is_object (field_default d "current_units" (JDict []))
  | _ => false
  end.

(** The request returns [payload]: [session.get] returns a response for which
    [raise_for_status] raises nothing and [json] returns [payload]. *)
Definition request_returns (web : Web) (url : string) (params : Dict.t) (timeout : Z)
    (payload : json) : Prop :=
  exists r,
    session_get web url params timeout = Returns r
    /\ Response.raise_for_status r = None
    /\ Response.json r = Returns payload.

(** The request raises [exc]: [session.get] does, or [raise_for_status], or
    [json]. *)
Definition request_raises (web : Web) (url : string) (params : Dict.t) (timeout : Z)
    (exc : error) : Prop :=
  session_get web url params timeout = Raises exc
  \/ exists r,
       session_get web url params timeout = Returns r
       /\ (Response.raise_for_status r = Some exc
           \/ (Response.raise_for_status r = None /\ Response.json r = Raises exc)).

(** How a request, and the reading of its payload, can fail: with one of the
    errors of the service, whose message is one of the three of
    [_perform_get] or one of [others]; with an exception of the request that
    no [except] clause names; or, on a payload that has not the expected
    shape, with an exception that is not an error of the service. *)
Definition lookup_failure (web : Web) (url : string) (params : Dict.t) (timeout : Z)
    (shape : json -> bool) (others : list string) (e : error) : Prop :=
  (class_of e = WeatherServiceError
   /\ In (str_of e)
        (WeatherService.error_response :: WeatherService.unreachable
         :: WeatherService.unexpected_data :: others)
   /\ ((exists exc, request_raises web url params timeout exc
                    /\ caught_by_perform_get exc = true)
       \/ exists payload, request_returns web url params timeout payload))
  \/ (request_raises web url params timeout e /\ caught_by_perform_get e = false)
  \/ (exists payload,
         request_returns web url params timeout payload
         /\ shape payload = false
         /\ class_of e <> WeatherServiceError).

(** [location] is read from the first result of the geocoding request: its
    name is the one of the result, or the city asked for when the result has
    none; its coordinates are the [float] of those of the result. *)
Definition located (web : Web) (self : WeatherService.t) (city_name : string)
    (country_code : json) (location : Location.t) : Prop :=
  exists d c rest,
    request_returns web WeatherService._GEOCODING_ENDPOINT
      (WeatherService.geocoding_params city_name country_code)
      (WeatherService._timeout self) (JDict d)
    /\ field d "results" = JList (JDict c :: rest)
    /\ Location.name location = field_default c "name" (JStr city_name)
    /\ Location.country location = field c "country"
    /\ (exists raw,
           Dict.lookup c "latitude" = Some raw
           /\ float web raw = ([], Returns (Location.latitude location)))
    /\ (exists raw,
           Dict.lookup c "longitude" = Some raw
           /\ float web raw = ([], Returns (Location.longitude location))).

(** *** A small world to run the code in *)

Module Demo.

Definition number (text : string) : spec_float :=
  match PyFloat.parse text with
  | Some f => f
  | None => float_zero
  end.

Definition paris : json :=
  JDict [ ("id", JInt 2988507);
          ("name", JStr "Paris");
          ("latitude", JFloat (number "48.85341"));
          ("longitude", JFloat (number "2.3488"));
          ("country_code", JStr "FR");
          ("country", JStr "France") ].

(** The answer of the geocoding service to a name it knows, and to one it
    does not know. *)
Definition found : json :=
  JDict [("results", JList [paris]); ("generationtime_ms", JFloat (number "0.6"))].

Definition nothing_found : json :=
  JDict [("generationtime_ms", JFloat (number "0.3"))].

Definition forecast : json :=
  JDict [ ("latitude", JFloat (number "48.86"));
          ("longitude", JFloat (number "2.3399"));
          ("current_units",
           JDict [ ("time", JStr "iso8601");
                   ("relative_humidity_2m", JStr "%");
                   ("wind_speed_10m", JStr "km/h");
                   ("precipitation", JStr "mm");
                   ("weather_code", JStr "wmo code") ]);
          ("current",
           JDict [ ("time", JStr "2025-06-01T12:00");
                   ("temperature_2m", JFloat (number "21.4"));
                   ("relative_humidity_2m", JInt 48);
                   ("wind_speed_10m", JFloat (number "9.7"));
                   ("precipitation", JFloat (number "0.0"));
                   ("weather_code", JInt 3) ]) ].

(** A response with status 200 and the given body. *)
Definition ok (payload : json) : outcome Response.t :=
  Returns {| Response.raise_for_status := None; Response.json := Returns payload |}.

Definition timed_out : error :=
  {| class_of := RequestException; str_of := "Read timed out."; response := None |}.

Definition not_found : error :=
  {| class_of := HTTPError;
     str_of := "404 Client Error: Not Found for url";
     response := Some {| truth := false; status_code := 404 |} |}.

(** A session that answers the two endpoints as given, and nothing else. *)
Definition web (geocoding forecast : outcome Response.t) : Web :=
  {| session_get := fun url _ _ =>
       if url =? WeatherService._GEOCODING_ENDPOINT then geocoding
       else if url =? WeatherService._WEATHER_ENDPOINT then forecast
       else Raises {| class_of := RequestException;
                      str_of := "No connection adapters were found";
                      response := None |};
     float_of_str := PyFloat.parse |}.

(** The decoded context of a tool call with the given arguments. *)
Definition call (arguments : Dict.t) : outcome json :=
  Returns (JDict [("name", JStr "get_weather"); ("arguments", JDict arguments)]).

End Demo.

End Weather.

(* ===================================================================== *)
(** ** The embedding on small inputs *)
(* ===================================================================== *)

Example parts_of_dot : Path.parts (Path.of_string ".") = [].
Proof. reflexivity. Qed.

Example parts_of_nested :
  Path.parts (Path.of_string "data/./2024//inv.pdf") = ["data"; "2024"; "inv.pdf"].
Proof. reflexivity. Qed.

Example parts_of_absolute : Path.parts (Path.of_string "/etc/passwd") = ["/"; "etc"; "passwd"].
Proof. reflexivity. Qed.

Example parts_of_traversal :
  Path.parts (Path.of_string "a/../../etc") = ["a"; ".."; ".."; "etc"].
Proof. reflexivity. Qed.

Example strip_spaces : PyStr.strip "  data/x.pdf  " = "data/x.pdf".
Proof. reflexivity. Qed.

Example float_of_text :
  PyFloat.parse "abc" = None
  /\ PyFloat.parse "0" = Some (S754_zero false)
  /\ PyFloat.parse " 2.5 " = Some (S754_finite false 5629499534213120 (-51))
  /\ PyFloat.parse "-5" = Some (S754_finite true 5629499534213120 (-50))
  /\ PyFloat.parse "1e400" = Some (S754_infinity false)
  /\ PyFloat.parse "NaN" = Some S754_nan.
Proof. vm_compute. repeat split. Qed.

Example defaults_are_positive :
  strictly_positive ContentUnderstandingService._DEFAULT_POLL_INTERVAL_SECONDS = true
  /\ strictly_positive ContentUnderstandingService._DEFAULT_POLL_TIMEOUT_SECONDS = true.
Proof. split; reflexivity. Qed.

(** The overrides "-5", "abc" and "0" are replaced by the default, "0.5" is kept. *)
Example poll_interval_overrides :
  let value text :=
    float_env_value
      (Sample.world [("CONTENT_UNDERSTANDING_POLL_INTERVAL_SECONDS", text)])
      "CONTENT_UNDERSTANDING_POLL_INTERVAL_SECONDS"
      ContentUnderstandingService._DEFAULT_POLL_INTERVAL_SECONDS in
  value "-5" = ContentUnderstandingService._DEFAULT_POLL_INTERVAL_SECONDS
  /\ value "abc" = ContentUnderstandingService._DEFAULT_POLL_INTERVAL_SECONDS
  /\ value "0" = ContentUnderstandingService._DEFAULT_POLL_INTERVAL_SECONDS
  /\ value "0.5" = S754_finite false 4503599627370496 (-53).
Proof. vm_compute. repeat split. Qed.

(** The identifier may start with the name of the data directory, in any case;
    that name alone is refused. *)
Example data_prefix :
  function_app.request_path_of Sample._DATA_DIRECTORY "Data/invoice_sample.jpg"
  = Ok (Path.of_string "invoice_sample.jpg")
  /\ function_app.request_path_of Sample._DATA_DIRECTORY " DATA "
     = Err (Exn ValueError function_app.no_file_specified)
  /\ function_app.request_path_of Sample._DATA_DIRECTORY "/etc/passwd"
     = Err (Exn ValueError function_app.not_absolute_or_traversing)
  /\ function_app.request_path_of Sample._DATA_DIRECTORY "   "
     = Err (Exn ValueError function_app.not_relative).
Proof. vm_compute. repeat split. Qed.

(* ===================================================================== *)
(** ** Running the monad *)
(* ===================================================================== *)

Section Running.

Context {A B : Type}.

(** A step that emits nothing, keeps the state and returns [a] can be
    replaced by its value. *)
Lemma bind_pure (m : M A) (k : A -> M B) (s : service) (a : A) :
  m s = ([], s, Ok a) -> bind m k s = k a s.
Proof.
  intros H. unfold bind. rewrite H. destruct (k a s) as [[t' s''] r]. reflexivity.
Qed.

Lemma bind_ok (m : M A) (k : A -> M B) (s s' : service) (t : list event) (a : A) :
  m s = (t, s', Ok a) ->
  bind m k s = (let '(t', s'', r) := k a s' in ((t ++ t')%list, s'', r)).
Proof. intros H. unfold bind. rewrite H. reflexivity. Qed.

Lemma bind_err (m : M A) (k : A -> M B) (s s' : service) (t : list event) (e : exn) :
  m s = (t, s', Err e) -> bind m k s = (t, s', Err e).
Proof. intros H. unfold bind. rewrite H. reflexivity. Qed.

End Running.

Lemma get_trimmed_argument_dict (d : Dict.t) (key : string) (s : service) :
  function_app._get_trimmed_argument (JDict d) key s = ([], s, Ok (trimmed d key)).
Proof.
  unfold function_app._get_trimmed_argument, trimmed, function_app.get, bind, ret.
  destruct (Dict.lookup d key) as [[]|]; reflexivity.
Qed.

Lemma lookup_remove_same (d : Dict.t) (key : string) :
  Dict.lookup (Dict.remove key d) key = None.
Proof.
  induction d as [|[k v] d IH]; simpl; [reflexivity|].
  destruct (k =? key) eqn:E; [exact IH|]. simpl. rewrite E. exact IH.
Qed.

Lemma lookup_remove_other (d : Dict.t) (key other : string) :
  key <> other -> Dict.lookup (Dict.remove key d) other = Dict.lookup d other.
Proof.
  intros Hne. induction d as [|[k v] d IH]; simpl; [reflexivity|].
  destruct (k =? key) eqn:E.
  - apply String.eqb_eq in E. subst k.
    destruct (key =? other) eqn:E'; [apply String.eqb_eq in E'; contradiction | exact IH].
  - simpl. rewrite IH. reflexivity.
Qed.

(** Removing a key whose value is not a string changes no trimmed argument. *)
Lemma trimmed_remove_non_string (d : Dict.t) (key : string) (v : json) :
  Dict.lookup d key = Some v -> (forall text, v <> JStr text) ->
  forall other, trimmed (Dict.remove key d) other = trimmed d other.
Proof.
  intros Hv Hns other. unfold trimmed.
  destruct (string_dec key other) as [<-|Hne].
  - rewrite lookup_remove_same, Hv. destruct v; try reflexivity.
    exfalso. eapply Hns. reflexivity.
  - rewrite lookup_remove_other by assumption. reflexivity.
Qed.


Lemma decode_arguments_dict (c : Dict.t) (s : service) :
  function_app.decode_arguments (Ok (JDict c)) s
  = ([], s, Ok (inr (match Dict.lookup c "arguments" with
                     | Some v => v
                     | None => JDict []
                     end))).
Proof. reflexivity. Qed.

Lemma analyze_invoice_dict (w w' : World) (root : Path.t) (c : Dict.t) (s : service) :
  function_app.analyze_invoice w w' root (Ok (JDict c)) s
  = function_app.analyze_arguments w w' root
      (match Dict.lookup c "arguments" with
       | Some v => v
       | None => JDict []
       end) s.
Proof.
  unfold function_app.analyze_invoice.
  rewrite (bind_pure _ _ _ _ (decode_arguments_dict c s)). reflexivity.
Qed.

(** On a dictionary, the three arguments read first are its trimmed entries. *)
Lemma analyze_arguments_dict (w w' : World) (root : Path.t) (d : Dict.t) (s : service) :
  function_app.analyze_arguments w w' root (JDict d) s
  = match PyStr.or_opt (trimmed d "invoiceId") (trimmed d "fileName") with
    | None => ([], s, Ok function_app.fileName_is_required)
    | Some source_identifier =>
        if negb (PyStr.truthy source_identifier)
        then ([], s, Ok function_app.fileName_is_required)
        else
          bind (function_app.load_or_report w root source_identifier)
            (fun loaded_invoice =>
               match loaded_invoice with
               | inl response => ret response
               | inr stored_invoice =>
                   function_app.analyze_stored w' (JDict d) (trimmed d "fileName")
                     (trimmed d "contentType") stored_invoice
               end) s
    end.
Proof.
  unfold function_app.analyze_arguments.
  rewrite (bind_pure _ _ _ _ (get_trimmed_argument_dict d _ s)).
  rewrite (bind_pure _ _ _ _ (get_trimmed_argument_dict d _ s)).
  rewrite (bind_pure _ _ _ _ (get_trimmed_argument_dict d _ s)).
  destruct (PyStr.or_opt _ _); [|reflexivity].
  destruct (negb _); reflexivity.
Qed.

(** What follows the resolution reads the argument map for [analyzerId] only. *)
Lemma analyze_stored_arguments (w' : World) (d1 d2 : Dict.t) (f c : option string)
    (stored : StoredFile.t) (s : service) :
  trimmed d1 "analyzerId" = trimmed d2 "analyzerId" ->
  function_app.analyze_stored w' (JDict d1) f c stored s
  = function_app.analyze_stored w' (JDict d2) f c stored s.
Proof.
  intros H. unfold function_app.analyze_stored.
  rewrite (bind_pure _ _ _ _ (get_trimmed_argument_dict d1 _ s)).
  rewrite (bind_pure _ _ _ _ (get_trimmed_argument_dict d2 _ s)).
  unfold function_app._INVOICE_ANALYZER_ID_PROPERTY_NAME. rewrite H. reflexivity.
Qed.

(** The tool reads a dictionary of arguments through its trimmed entries only. *)
Lemma analyze_arguments_ext (w w' : World) (root : Path.t) (d1 d2 : Dict.t) (s : service) :
  (forall key, trimmed d1 key = trimmed d2 key) ->
  function_app.analyze_arguments w w' root (JDict d1) s
  = function_app.analyze_arguments w w' root (JDict d2) s.
Proof.
  intros H. rewrite !analyze_arguments_dict, !H.
  destruct (PyStr.or_opt _ _) as [source|]; [|reflexivity].
  destruct (negb _); [reflexivity|].
  unfold bind.
  destruct (function_app.load_or_report w root source s) as [[t s1] [[response|stored]|e]];
    try reflexivity.
  rewrite (analyze_stored_arguments w' d1 d2) by apply H. reflexivity.
Qed.

(** [In] and the membership test of the embedding. *)
Lemma mem_In (x : string) (l : list string) : PyStr.mem x l = true <-> In x l.
Proof.
  induction l as [|y l IH]; simpl.
  - split; [discriminate | contradiction].
  - rewrite orb_true_iff, IH, String.eqb_eq. split; intros [H|H]; auto.
Qed.

(* ===================================================================== *)
(** ** C10: an argument that is not a string *)
(* ===================================================================== *)

(** C10. At the tool boundary an argument whose decoded value is not a string
    is treated exactly as if it were absent: [_get_trimmed_argument] yields
    [None] for it, as for a missing key, and the tool behaves on the argument
    map as on the map without that key. In particular a [fileName] that is not
    a string, with no [invoiceId], yields the "fileName is required" envelope
    and no exception. *)
Theorem non_string_argument_is_absent (w w' : World) (root : Path.t)
    (rest d : Dict.t) (key : string) (v : json) (s : service) :
  Dict.lookup d key = Some v ->
  (forall text, v <> JStr text) ->
  function_app._get_trimmed_argument (JDict d) key s = ([], s, Ok None)
  /\ function_app._get_trimmed_argument (JDict (Dict.remove key d)) key s = ([], s, Ok None)
  /\ function_app.analyze_invoice w w' root
       (Ok (JDict (("arguments", JDict d) :: rest))) s
     = function_app.analyze_invoice w w' root
         (Ok (JDict (("arguments", JDict (Dict.remove key d)) :: rest))) s
  /\ (key = "fileName" -> Dict.lookup d "invoiceId" = None ->
      function_app.analyze_invoice w w' root
        (Ok (JDict (("arguments", JDict d) :: rest))) s
      = ([], s, Ok function_app.fileName_is_required)).
Proof.
  intros Hv Hns.
  assert (Htrim : trimmed d key = None).
  { unfold trimmed. rewrite Hv. destruct v; try reflexivity.
    exfalso. eapply Hns. reflexivity. }
  repeat split.
  - rewrite get_trimmed_argument_dict, Htrim. reflexivity.
  - rewrite get_trimmed_argument_dict. unfold trimmed.
    rewrite lookup_remove_same. reflexivity.
  - rewrite !analyze_invoice_dict. simpl.
    apply analyze_arguments_ext. intros other. symmetry.
    eapply trimmed_remove_non_string; eassumption.
  - intros -> Hid. rewrite analyze_invoice_dict. simpl.
    rewrite analyze_arguments_dict, Htrim.
    unfold trimmed at 1. rewrite Hid. reflexivity.
Qed.

(* ===================================================================== *)
(** ** C3: a parent-directory segment *)
(* ===================================================================== *)

Lemma request_path_of_traversal (root : Path.t) (identifier : string) :
  In ".." (Path.parts (Path.of_string (PyStr.strip identifier))) ->
  function_app.request_path_of root identifier
  = Err (Exn ValueError function_app.not_absolute_or_traversing).
Proof.
  intros Hin. unfold function_app.request_path_of.
  destruct (PyStr.truthy (PyStr.strip identifier)) eqn:Ht; simpl.
  - apply mem_In in Hin. rewrite Hin, orb_true_r. reflexivity.
  - unfold PyStr.truthy in Ht. apply negb_false_iff, String.eqb_eq in Ht.
    rewrite Ht in Hin. contradiction.
Qed.

Lemma traversal_is_truthy (identifier : string) :
  In ".." (Path.parts (Path.of_string (PyStr.strip identifier))) ->
  PyStr.truthy identifier = true.
Proof.
  intros Hin. destruct identifier; [contradiction | reflexivity].
Qed.

(** How the tool reports the two failures of the resolver. *)
Lemma load_or_report_invalid (w : World) (root : Path.t) (identifier : string)
    (s s' : service) (t : list event) (e : exn) :
  function_app._load_invoice_from_data w root identifier s = (t, s', Err e) ->
  class_of e = ValueError ->
  function_app.load_or_report w root identifier s
  = ((t ++ [Log logging ERROR "Invalid invoice identifier '%s': %s"
              [AStr identifier; AExn e]])%list,
     s',
     Ok (inl (function_app.error_envelope "Invalid file reference" (str_of e)))).
Proof.
  intros Hload Hcls. unfold function_app.load_or_report, try_except.
  rewrite (bind_err _ _ _ _ _ _ Hload).
  unfold isinstance. rewrite Hcls. reflexivity.
Qed.


(** C3. An identifier whose component list contains [..] is refused by the
    resolver with the [ValueError] "must not be absolute or traverse", whatever
    the other segments, the root and the world are, and the resolver makes no
    call at all (no [resolve], no [exists]). When it is the source identifier
    of a tool call, the caller receives the "Invalid file reference" envelope,
    and the only thing the call does is write one log record: the file system
    is not asked and nothing is submitted to the analyzer. *)
Theorem traversal_is_rejected (w w' : World) (root : Path.t) (identifier : string)
    (rest d : Dict.t) (s : service) :
  In ".." (Path.parts (Path.of_string (PyStr.strip identifier))) ->
  function_app._load_invoice_from_data w root identifier s
  = ([], s, Err (Exn ValueError function_app.not_absolute_or_traversing))
  /\ (PyStr.or_opt (trimmed d "invoiceId") (trimmed d "fileName") = Some identifier ->
      function_app.analyze_invoice w w' root
        (Ok (JDict (("arguments", JDict d) :: rest))) s
      = ([Log logging ERROR "Invalid invoice identifier '%s': %s"
            [AStr identifier;
             AExn (Exn ValueError function_app.not_absolute_or_traversing)]],
         s,
         Ok (function_app.error_envelope "Invalid file reference"
               function_app.not_absolute_or_traversing))).
Proof.
  intros Hin.
  assert (Hload : function_app._load_invoice_from_data w root identifier s
                  = ([], s, Err (Exn ValueError function_app.not_absolute_or_traversing))).
  { unfold function_app._load_invoice_from_data.
    apply bind_err. unfold lift. rewrite request_path_of_traversal by assumption.
    reflexivity. }
  split; [exact Hload|].
  intros Hsrc. rewrite analyze_invoice_dict. simpl.
  rewrite analyze_arguments_dict, Hsrc, (traversal_is_truthy _ Hin). simpl.
  rewrite (bind_ok _ _ _ _ _ _
             (load_or_report_invalid _ _ _ _ _ _ _ Hload eq_refl)).
  reflexivity.
Qed.

(* ===================================================================== *)
(** ** C8: a descendant of the root resolves exactly when it exists *)
(* ===================================================================== *)






(** The run of the resolver once the checks on the text have passed. *)
Lemma load_after_validation (w : World) (root : Path.t) (identifier : string)
    (request_path : Path.t) (s : service) :
  function_app.request_path_of root identifier = Ok request_path ->
  let target := resolve w (Path.joinpath root request_path) in
  String.prefix (Path.to_string root) (Path.to_string target) = true ->
  function_app._load_invoice_from_data w root identifier s
  = if path_exists w target
    then ([Resolve (Path.joinpath root request_path); Exists target;
           Log logging DEBUG "Resolved invoiceId '%s' to %s (contentType=%s)"
             [AStr (PyStr.strip identifier); APath target;
              AOpt (guess_type w (Path.name target))]],
          s,
          Ok {| StoredFile.path := target;
                StoredFile.content_type := guess_type w (Path.name target);
                StoredFile.file_name := Path.name target |})
    else ([Resolve (Path.joinpath root request_path); Exists target], s,
          Err (Exn FileNotFoundError (Path.to_string target))).
Proof.
  intros Hreq target Hstarts. unfold function_app._load_invoice_from_data.
  rewrite (bind_pure _ _ _ request_path) by (unfold lift; rewrite Hreq; reflexivity).
  unfold bind at 1. unfold Path_resolve at 1. unfold bind at 1. simpl.
  fold target. rewrite Hstarts. simpl.
  unfold bind at 1. unfold Path_exists at 1. unfold bind at 1. simpl.
  destruct (path_exists w target); reflexivity.
Qed.


(* ===================================================================== *)
(** ** The configuration resolver *)
(* ===================================================================== *)

Lemma os_getenv_run (w : World) (name : string) (s : service) :
  os_getenv w name s = ([Getenv name], s, Ok (getenv w name)).
Proof. reflexivity. Qed.

(** [_get_float_env] always returns, keeps the state, and its value is
    [float_env_value]. *)
Lemma get_float_env_run (w : World) (name : string) (default : spec_float) (s : service) :
  ContentUnderstandingService._get_float_env w name default s
  = (Getenv name :: float_env_warning w name default, s,
     Ok (float_env_value w name default)).
Proof.
  unfold ContentUnderstandingService._get_float_env, float_env_warning, float_env_value.
  rewrite (bind_ok _ _ _ _ _ _ (os_getenv_run w name s)).
  destruct (getenv w name) as [raw|]; [|reflexivity].
  unfold try_except, float, bind.
  destruct (float_of_str w raw) as [value|]; [|reflexivity].
  simpl. destruct (SFleb value float_zero); reflexivity.
Qed.

Lemma ensure_configuration_cached (w : World) (s : service) (config : _ServiceConfig.t) :
  _config s = Some config ->
  ContentUnderstandingService._ensure_configuration w s = ([], s, Ok config).
Proof.
  intros H. unfold ContentUnderstandingService._ensure_configuration.
  rewrite (bind_pure _ _ _ (_config s)) by reflexivity.
  rewrite H. reflexivity.
Qed.

(** The first resolution: without an endpoint it raises after four reads and
    caches nothing; with one it caches and returns [config_of_env]. *)
Lemma ensure_configuration_fresh (w : World) (s : service) :
  _config s = None ->
  ContentUnderstandingService._ensure_configuration w s
  = if PyStr.truthy (_ServiceConfig.endpoint (config_of_env w))
    then
      ([Getenv "CONTENT_UNDERSTANDING_ENDPOINT"; Getenv "CONTENT_UNDERSTANDING_API_KEY";
        Getenv "CONTENT_UNDERSTANDING_ANALYZER_ID"; Getenv "CONTENT_UNDERSTANDING_API_VERSION";
        Getenv "CONTENT_UNDERSTANDING_USER_AGENT";
        Getenv "CONTENT_UNDERSTANDING_POLL_INTERVAL_SECONDS"]
       ++ float_env_warning w "CONTENT_UNDERSTANDING_POLL_INTERVAL_SECONDS"
            ContentUnderstandingService._DEFAULT_POLL_INTERVAL_SECONDS
       ++ [Getenv "CONTENT_UNDERSTANDING_POLL_TIMEOUT_SECONDS"]
       ++ float_env_warning w "CONTENT_UNDERSTANDING_POLL_TIMEOUT_SECONDS"
            ContentUnderstandingService._DEFAULT_POLL_TIMEOUT_SECONDS
       ++ [Log _LOGGER INFO
             "Content Understanding config resolved (endpoint=%s, analyzerId=%s, apiVersion=%s, auth=%s, pollInterval=%.1fs, pollTimeout=%.1fs)"
             [AStr (_ServiceConfig.endpoint (config_of_env w));
              AStr (_ServiceConfig.analyzer_id (config_of_env w));
              AStr (_ServiceConfig.api_version (config_of_env w));
              AStr (if PyStr.opt_truthy (_ServiceConfig.subscription_key (config_of_env w))
                    then "subscription-key" else "managed-identity");
              AFloat (_ServiceConfig.poll_interval_seconds (config_of_env w));
              AFloat (_ServiceConfig.poll_timeout_seconds (config_of_env w))]],
       with_config s (config_of_env w),
       Ok (config_of_env w))%list
    else
      ([Getenv "CONTENT_UNDERSTANDING_ENDPOINT"; Getenv "CONTENT_UNDERSTANDING_API_KEY";
        Getenv "CONTENT_UNDERSTANDING_ANALYZER_ID"; Getenv "CONTENT_UNDERSTANDING_API_VERSION"],
       s,
       Err (Exn ContentUnderstandingServiceError ContentUnderstandingService.endpoint_required)).
Proof.
  intros H. unfold ContentUnderstandingService._ensure_configuration.
  rewrite (bind_pure _ _ _ (_config s)) by reflexivity.
  rewrite H.
  rewrite (bind_ok _ _ _ _ _ _ (os_getenv_run w _ s)).
  rewrite (bind_ok _ _ _ _ _ _ (os_getenv_run w _ s)).
  rewrite (bind_ok _ _ _ _ _ _ (os_getenv_run w _ s)).
  rewrite (bind_ok _ _ _ _ _ _ (os_getenv_run w _ s)).
  change (PyStr.strip (PyStr.or_str (getenv w "CONTENT_UNDERSTANDING_ENDPOINT") ""))
    with (_ServiceConfig.endpoint (config_of_env w)).
  destruct (PyStr.truthy (_ServiceConfig.endpoint (config_of_env w))); [|reflexivity].
  cbn [negb].
  rewrite (bind_ok _ _ _ _ _ _ (os_getenv_run w _ s)).
  rewrite (bind_ok _ _ _ _ _ _ (get_float_env_run w _ _ s)).
  rewrite (bind_ok _ _ _ _ _ _ (get_float_env_run w _ _ s)).
  unfold bind, set_config, log, emit, ret. cbn [app].
  reflexivity.
Qed.

(* ===================================================================== *)
(** ** C7: the configuration is resolved once *)
(* ===================================================================== *)

(** C7. Once a call of [_ensure_configuration] has returned a snapshot, the
    snapshot is cached in the service object (it is the one built from the
    environment when none was cached before), and every later call, in
    whatever world (hence after any change of the environment), returns that
    same snapshot, leaves the object as it is and emits nothing: it reads no
    environment variable. *)
Theorem configuration_is_memoized (w1 w2 : World) (s s1 : service) (t : list event)
    (config : _ServiceConfig.t) :
  ContentUnderstandingService._ensure_configuration w1 s = (t, s1, Ok config) ->
  _config s1 = Some config
  /\ (_config s = None -> config = config_of_env w1)
  /\ ContentUnderstandingService._ensure_configuration w2 s1 = ([], s1, Ok config).
Proof.
  intros Hrun.
  assert (Hcached : _config s1 = Some config /\ (_config s = None -> config = config_of_env w1)).
  { destruct (_config s) as [c|] eqn:Hs.
    - rewrite (ensure_configuration_cached w1 s c Hs) in Hrun.
      injection Hrun as _ <- <-. split; [exact Hs | discriminate].
    - rewrite (ensure_configuration_fresh w1 s Hs) in Hrun.
      destruct (PyStr.truthy _); [|discriminate].
      injection Hrun as _ <- <-. split; [reflexivity | reflexivity]. }
  destruct Hcached as [Hc Hfresh]. repeat split; try assumption.
  apply ensure_configuration_cached. exact Hc.
Qed.

(* ===================================================================== *)
(** ** C4: the poll interval and the poll timeout *)
(* ===================================================================== *)

(** A value that is a number, and is not below or equal to zero, is above it. *)
Lemma not_leb_zero_positive (v : spec_float) :
  v <> S754_nan -> SFleb v float_zero = false -> strictly_positive v = true.
Proof.
  intros Hnan Hle. destruct v as [sz|si| |sf m e]; try contradiction.
  - discriminate.
  - destruct si; [discriminate | reflexivity].
  - destruct sf; [discriminate | reflexivity].
Qed.

(** What the code does ensure: unless the override reads as NaN, the value is
    strictly positive whenever the default is. *)
Lemma float_env_value_positive (w : World) (name : string) (default : spec_float) :
  strictly_positive default = true ->
  (forall raw, getenv w name = Some raw -> float_of_str w raw <> Some S754_nan) ->
  strictly_positive (float_env_value w name default) = true.
Proof.
  intros Hdef Hnan. unfold float_env_value.
  destruct (getenv w name) as [raw|]; [|exact Hdef].
  specialize (Hnan raw eq_refl).
  destruct (float_of_str w raw) as [value|]; [|exact Hdef].
  destruct (SFleb value float_zero) eqn:Hle; [exact Hdef|].
  apply not_leb_zero_positive; [congruence | exact Hle].
Qed.

(** C4, at the failing input. When the override of a poll variable is text that
    [float] reads as NaN (the text "nan"), the comparison [value <= 0] is false,
    so [_get_float_env] returns NaN without a warning, and the snapshot built by
    [_ensure_configuration] carries it: its poll interval is not strictly
    positive and is not the default. *)
Theorem nan_override_is_propagated (w : World) (s : service) (raw : string) :
  _config s = None ->
  PyStr.truthy (_ServiceConfig.endpoint (config_of_env w)) = true ->
  getenv w "CONTENT_UNDERSTANDING_POLL_INTERVAL_SECONDS" = Some raw ->
  float_of_str w raw = Some S754_nan ->
  ContentUnderstandingService._get_float_env w "CONTENT_UNDERSTANDING_POLL_INTERVAL_SECONDS"
    ContentUnderstandingService._DEFAULT_POLL_INTERVAL_SECONDS s
  = ([Getenv "CONTENT_UNDERSTANDING_POLL_INTERVAL_SECONDS"], s, Ok S754_nan)
  /\ exists t config,
       ContentUnderstandingService._ensure_configuration w s
       = (t, with_config s config, Ok config)
       /\ _ServiceConfig.poll_interval_seconds config = S754_nan
       /\ strictly_positive (_ServiceConfig.poll_interval_seconds config) = false
       /\ _ServiceConfig.poll_interval_seconds config
          <> ContentUnderstandingService._DEFAULT_POLL_INTERVAL_SECONDS.
Proof.
  intros Hs Hend Henv Hfloat. split.
  - rewrite get_float_env_run. unfold float_env_warning, float_env_value.
    rewrite Henv, Hfloat. reflexivity.
  - rewrite (ensure_configuration_fresh w s Hs), Hend.
    eexists. exists (config_of_env w). split; [reflexivity|].
    assert (Hnan : _ServiceConfig.poll_interval_seconds (config_of_env w) = S754_nan).
    { cbn [config_of_env _ServiceConfig.poll_interval_seconds].
      unfold float_env_value. rewrite Henv, Hfloat. reflexivity. }
    rewrite Hnan. repeat split; try reflexivity. discriminate.
Qed.

(* ===================================================================== *)
(** ** The orchestrator *)
(* ===================================================================== *)

Lemma ensure_client_cached (w : World) (config : _ServiceConfig.t) (s : service)
    (client : Client.t) :
  _client s = Some client ->
  ContentUnderstandingService._ensure_client w config s = ([], s, Ok client).
Proof.
  intros H. unfold ContentUnderstandingService._ensure_client.
  rewrite (bind_pure _ _ _ (_client s)) by reflexivity.
  rewrite H. reflexivity.
Qed.

(** [_ensure_client] never touches the cached configuration, and an exception
    leaving it was raised by one of the three constructors. *)
Lemma ensure_client_cases (w : World) (config : _ServiceConfig.t) (s : service) :
  (exists t s' client,
      ContentUnderstandingService._ensure_client w config s = (t, s', Ok client)
      /\ _config s' = _config s)
  \/ (exists t e,
         ContentUnderstandingService._ensure_client w config s = (t, s, Err e)
         /\ ((exists c, credential_init w c = Some e)
             \/ (exists p, token_provider_init w p = Some e)
             \/ (exists c, client_init w c = Some e))).
Proof.
  destruct (_client s) as [client|] eqn:Hc.
  - left. exists [], s, client. split; [|reflexivity].
    apply ensure_client_cached. exact Hc.
  - unfold ContentUnderstandingService._ensure_client.
    rewrite (bind_pure _ _ _ (_client s)) by reflexivity.
    rewrite Hc.
    unfold bind, new_credential, new_token_provider, new_client, bind, emit, raise_if,
      set_client, set_credential, ret, raise.
    destruct (negb (PyStr.opt_truthy (_ServiceConfig.subscription_key config))).
    + destruct (credential_init w _) as [e|] eqn:E1.
      { right. exists [NewCredential (DefaultAzureCredential true)], e.
        split; [reflexivity|]. left. eexists. exact E1. }
      destruct (token_provider_init w _) as [e|] eqn:E2.
      { right. eexists _, e. split; [reflexivity|]. right. left. eexists. exact E2. }
      cbn [fst snd app].
      destruct (client_init w _) as [e|] eqn:E3.
      { right. eexists _, e. split; [reflexivity|]. right. right. eexists. exact E3. }
      left. do 3 eexists. split; reflexivity.
    + cbn [fst snd app].
      destruct (client_init w _) as [e|] eqn:E3.
      { right. eexists _, e. split; [reflexivity|]. right. right. eexists. exact E3. }
      left. do 3 eexists. split; reflexivity.
Qed.

(** [_ensure_configuration] either returns a snapshot that is then cached, or
    raises the endpoint error and leaves the object as it was. *)
Lemma ensure_configuration_cases (w : World) (s : service) :
  (exists t s' config,
      ContentUnderstandingService._ensure_configuration w s = (t, s', Ok config)
      /\ _config s' = Some config)
  \/ (exists t,
         ContentUnderstandingService._ensure_configuration w s
         = (t, s, Err (Exn ContentUnderstandingServiceError
                         ContentUnderstandingService.endpoint_required))).
Proof.
  destruct (_config s) as [c|] eqn:Hs.
  - left. exists [], s, c. split; [|exact Hs].
    apply ensure_configuration_cached. exact Hs.
  - rewrite (ensure_configuration_fresh w s Hs).
    destruct (PyStr.truthy _).
    + left. do 3 eexists. split; reflexivity.
    + right. eexists. reflexivity.
Qed.

(** The run of lines 73-119, case by case on what the world answers. *)
Lemma analyze_with_run (w : World) (request : InvoiceAnalysisRequest.t)
    (config : _ServiceConfig.t) (client : Client.t) (s : service) :
  let file_path := InvoiceAnalysisRequest.file_path request in
  let analyzer_id := ContentUnderstandingService.effective_analyzer_id request config in
  let content_type := InvoiceAnalysisRequest.content_type request in
  let submitting :=
    Log _LOGGER INFO
      "Submitting invoice '%s' to analyzer '%s' (endpoint=%s, apiVersion=%s, contentType=%s)"
      [AStr (PyStr.or_str (InvoiceAnalysisRequest.file_name request) (Path.name file_path));
       AStr analyzer_id; AStr (_ServiceConfig.endpoint config);
       AStr (_ServiceConfig.api_version config);
       AStr (PyStr.or_str content_type "auto-detect")] in
  let submit := BeginAnalyze client analyzer_id (Path.to_string file_path) content_type in
  let failed exc :=
    Log _LOGGER ERROR "Analyzer request failed (analyzerId=%s, endpoint=%s, file=%s): %s"
      [AStr analyzer_id; AStr (_ServiceConfig.endpoint config); APath file_path; AExn exc] in
  let wrapped exc :=
    Exn ContentUnderstandingServiceError ("Failed to analyze invoice: " ++ str_of exc) in
  ContentUnderstandingService.analyze_with w request config client s
  = if negb (path_exists w file_path)
    then ([Exists file_path;
           Log _LOGGER ERROR "Invoice file not found on disk: %s" [APath file_path]],
          s,
          Err (Exn ContentUnderstandingServiceError
                 ("Invoice file not found: " ++ Path.to_string file_path)))
    else if negb (PyStr.truthy analyzer_id)
    then ([Exists file_path], s,
          Err (Exn ContentUnderstandingServiceError
                 ContentUnderstandingService.analyzer_required))
    else
      match begin_analyze w client analyzer_id (Path.to_string file_path) content_type with
      | Err exc =>
          if ContentUnderstandingService.caught_by_analyze exc
          then ([Exists file_path; submitting; submit; failed exc], s, Err (wrapped exc))
          else ([Exists file_path; submitting; submit], s, Err exc)
      | Ok operation =>
          let poll :=
            PollResult client operation (_ServiceConfig.poll_timeout_seconds config)
              (_ServiceConfig.poll_interval_seconds config) in
          match poll_result w client operation (_ServiceConfig.poll_timeout_seconds config)
                  (_ServiceConfig.poll_interval_seconds config) with
          | Err exc =>
              if ContentUnderstandingService.caught_by_analyze exc
              then ([Exists file_path; submitting; submit; poll; failed exc], s,
                    Err (wrapped exc))
              else ([Exists file_path; submitting; submit; poll], s, Err exc)
          | Ok result =>
              ([Exists file_path; submitting; submit; poll; Exists file_path]
               ++ (if path_exists w file_path then [Stat file_path] else [])
               ++ [Log _LOGGER INFO
                     "Invoice analysis succeeded (analyzerId=%s, file=%s, bytes=%s)"
                     [AStr analyzer_id; APath file_path;
                      ASize (if path_exists w file_path
                             then Some (st_size w file_path) else None)]],
               s,
               Ok (ContentUnderstandingService._build_analysis_response
                     analyzer_id request config result))%list
          end
      end.
Proof.
  cbv zeta. unfold ContentUnderstandingService.analyze_with.
  unfold bind at 1. unfold Path_exists at 1. unfold bind at 1.
  cbn [emit ret app].
  destruct (path_exists w (InvoiceAnalysisRequest.file_path request)) eqn:Hex;
    cbn [negb]; [|reflexivity].
  destruct (PyStr.truthy (ContentUnderstandingService.effective_analyzer_id request config));
    cbn [negb]; [|reflexivity].
  unfold bind at 1. cbn [log emit].
  unfold bind at 1. unfold try_except at 1.
  unfold bind at 1. unfold client_begin_analyze at 1. unfold bind at 1. cbn [emit lift app].
  destruct (begin_analyze w client _ _ _) as [operation|exc].
  - unfold client_poll_result at 1. unfold bind at 1. cbn [emit lift app].
    destruct (poll_result w client operation _ _) as [result|exc].
    + unfold bind, Path_exists, emit, ret, log, Path_stat_st_size. cbn [app].
      rewrite Hex. reflexivity.
    + destruct (ContentUnderstandingService.caught_by_analyze exc); reflexivity.
  - destruct (ContentUnderstandingService.caught_by_analyze exc); reflexivity.
Qed.

(** A successful run of the orchestrator went through every step. *)
Lemma analyze_invoice_ok_inv (w : World) (request : InvoiceAnalysisRequest.t)
    (s s' : service) (t : list event) (d : json) :
  ContentUnderstandingService.analyze_invoice w request s = (t, s', Ok d) ->
  exists config client operation result,
    _config s' = Some config
    /\ PyStr.truthy (ContentUnderstandingService.effective_analyzer_id request config) = true
    /\ begin_analyze w client
         (ContentUnderstandingService.effective_analyzer_id request config)
         (Path.to_string (InvoiceAnalysisRequest.file_path request))
         (InvoiceAnalysisRequest.content_type request) = Ok operation
    /\ poll_result w client operation (_ServiceConfig.poll_timeout_seconds config)
         (_ServiceConfig.poll_interval_seconds config) = Ok result
    /\ In (BeginAnalyze client
             (ContentUnderstandingService.effective_analyzer_id request config)
             (Path.to_string (InvoiceAnalysisRequest.file_path request))
             (InvoiceAnalysisRequest.content_type request)) t
    /\ d = ContentUnderstandingService._build_analysis_response
             (ContentUnderstandingService.effective_analyzer_id request config)
             request config result.
Proof.
  unfold ContentUnderstandingService.analyze_invoice. intros Hrun.
  destruct (ensure_configuration_cases w s) as [(t1 & s1 & config & Hcfg & Hcached)|(t1 & Hcfg)];
    [|rewrite (bind_err _ _ _ _ _ _ Hcfg) in Hrun; discriminate].
  rewrite (bind_ok _ _ _ _ _ _ Hcfg) in Hrun.
  destruct (ensure_client_cases w config s1) as [(t2 & s2 & client & Hcl & Hkeep)|(t2 & e & Hcl & _)];
    [|rewrite (bind_err _ _ _ _ _ _ Hcl) in Hrun; discriminate].
  rewrite (bind_ok _ _ _ _ _ _ Hcl) in Hrun.
  rewrite analyze_with_run in Hrun. cbv zeta in Hrun.
  exists config, client.
  destruct (negb (path_exists w _)); [discriminate|].
  destruct (PyStr.truthy (ContentUnderstandingService.effective_analyzer_id request config));
    cbn [negb] in Hrun; [|discriminate].
  destruct (begin_analyze w client _ _ _) as [operation|exc] eqn:Hsubmit;
    [|destruct (ContentUnderstandingService.caught_by_analyze exc); discriminate].
  destruct (poll_result w client operation _ _) as [result|exc] eqn:Hpoll;
    [|destruct (ContentUnderstandingService.caught_by_analyze exc); discriminate].
  exists operation, result.
  injection Hrun as <- <- <-.
  repeat split; try reflexivity; try assumption.
  - rewrite Hkeep. exact Hcached.
  - apply in_or_app. right. apply in_or_app. right. cbn. auto.
Qed.

(* ===================================================================== *)
(** ** C6: the envelope of a successful analysis *)
(* ===================================================================== *)



(** What a tool call returns after the file was resolved: the envelope of the
    service, or the "Unable to analyze invoice" envelope. *)
Lemma analyze_stored_returns (w' : World) (d : Dict.t) (f c : option string)
    (stored : StoredFile.t) (s s' : service) (t : list event) (out : json) :
  function_app.analyze_stored w' (JDict d) f c stored s = (t, s', Ok out) ->
  (exists details, out = function_app.error_envelope "Unable to analyze invoice" details)
  \/ (exists t0,
         ContentUnderstandingService.analyze_invoice w'
           (function_app.request_of f c (trimmed d "analyzerId") stored) s
         = (t0, s', Ok out)).
Proof.
  unfold function_app.analyze_stored.
  rewrite (bind_pure _ _ _ _ (get_trimmed_argument_dict d _ s)).
  unfold bind at 1. cbn [log emit]. unfold try_except.
  destruct (ContentUnderstandingService.analyze_invoice w' _ s) as [[t0 s0] [a|e]].
  - intros H. injection H as _ <- <-. right. eauto.
  - destruct (isinstance e ContentUnderstandingServiceError).
    + cbn. intros H. injection H as _ _ <-. left. eauto.
    + intros H. discriminate.
Qed.


(* ===================================================================== *)
(** ** C5: the effective analyzer identifier *)
(* ===================================================================== *)




(* ===================================================================== *)
(** ** C9: the failures of the orchestrator *)
(* ===================================================================== *)




(* ===================================================================== *)
(** ** C1: where an accepted identifier resolves *)
(* ===================================================================== *)

(** The identifier "." has no component, so it resolves to the root itself;
    when the root exists, the resolver returns it. *)
Lemma dot_resolves_to_root (w : World) (root : Path.t) (s : service) :
  Path.is_absolute root = true ->
  resolve w root = root ->
  path_exists w root = true ->
  exists t,
    function_app._load_invoice_from_data w root "." s
    = (t, s, Ok {| StoredFile.path := root;
                   StoredFile.content_type := guess_type w (Path.name root);
                   StoredFile.file_name := Path.name root |})
    /\ Path.is_descendant root root = false.
Proof.
  intros Habs Hres Hex.
  assert (Hjoin : Path.joinpath root (Path.of_string ".") = root).
  { destruct root as [r l]. unfold Path.joinpath. cbn. rewrite app_nil_r. reflexivity. }
  assert (Hself : String.prefix (Path.to_string root) (Path.to_string root) = true).
  { induction (Path.to_string root) as [|c r IH]; [reflexivity|].
    simpl. destruct (ascii_dec c c) as [_|Hne]; [exact IH | contradiction]. }
  pose proof (load_after_validation w root "." (Path.of_string ".") s eq_refl) as Hrun.
  cbv zeta in Hrun. rewrite Hjoin, Hres, Hex in Hrun.
  eexists. split; [apply Hrun; exact Hself|].
  unfold Path.is_descendant. rewrite String.eqb_refl. cbn [andb].
  induction (Path.names root) as [|x l IH]; [reflexivity|].
  cbn. rewrite String.eqb_refl. exact IH.
Qed.

(** What the resolver does ensure for a path it returns: its text starts with
    the text of the root, and it exists. *)
Lemma accepted_path_starts_with_root (w : World) (root : Path.t) (identifier : string)
    (s s' : service) (t : list event) (stored : StoredFile.t) :
  function_app._load_invoice_from_data w root identifier s = (t, s', Ok stored) ->
  String.prefix (Path.to_string root) (Path.to_string (StoredFile.path stored)) = true
  /\ path_exists w (StoredFile.path stored) = true.
Proof.
  unfold function_app._load_invoice_from_data, bind at 1, lift.
  destruct (function_app.request_path_of root identifier) as [request_path|e];
    [|intros H; discriminate].
  unfold bind at 1. unfold Path_resolve at 1. unfold bind at 1. cbn [emit ret app].
  destruct (String.prefix (Path.to_string root) _) eqn:Hstarts; cbn [negb];
    [|intros H; discriminate].
  unfold bind at 1. unfold Path_exists at 1. unfold bind at 1. cbn [emit ret app].
  destruct (path_exists w _) eqn:Hex; cbn [negb]; [|intros H; discriminate].
  cbn. intros H. injection H as _ _ <-. cbn. auto.
Qed.

(** C1, at the failing inputs. In the sample deployment the resolver accepts
    the identifier "." and returns the data root itself, and it accepts
    "archive/payroll.pdf", which a symbolic link takes to the sibling directory
    [/srv/app/data-archive]: the text of that path starts with the text of the
    root, which is all line 245 tests. Neither path is a descendant of the
    root. *)
Theorem accepted_identifier_outside_root :
  (exists t stored,
      function_app._load_invoice_from_data (Sample.world Sample.env)
        Sample._DATA_DIRECTORY "." __init__ = (t, __init__, Ok stored)
      /\ StoredFile.path stored = Sample._DATA_DIRECTORY
      /\ Path.is_descendant Sample._DATA_DIRECTORY (StoredFile.path stored) = false)
  /\ (exists t stored,
         function_app._load_invoice_from_data (Sample.world Sample.env)
           Sample._DATA_DIRECTORY "archive/payroll.pdf" __init__ = (t, __init__, Ok stored)
         /\ StoredFile.path stored = Path.of_string "/srv/app/data-archive/payroll.pdf"
         /\ Path.is_descendant Sample._DATA_DIRECTORY (StoredFile.path stored) = false).
Proof.
  split; do 2 eexists; (split; [vm_compute; reflexivity|]); split; reflexivity.
Qed.

(* ===================================================================== *)
(** ** C2: what leaves the tool *)
(* ===================================================================== *)

(** A payload that cannot be decoded is reported in an envelope. *)
Lemma undecodable_payload_is_reported (w w' : World) (root : Path.t) (err : exn)
    (s : service) :
  isinstance err TypeError || isinstance err JSONDecodeError = true ->
  function_app.analyze_invoice w w' root (Err err) s
  = ([Log logging EXCEPTION "Failed to decode tool arguments for analyze_invoice" []], s,
     Ok (function_app.error_envelope "Invalid request payload" (str_of err))).
Proof.
  intros H. unfold function_app.analyze_invoice, function_app.decode_arguments,
    try_except, bind, lift.
  rewrite H. reflexivity.
Qed.

(** C2, at the failing inputs. A payload that decodes to a JSON array, or an
    object whose [arguments] entry is [null], makes [analyze_invoice] raise
    [AttributeError]: the [except] clause of line 160 names [TypeError] and
    [JSONDecodeError] only, and line 164 is outside any [try]. The exception
    leaves the tool, in every world and whatever the service object holds. *)
Theorem non_object_payload_escapes (w w' : World) (root : Path.t) (s : service) :
  function_app.analyze_invoice w w' root (Ok (JList [])) s
  = ([], s, Err (Exn AttributeError "'list' object has no attribute 'get'"))
  /\ function_app.analyze_invoice w w' root (Ok (JDict [("arguments", JNull)])) s
     = ([], s, Err (Exn AttributeError "'NoneType' object has no attribute 'get'")).
Proof. split; reflexivity. Qed.

(** An exception of the service that is not a [ContentUnderstandingServiceError]
    leaves the tool as well: here the constructor of the client raises. *)
Example client_constructor_failure_escapes :
  let broken :=
    {| getenv := getenv (Sample.world Sample.env);
       float_of_str := float_of_str (Sample.world Sample.env);
       guess_type := guess_type (Sample.world Sample.env);
       resolve := resolve (Sample.world Sample.env);
       path_exists := path_exists (Sample.world Sample.env);
       st_size := st_size (Sample.world Sample.env);
       credential_init := fun _ => None;
       token_provider_init := fun _ => None;
       client_init := fun _ => Some (Exn ValueError "Endpoint must be provided.");
       begin_analyze := begin_analyze (Sample.world Sample.env);
       poll_result := poll_result (Sample.world Sample.env) |} in
  exists t s',
    function_app.analyze_invoice (Sample.world Sample.env) broken Sample._DATA_DIRECTORY
      (Sample.call [("fileName", JStr "invoice_sample.jpg")]) __init__
    = (t, s', Err (Exn ValueError "Endpoint must be provided.")).
Proof. do 2 eexists. vm_compute. reflexivity. Qed.

(* ===================================================================== *)
(** ** C5 and C9 as the specification words them *)
(* ===================================================================== *)



(* ===================================================================== *)
(** ** The theorems at work in the sample deployment *)
(* ===================================================================== *)

(** End-to-end scenario 2 of the specification. *)
Lemma traversal_is_rejected_witness :
  In ".." (Path.parts (Path.of_string (PyStr.strip "../../etc/passwd")))
  /\ function_app.analyze_invoice (Sample.world Sample.env) (Sample.world Sample.env)
       Sample._DATA_DIRECTORY (Sample.call [("fileName", JStr "../../etc/passwd")]) __init__
     = ([Log logging ERROR "Invalid invoice identifier '%s': %s"
           [AStr "../../etc/passwd";
            AExn (Exn ValueError function_app.not_absolute_or_traversing)]],
        __init__,
        Ok (function_app.error_envelope "Invalid file reference"
              function_app.not_absolute_or_traversing)).
Proof.
  assert (H : In ".." (Path.parts (Path.of_string (PyStr.strip "../../etc/passwd"))))
    by (vm_compute; auto).
  split; [exact H|].
  exact (proj2 (traversal_is_rejected (Sample.world Sample.env) (Sample.world Sample.env)
                  Sample._DATA_DIRECTORY "../../etc/passwd" []
                  [("fileName", JStr "../../etc/passwd")] __init__ H) eq_refl).
Defined.

(** The poll interval set to the text "nan". *)
Lemma nan_override_is_propagated_witness :
  let w := Sample.world (("CONTENT_UNDERSTANDING_POLL_INTERVAL_SECONDS", "nan") :: Sample.env) in
  _config __init__ = None
  /\ PyStr.truthy (_ServiceConfig.endpoint (config_of_env w)) = true
  /\ getenv w "CONTENT_UNDERSTANDING_POLL_INTERVAL_SECONDS" = Some "nan"
  /\ float_of_str w "nan" = Some S754_nan
  /\ ContentUnderstandingService._get_float_env w "CONTENT_UNDERSTANDING_POLL_INTERVAL_SECONDS"
       ContentUnderstandingService._DEFAULT_POLL_INTERVAL_SECONDS __init__
     = ([Getenv "CONTENT_UNDERSTANDING_POLL_INTERVAL_SECONDS"], __init__, Ok S754_nan).
Proof.
  intros w.
  assert (H1 : _config __init__ = None) by reflexivity.
  assert (H2 : PyStr.truthy (_ServiceConfig.endpoint (config_of_env w)) = true)
    by (vm_compute; reflexivity).
  assert (H3 : getenv w "CONTENT_UNDERSTANDING_POLL_INTERVAL_SECONDS" = Some "nan")
    by reflexivity.
  assert (H4 : float_of_str w "nan" = Some S754_nan) by (vm_compute; reflexivity).
  repeat (split; [assumption|]).
  exact (proj1 (nan_override_is_propagated w __init__ "nan" H1 H2 H3 H4)).
Defined.



(** A first call, then a call after the endpoint variable has changed. *)
Lemma configuration_is_memoized_witness :
  exists t,
    ContentUnderstandingService._ensure_configuration (Sample.world Sample.env) __init__
    = (t, with_config __init__ Sample.config, Ok Sample.config)
    /\ ContentUnderstandingService._ensure_configuration
         (Sample.world [("CONTENT_UNDERSTANDING_ENDPOINT", "https://elsewhere.example.com")])
         (with_config __init__ Sample.config)
       = ([], with_config __init__ Sample.config, Ok Sample.config).
Proof.
  eexists (fst (fst (ContentUnderstandingService._ensure_configuration
                       (Sample.world Sample.env) __init__))).
  assert (Hrun : ContentUnderstandingService._ensure_configuration
                   (Sample.world Sample.env) __init__
                 = (fst (fst (ContentUnderstandingService._ensure_configuration
                                (Sample.world Sample.env) __init__)),
                    with_config __init__ Sample.config, Ok Sample.config))
    by (vm_compute; reflexivity).
  split; [exact Hrun|].
  exact (proj2 (proj2 (configuration_is_memoized (Sample.world Sample.env)
                         (Sample.world [("CONTENT_UNDERSTANDING_ENDPOINT",
                                         "https://elsewhere.example.com")])
                         _ _ _ _ Hrun))).
Defined.



(** A [fileName] that is a number. *)
Lemma non_string_argument_is_absent_witness :
  Dict.lookup [("fileName", JInt 42)] "fileName" = Some (JInt 42)
  /\ (forall text, JInt 42 <> JStr text)
  /\ function_app.analyze_invoice (Sample.world Sample.env) (Sample.world Sample.env)
       Sample._DATA_DIRECTORY (Sample.call [("fileName", JInt 42)]) __init__
     = ([], __init__, Ok function_app.fileName_is_required).
Proof.
  assert (H1 : Dict.lookup [("fileName", JInt 42)] "fileName" = Some (JInt 42))
    by reflexivity.
  assert (H2 : forall text, JInt 42 <> JStr text) by (intros text H; discriminate H).
  repeat (split; [assumption|]).
  exact (proj2 (proj2 (proj2 (non_string_argument_is_absent
                                (Sample.world Sample.env) (Sample.world Sample.env)
                                Sample._DATA_DIRECTORY [] [("fileName", JInt 42)]
                                "fileName" (JInt 42) __init__ H1 H2)))
               eq_refl eq_refl).
Defined.

(* ===================================================================== *)
(** ** Trimming *)
(* ===================================================================== *)

Lemma rstrip_cons (c : ascii) (s : string) :
  PyStr.rstrip (String c s)
  = match PyStr.rstrip s with
    | EmptyString => if PyStr.is_space c then EmptyString else String c EmptyString
    | r => String c r
    end.
Proof. reflexivity. Qed.

Lemma rstrip_idempotent (s : string) : PyStr.rstrip (PyStr.rstrip s) = PyStr.rstrip s.
Proof.
  induction s as [|c s IH]; [reflexivity|].
  rewrite rstrip_cons. destruct (PyStr.rstrip s) as [|c' r] eqn:Hr.
  - destruct (PyStr.is_space c) eqn:Hc; [reflexivity|].
    rewrite rstrip_cons. cbn [PyStr.rstrip]. rewrite Hc. reflexivity.
  - rewrite rstrip_cons, IH. reflexivity.
Qed.

(** What [lstrip] leaves does not start with white space. *)
Lemma lstrip_fixed (s : string) : PyStr.lstrip (PyStr.lstrip s) = PyStr.lstrip s.
Proof.
  induction s as [|c s IH]; [reflexivity|].
  cbn [PyStr.lstrip]. destruct (PyStr.is_space c) eqn:Hc; [exact IH|].
  cbn [PyStr.lstrip]. rewrite Hc. reflexivity.
Qed.

Lemma lstrip_not_space (c : ascii) (s : string) :
  PyStr.is_space c = false -> PyStr.lstrip (String c s) = String c s.
Proof. intros H. cbn [PyStr.lstrip]. rewrite H. reflexivity. Qed.

Lemma lstrip_head (s : string) (c : ascii) (r : string) :
  PyStr.lstrip s = String c r -> PyStr.is_space c = false.
Proof.
  induction s as [|x s IH]; [discriminate|].
  cbn [PyStr.lstrip]. destruct (PyStr.is_space x) eqn:Hx; [exact IH|].
  intros H. injection H as <- _. exact Hx.
Qed.

(** [rstrip] keeps a first character that is not white space. *)
Lemma rstrip_head (c : ascii) (s : string) :
  PyStr.is_space c = false -> exists r, PyStr.rstrip (String c s) = String c r.
Proof.
  intros Hc. rewrite rstrip_cons. destruct (PyStr.rstrip s) as [|c' r'].
  - rewrite Hc. eauto.
  - eauto.
Qed.

(** [s.strip().strip()] is [s.strip()]. *)
Lemma strip_idempotent (s : string) : PyStr.strip (PyStr.strip s) = PyStr.strip s.
Proof.
  unfold PyStr.strip. destruct (PyStr.lstrip s) as [|c u] eqn:Hu; [reflexivity|].
  pose proof (lstrip_head _ _ _ Hu) as Hc.
  destruct (rstrip_head c u Hc) as [r Hr]. rewrite Hr.
  rewrite (lstrip_not_space c r Hc), <- Hr. apply rstrip_idempotent.
Qed.

(* ===================================================================== *)
(** ** Components of a parsed path *)
(* ===================================================================== *)

Lemma split_slash_no_slash (s : string) :
  Forall (fun x => has_slash x = false) (Path.split_slash s).
Proof.
  induction s as [|c s IH]; cbn [Path.split_slash].
  - constructor; [reflexivity | constructor].
  - destruct (c =? "/")%char eqn:Hc.
    + constructor; [reflexivity | exact IH].
    + destruct (Path.split_slash s) as [|x xs].
      * constructor; [cbn; rewrite Hc; reflexivity | constructor].
      * inversion IH as [|? ? Hx Hxs]; subst.
        constructor; [cbn; rewrite Hc; exact Hx | exact Hxs].
Qed.

(** Every component [Path.of_string] keeps is a component. *)
Lemma names_are_components (s : string) :
  Forall (fun x => is_component x = true) (Path.names (Path.of_string s)).
Proof.
  cbn [Path.of_string Path.names].
  induction (split_slash_no_slash s) as [|x l Hx Hl IH]; cbn [filter]; [constructor|].
  destruct (Path.keep_component x) eqn:Hk; [|exact IH].
  constructor; [|exact IH]. unfold is_component. rewrite Hx, Hk. reflexivity.
Qed.

Lemma split_slash_component (x : string) :
  has_slash x = false -> Path.split_slash x = [x].
Proof.
  induction x as [|c x IH]; [reflexivity|].
  cbn [has_slash Path.split_slash]. intros H. apply orb_false_iff in H as [Hc Hx].
  rewrite Hc, (IH Hx). reflexivity.
Qed.

(** Parsing one component gives the relative path made of it. *)
Lemma of_string_component (x : string) :
  is_component x = true -> Path.of_string x = relative [x].
Proof.
  unfold is_component. intros H. apply andb_true_iff in H as [Hs Hk].
  apply negb_true_iff in Hs. unfold Path.of_string, relative.
  rewrite (split_slash_component x Hs). cbn [filter]. rewrite Hk.
  f_equal. unfold Path.parse_root.
  destruct x as [|c x]; [reflexivity|].
  cbn [has_slash] in Hs. apply orb_false_iff in Hs as [Hc _].
  cbn [Path.leading_slashes]. rewrite Hc. reflexivity.
Qed.

Lemma fold_joinpath_components (l acc : list string) :
  Forall (fun x => is_component x = true) l ->
  fold_left Path.joinpath (map Path.of_string l) (relative acc) = relative (acc ++ l).
Proof.
  intros H. revert acc. induction H as [|x l Hx Hl IH]; intros acc; cbn [map fold_left].
  - rewrite app_nil_r. reflexivity.
  - rewrite (of_string_component x Hx).
    change (Path.joinpath (relative acc) (relative [x])) with (relative (acc ++ [x])).
    rewrite IH, <- app_assoc. reflexivity.
Qed.

(** Line 241: [Path] applied to components gives the path made of them. *)
Lemma of_segments_components (l : list string) :
  Forall (fun x => is_component x = true) l -> Path.of_segments l = relative l.
Proof. intros H. exact (fold_joinpath_components l [] H). Qed.

Lemma of_string_relative (s : string) :
  Path.is_absolute (Path.of_string s) = false ->
  Path.of_string s = relative (Path.parts (Path.of_string s)).
Proof.
  unfold Path.parts. intros H. rewrite H.
  unfold Path.is_absolute in H. apply negb_false_iff, String.eqb_eq in H.
  destruct (Path.of_string s) as [r l]. cbn in *. subst r. reflexivity.
Qed.

(* ===================================================================== *)
(** ** The identifier resolver: checks on the text *)
(* ===================================================================== *)


(** X1. An identifier refused by one of the checks made on its text (blank,
    absolute, with a [..] segment, or the name of the data directory alone) is
    refused with a [ValueError] before the file system is touched: the resolver
    emits nothing. A tool call with that source identifier returns the "Invalid
    file reference" envelope carrying the message of the error, after one log
    record. *)
Theorem text_checks_touch_nothing (w w' : World) (root : Path.t) (identifier : string)
    (e : exn) (rest d : Dict.t) (s : service) :
  function_app.request_path_of root identifier = Err e ->
  class_of e = ValueError
  /\ function_app._load_invoice_from_data w root identifier s = ([], s, Err e)
  /\ (PyStr.or_opt (trimmed d "invoiceId") (trimmed d "fileName") = Some identifier ->
      PyStr.truthy identifier = true ->
      function_app.analyze_invoice w w' root
        (Ok (JDict (("arguments", JDict d) :: rest))) s
      = ([Log logging ERROR "Invalid invoice identifier '%s': %s"
            [AStr identifier; AExn e]],
         s,
         Ok (function_app.error_envelope "Invalid file reference" (str_of e)))).
Proof.
  intros Hreq.
  assert (Hclass : class_of e = ValueError).
  { unfold function_app.request_path_of in Hreq.
    destruct (negb (PyStr.truthy (PyStr.strip identifier)));
      [injection Hreq as <-; reflexivity|].
    destruct (Path.is_absolute _ || PyStr.mem ".." _);
      [injection Hreq as <-; reflexivity|].
    destruct (Path.parts _) as [|first others]; [discriminate|].
    destruct (PyStr.lower first =? _); [|discriminate].
    destruct others; [injection Hreq as <-; reflexivity | discriminate]. }
  assert (Hload : function_app._load_invoice_from_data w root identifier s = ([], s, Err e)).
  { unfold function_app._load_invoice_from_data. apply bind_err.
    unfold lift. rewrite Hreq. reflexivity. }
  repeat split; try assumption.
  intros Hsrc Htruthy. rewrite analyze_invoice_dict. simpl.
  rewrite analyze_arguments_dict, Hsrc, Htruthy. simpl.
  rewrite (bind_ok _ _ _ _ _ _ (load_or_report_invalid _ _ _ _ _ _ _ Hload Hclass)).
  reflexivity.
Qed.

Lemma text_checks_touch_nothing_witness :
  function_app.request_path_of Sample._DATA_DIRECTORY "Data"
  = Err (Exn ValueError function_app.no_file_specified)
  /\ function_app.analyze_invoice (Sample.world Sample.env) (Sample.world Sample.env)
       Sample._DATA_DIRECTORY (Sample.call [("invoiceId", JStr " Data ")]) __init__
     = ([Log logging ERROR "Invalid invoice identifier '%s': %s"
           [AStr "Data"; AExn (Exn ValueError function_app.no_file_specified)]],
        __init__,
        Ok (function_app.error_envelope "Invalid file reference"
              function_app.no_file_specified)).
Proof.
  assert (H : function_app.request_path_of Sample._DATA_DIRECTORY "Data"
              = Err (Exn ValueError function_app.no_file_specified)) by reflexivity.
  split; [exact H|].
  exact (proj2 (proj2 (text_checks_touch_nothing (Sample.world Sample.env)
                         (Sample.world Sample.env) Sample._DATA_DIRECTORY "Data" _ []
                         [("invoiceId", JStr " Data ")] __init__ H))
               eq_refl eq_refl).
Defined.




(** X3. An identifier that is, apart from surrounding white space and the case
    of its letters, the name of the data directory and nothing else is refused:
    it names no file. *)
Theorem root_name_alone_is_refused (root : Path.t) (identifier : string) :
  is_component (PyStr.strip identifier) = true ->
  PyStr.strip identifier <> ".." ->
  PyStr.lower (PyStr.strip identifier) = PyStr.lower (Path.name root) ->
  function_app.request_path_of root identifier
  = Err (Exn ValueError function_app.no_file_specified).
Proof.
  intros Hcomp Hdots Hname. unfold function_app.request_path_of.
  assert (Htruthy : PyStr.truthy (PyStr.strip identifier) = true).
  { unfold is_component, Path.keep_component in Hcomp.
    apply andb_true_iff in Hcomp as [_ Hk]. apply andb_true_iff in Hk as [Hk _].
    exact Hk. }
  rewrite Htruthy. cbn [negb].
  rewrite (of_string_component _ Hcomp).
  change (Path.is_absolute (relative [PyStr.strip identifier])) with false.
  change (Path.parts (relative [PyStr.strip identifier])) with [PyStr.strip identifier].
  cbn [PyStr.mem orb].
  destruct (".." =? PyStr.strip identifier) eqn:Hd.
  - apply String.eqb_eq in Hd. symmetry in Hd. contradiction.
  - cbn [orb]. rewrite Hname, String.eqb_refl. reflexivity.
Qed.

Lemma root_name_alone_is_refused_witness :
  is_component (PyStr.strip " DATA ") = true
  /\ PyStr.strip " DATA " <> ".."
  /\ PyStr.lower (PyStr.strip " DATA ") = PyStr.lower (Path.name Sample._DATA_DIRECTORY)
  /\ function_app.request_path_of Sample._DATA_DIRECTORY " DATA "
     = Err (Exn ValueError function_app.no_file_specified).
Proof.
  assert (H1 : is_component (PyStr.strip " DATA ") = true) by reflexivity.
  assert (H2 : PyStr.strip " DATA " <> "..") by (intros H; discriminate H).
  assert (H3 : PyStr.lower (PyStr.strip " DATA ")
               = PyStr.lower (Path.name Sample._DATA_DIRECTORY)) by reflexivity.
  repeat (split; [assumption|]).
  exact (root_name_alone_is_refused Sample._DATA_DIRECTORY " DATA " H1 H2 H3).
Defined.

Lemma not_mem_not_In (x : string) (l : list string) : PyStr.mem x l = false -> ~ In x l.
Proof. intros H Hin. apply mem_In in Hin. congruence. Qed.

(** X4. The path an accepted identifier leaves is relative, every one of its
    components is a plain name (no separator, not empty, not "."), none is
    [..], and it is made of the components of the trimmed identifier, less a
    first component that is the name of the data directory in any case; in
    that case something is left. *)
Theorem accepted_request_path (root : Path.t) (identifier : string) (request_path : Path.t) :
  function_app.request_path_of root identifier = Ok request_path ->
  request_path = relative (Path.names request_path)
  /\ Forall (fun x => is_component x = true) (Path.names request_path)
  /\ ~ In ".." (Path.names request_path)
  /\ (Path.parts (Path.of_string (PyStr.strip identifier)) = Path.names request_path
      \/ exists first,
           Path.parts (Path.of_string (PyStr.strip identifier))
           = first :: Path.names request_path
           /\ PyStr.lower first = PyStr.lower (Path.name root)
           /\ Path.names request_path <> []).
Proof.
  unfold function_app.request_path_of.
  destruct (negb (PyStr.truthy (PyStr.strip identifier))); [discriminate|].
  destruct (Path.is_absolute (Path.of_string (PyStr.strip identifier))) eqn:Habs;
    [discriminate|].
  destruct (PyStr.mem ".." (Path.parts (Path.of_string (PyStr.strip identifier)))) eqn:Hmem;
    [discriminate|].
  cbn [orb]. apply not_mem_not_In in Hmem.
  pose proof (names_are_components (PyStr.strip identifier)) as Hcomp.
  pose proof (of_string_relative _ Habs) as Hrel.
  assert (Hparts : Path.parts (Path.of_string (PyStr.strip identifier))
                   = Path.names (Path.of_string (PyStr.strip identifier))).
  { unfold Path.parts. rewrite Habs. reflexivity. }
  rewrite Hparts in *.
  assert (Hkeep : request_path = Path.of_string (PyStr.strip identifier) ->
                  request_path = relative (Path.names request_path)
                  /\ Forall (fun x => is_component x = true) (Path.names request_path)
                  /\ ~ In ".." (Path.names request_path)
                  /\ (Path.names (Path.of_string (PyStr.strip identifier))
                      = Path.names request_path
                      \/ exists first,
                           Path.names (Path.of_string (PyStr.strip identifier))
                           = first :: Path.names request_path
                           /\ PyStr.lower first = PyStr.lower (Path.name root)
                           /\ Path.names request_path <> [])).
  { intros ->. repeat split; auto. }
  destruct (Path.names (Path.of_string (PyStr.strip identifier))) as [|first others] eqn:Hn.
  - intros H. injection H as <-. apply Hkeep. reflexivity.
  - destruct (PyStr.lower first =? PyStr.lower (Path.name root)) eqn:Hfirst.
    + destruct others as [|second others]; [discriminate|].
      intros H. injection H as <-.
      inversion Hcomp as [|? ? _ Hothers]; subst.
      rewrite (of_segments_components _ Hothers). cbn [relative Path.names].
      repeat split.
      * exact Hothers.
      * intros Hin. apply Hmem. right. exact Hin.
      * right. exists first. apply String.eqb_eq in Hfirst.
        repeat split; [exact Hfirst | discriminate].
    + intros H. injection H as <-. apply Hkeep. reflexivity.
Qed.

Lemma accepted_request_path_witness :
  function_app.request_path_of Sample._DATA_DIRECTORY "Data/2024/./inv.pdf"
  = Ok (relative ["2024"; "inv.pdf"])
  /\ ~ In ".." ["2024"; "inv.pdf"].
Proof.
  assert (H : function_app.request_path_of Sample._DATA_DIRECTORY "Data/2024/./inv.pdf"
              = Ok (relative ["2024"; "inv.pdf"])) by reflexivity.
  split; [exact H|].
  exact (proj1 (proj2 (proj2 (accepted_request_path Sample._DATA_DIRECTORY
                                "Data/2024/./inv.pdf" _ H)))).
Defined.

(* ===================================================================== *)
(** ** The identifier resolver: where the target lies *)
(* ===================================================================== *)

(** A stored file is the resolution of the joined path of an accepted
    identifier, and the resolver leaves the service object alone. *)
Lemma load_ok_inv (w : World) (root : Path.t) (identifier : string) (s s' : service)
    (t : list event) (stored : StoredFile.t) :
  function_app._load_invoice_from_data w root identifier s = (t, s', Ok stored) ->
  exists request_path,
    function_app.request_path_of root identifier = Ok request_path
    /\ s' = s
    /\ stored = {| StoredFile.path := resolve w (Path.joinpath root request_path);
                   StoredFile.content_type :=
                     guess_type w (Path.name (resolve w (Path.joinpath root request_path)));
                   StoredFile.file_name :=
                     Path.name (resolve w (Path.joinpath root request_path)) |}.
Proof.
  unfold function_app._load_invoice_from_data, bind at 1, lift.
  destruct (function_app.request_path_of root identifier) as [request_path|e];
    [|intros H; discriminate].
  unfold bind at 1. unfold Path_resolve at 1. unfold bind at 1. cbn [emit ret app].
  destruct (String.prefix (Path.to_string root) _); cbn [negb]; [|intros H; discriminate].
  unfold bind at 1. unfold Path_exists at 1. unfold bind at 1. cbn [emit ret app].
  destruct (path_exists w _); cbn [negb]; [|intros H; discriminate].
  cbn. intros H. injection H as _ <- <-. exists request_path. auto.
Qed.

Lemma proper_prefix_app (l l' : list string) :
  l' <> [] -> Path.proper_prefix l (l ++ l') = true.
Proof.
  intros Hne. induction l as [|x l IH]; cbn.
  - destruct l'; [contradiction | reflexivity].
  - rewrite String.eqb_refl. exact IH.
Qed.

(** X5. Where resolving changes nothing (the joined path crosses no symbolic
    link), every stored file the resolver returns lies strictly below the data
    directory, with one exception: an identifier without any component (such
    as "." or "./"), for which the resolver returns the data directory itself. *)
Theorem confinement_without_links (w : World) (root : Path.t) (identifier : string)
    (s s' : service) (t : list event) (stored : StoredFile.t) :
  (forall request_path,
      function_app.request_path_of root identifier = Ok request_path ->
      resolve w (Path.joinpath root request_path) = Path.joinpath root request_path) ->
  function_app._load_invoice_from_data w root identifier s = (t, s', Ok stored) ->
  (Path.is_descendant root (StoredFile.path stored) = true
   /\ Path.parts (Path.of_string (PyStr.strip identifier)) <> [])
  \/ (StoredFile.path stored = root
      /\ Path.parts (Path.of_string (PyStr.strip identifier)) = []).
Proof.
  intros Hplain Hload.
  destruct (load_ok_inv _ _ _ _ _ _ _ Hload) as (request_path & Hreq & _ & ->).
  cbn [StoredFile.path]. rewrite (Hplain _ Hreq).
  destruct (accepted_request_path _ _ _ Hreq) as (Hrel & _ & _ & Hparts).
  rewrite Hrel. unfold Path.joinpath. cbn [relative Path.is_absolute Path.root Path.names].
  change (negb ("" =? "")) with false. cbv iota.
  destruct (Path.names request_path) as [|x l] eqn:Hn.
  - right. split.
    + rewrite app_nil_r. destruct root; reflexivity.
    + destruct Hparts as [Hp|(first & _ & _ & Hne)]; [exact Hp | contradiction].
  - left. split.
    + unfold Path.is_descendant. cbn [Path.root Path.names].
      rewrite String.eqb_refl. cbn [andb]. apply proper_prefix_app. discriminate.
    + destruct Hparts as [Hp|(first & Hp & _)]; rewrite Hp; discriminate.
Qed.

Lemma confinement_without_links_witness :
  (forall request_path,
      function_app.request_path_of Sample._DATA_DIRECTORY "data/invoice_sample.jpg"
      = Ok request_path ->
      resolve (Sample.world Sample.env) (Path.joinpath Sample._DATA_DIRECTORY request_path)
      = Path.joinpath Sample._DATA_DIRECTORY request_path)
  /\ exists t stored,
       function_app._load_invoice_from_data (Sample.world Sample.env)
         Sample._DATA_DIRECTORY "data/invoice_sample.jpg" __init__ = (t, __init__, Ok stored)
       /\ Path.is_descendant Sample._DATA_DIRECTORY (StoredFile.path stored) = true.
Proof.
  assert (H1 : forall request_path,
             function_app.request_path_of Sample._DATA_DIRECTORY "data/invoice_sample.jpg"
             = Ok request_path ->
             resolve (Sample.world Sample.env)
               (Path.joinpath Sample._DATA_DIRECTORY request_path)
             = Path.joinpath Sample._DATA_DIRECTORY request_path)
    by (intros request_path H; injection H as <-; reflexivity).
  split; [exact H1|].
  eexists (fst (fst (function_app._load_invoice_from_data (Sample.world Sample.env)
                       Sample._DATA_DIRECTORY "data/invoice_sample.jpg" __init__))).
  eexists {| StoredFile.path := Sample.invoice;
             StoredFile.content_type := Some "image/jpeg";
             StoredFile.file_name := "invoice_sample.jpg" |}.
  assert (H2 : function_app._load_invoice_from_data (Sample.world Sample.env)
                 Sample._DATA_DIRECTORY "data/invoice_sample.jpg" __init__
               = (fst (fst (function_app._load_invoice_from_data (Sample.world Sample.env)
                              Sample._DATA_DIRECTORY "data/invoice_sample.jpg" __init__)),
                  __init__,
                  Ok {| StoredFile.path := Sample.invoice;
                        StoredFile.content_type := Some "image/jpeg";
                        StoredFile.file_name := "invoice_sample.jpg" |}))
    by (vm_compute; reflexivity).
  split; [exact H2|].
  destruct (confinement_without_links _ _ _ _ _ _ _ H1 H2) as [[Hd _]|[_ Hp]].
  - exact Hd.
  - discriminate Hp.
Defined.

(** X6. White space around an identifier does not count: the resolver does on
    the trimmed identifier exactly what it does on the identifier itself. *)
Theorem padding_is_ignored (w : World) (root : Path.t) (identifier : string) (s : service) :
  function_app._load_invoice_from_data w root (PyStr.strip identifier) s
  = function_app._load_invoice_from_data w root identifier s.
Proof.
  unfold function_app._load_invoice_from_data, function_app.request_path_of.
  rewrite strip_idempotent. reflexivity.
Qed.

(* ===================================================================== *)
(** ** The tool on a dictionary of arguments *)
(* ===================================================================== *)



(** The two fields of the request that come from two sources. *)
Lemma request_of_fields (f c a : option string) (stored : StoredFile.t) :
  InvoiceAnalysisRequest.file_path (function_app.request_of f c a stored)
  = StoredFile.path stored
  /\ InvoiceAnalysisRequest.content_type (function_app.request_of f c a stored)
     = PyStr.or_none (PyStr.or_opt c (StoredFile.content_type stored))
  /\ InvoiceAnalysisRequest.file_name (function_app.request_of f c a stored)
     = PyStr.or_none (Some (PyStr.or_str f (StoredFile.file_name stored)))
  /\ InvoiceAnalysisRequest.analyzer_id (function_app.request_of f c a stored)
     = PyStr.or_none a.
Proof.
  repeat split. cbn [function_app.request_of InvoiceAnalysisRequest.content_type].
  unfold PyStr.or_none, PyStr.or_opt.
  destruct (PyStr.opt_truthy c) eqn:Hc; cbn [negb andb].
  - rewrite Hc. reflexivity.
  - destruct (PyStr.opt_truthy (StoredFile.content_type stored)) eqn:Hg.
    + rewrite Hg. reflexivity.
    + rewrite Hc. reflexivity.
Qed.

(** X7. How a tool call is put together. The source identifier is [invoiceId]
    when that is a non-empty string, and [fileName] otherwise. When the call
    returns after the identifier was resolved, it returns the "Unable to
    analyze invoice" envelope, or the file that was submitted is the resolved
    one, and the envelope carries: as [fileName] the [fileName] argument, or
    the name of the resolved file when there is none; as [contentType] the
    [contentType] argument, or else the type guessed from the name, or else
    null. *)
Theorem tool_submits_the_resolved_file (w w' : World) (root : Path.t) (rest d : Dict.t)
    (identifier : string) (stored : StoredFile.t) (s s' : service)
    (t0 t : list event) (out : json) :
  PyStr.or_opt (trimmed d "invoiceId") (trimmed d "fileName") = Some identifier ->
  PyStr.truthy identifier = true ->
  function_app._load_invoice_from_data w root identifier s = (t0, s, Ok stored) ->
  function_app.analyze_invoice w w' root (Ok (JDict (("arguments", JDict d) :: rest))) s
  = (t, s', Ok out) ->
  (exists details, out = function_app.error_envelope "Unable to analyze invoice" details)
  \/ (exists config client analyzer_id result,
         let content_type :=
           PyStr.or_none (PyStr.or_opt (trimmed d "contentType")
                            (StoredFile.content_type stored)) in
         In (BeginAnalyze client analyzer_id (Path.to_string (StoredFile.path stored))
               content_type) t
         /\ out = JDict
                    [ ("analyzerId", JStr analyzer_id);
                      ("apiVersion", JStr (_ServiceConfig.api_version config));
                      ("contentType", json_of_opt content_type);
                      ("fileName",
                       json_of_opt
                         (PyStr.or_none
                            (Some (PyStr.or_str (trimmed d "fileName")
                                     (StoredFile.file_name stored)))));
                      ("result", result) ]).
Proof.
  intros Hsrc Htruthy Hload.
  rewrite analyze_invoice_dict. simpl.
  rewrite analyze_arguments_dict, Hsrc, Htruthy. cbn [negb].
  assert (Hreport : function_app.load_or_report w root identifier s
                    = (t0, s, Ok (inr stored))).
  { unfold function_app.load_or_report, try_except.
    rewrite (bind_ok _ _ _ _ _ _ Hload). cbn. rewrite app_nil_r. reflexivity. }
  rewrite (bind_ok _ _ _ _ _ _ Hreport).
  destruct (function_app.analyze_stored w' (JDict d) _ _ stored s) as [[t2 s2] r] eqn:Hst.
  intros H. injection H as <- <- ->.
  destruct (analyze_stored_returns _ _ _ _ _ _ _ _ _ Hst) as [(details & ->)|(t1 & Hsvc)].
  - left. eauto.
  - right.
    destruct (analyze_invoice_ok_inv _ _ _ _ _ _ Hsvc)
      as (config & client & operation & result & _ & _ & _ & _ & Hin & ->).
    destruct (request_of_fields (trimmed d "fileName") (trimmed d "contentType")
                (trimmed d "analyzerId") stored) as (Hp & Hc & Hf & _).
    rewrite Hp, Hc in Hin.
    exists config, client, (ContentUnderstandingService.effective_analyzer_id
                              (function_app.request_of (trimmed d "fileName")
                                 (trimmed d "contentType") (trimmed d "analyzerId") stored)
                              config), result.
    cbv zeta. split.
    + apply in_or_app. right.
      revert Hst. unfold function_app.analyze_stored.
      rewrite (bind_pure _ _ _ _ (get_trimmed_argument_dict d _ s)).
      unfold bind at 1. cbn [log emit]. unfold try_except.
      unfold function_app._INVOICE_ANALYZER_ID_PROPERTY_NAME. rewrite Hsvc.
      intros H. injection H as <-. right. exact Hin.
    + unfold ContentUnderstandingService._build_analysis_response.
      rewrite Hc, Hf. reflexivity.
Qed.

Lemma tool_submits_the_resolved_file_witness :
  let arguments :=
    [ ("invoiceId", JStr " data/invoice_sample.jpg ");
      ("fileName", JStr "March invoice") ] in
  PyStr.or_opt (trimmed arguments "invoiceId") (trimmed arguments "fileName")
  = Some "data/invoice_sample.jpg"
  /\ PyStr.truthy "data/invoice_sample.jpg" = true
  /\ exists t s',
       function_app.analyze_invoice (Sample.world Sample.env) (Sample.world Sample.env)
         Sample._DATA_DIRECTORY (Sample.call arguments) __init__
       = (t, s',
          Ok (JDict [ ("analyzerId", JStr "prebuilt-invoice");
                      ("apiVersion", JStr "2025-05-01-preview");
                      ("contentType", JStr "image/jpeg");
                      ("fileName", JStr "March invoice");
                      ("result", Sample.payload) ]))
       /\ ((exists details,
               JDict [ ("analyzerId", JStr "prebuilt-invoice");
                       ("apiVersion", JStr "2025-05-01-preview");
                       ("contentType", JStr "image/jpeg");
                       ("fileName", JStr "March invoice");
                       ("result", Sample.payload) ]
               = function_app.error_envelope "Unable to analyze invoice" details)
           \/ exists client analyzer_id,
                In (BeginAnalyze client analyzer_id (Path.to_string Sample.invoice)
                      (Some "image/jpeg")) t).
Proof.
  intros arguments.
  assert (H1 : PyStr.or_opt (trimmed arguments "invoiceId") (trimmed arguments "fileName")
               = Some "data/invoice_sample.jpg") by reflexivity.
  assert (H2 : PyStr.truthy "data/invoice_sample.jpg" = true) by reflexivity.
  repeat (split; [assumption|]).
  pose (run := function_app.analyze_invoice (Sample.world Sample.env)
                 (Sample.world Sample.env) Sample._DATA_DIRECTORY
                 (Sample.call arguments) __init__).
  pose (stored := {| StoredFile.path := Sample.invoice;
                     StoredFile.content_type := Some "image/jpeg";
                     StoredFile.file_name := "invoice_sample.jpg" |}).
  pose (load := function_app._load_invoice_from_data (Sample.world Sample.env)
                  Sample._DATA_DIRECTORY "data/invoice_sample.jpg" __init__).
  assert (H3 : load = (fst (fst load), __init__, Ok stored)) by (vm_compute; reflexivity).
  exists (fst (fst run)), (snd (fst run)).
  assert (H4 : run = (fst (fst run), snd (fst run),
                      Ok (JDict [ ("analyzerId", JStr "prebuilt-invoice");
                                  ("apiVersion", JStr "2025-05-01-preview");
                                  ("contentType", JStr "image/jpeg");
                                  ("fileName", JStr "March invoice");
                                  ("result", Sample.payload) ])))
    by (vm_compute; reflexivity).
  split; [exact H4|].
  destruct (tool_submits_the_resolved_file (Sample.world Sample.env)
              (Sample.world Sample.env) Sample._DATA_DIRECTORY [] arguments
              "data/invoice_sample.jpg" stored __init__ _ _ _ _ H1 H2 H3 H4)
    as [Hfail|(config & client & analyzer_id & result & Hin & _)].
  - left. exact Hfail.
  - right. exists client, analyzer_id. exact Hin.
Defined.




(* ===================================================================== *)
(** ** The configuration resolver: what the snapshot holds *)
(* ===================================================================== *)

(** X9. Without an endpoint (the variable unset, empty or blank) a first call
    of the orchestrator raises the endpoint error after reading four
    variables: it constructs nothing, asks the file system nothing and submits
    nothing. The failure is not remembered: the service object is unchanged,
    and a later call in an environment that has an endpoint builds the
    snapshot from that environment. *)
Theorem missing_endpoint_fails_first (w w2 : World) (request : InvoiceAnalysisRequest.t)
    (s : service) :
  _config s = None ->
  PyStr.strip (PyStr.or_str (getenv w "CONTENT_UNDERSTANDING_ENDPOINT") "") = "" ->
  ContentUnderstandingService.analyze_invoice w request s
  = ([Getenv "CONTENT_UNDERSTANDING_ENDPOINT"; Getenv "CONTENT_UNDERSTANDING_API_KEY";
      Getenv "CONTENT_UNDERSTANDING_ANALYZER_ID"; Getenv "CONTENT_UNDERSTANDING_API_VERSION"],
     s,
     Err (Exn ContentUnderstandingServiceError ContentUnderstandingService.endpoint_required))
  /\ (PyStr.strip (PyStr.or_str (getenv w2 "CONTENT_UNDERSTANDING_ENDPOINT") "") <> "" ->
      exists t,
        ContentUnderstandingService._ensure_configuration w2 s
        = (t, with_config s (config_of_env w2), Ok (config_of_env w2))).
Proof.
  intros Hs Hblank. split.
  - unfold ContentUnderstandingService.analyze_invoice. apply bind_err.
    rewrite (ensure_configuration_fresh w s Hs).
    cbn [config_of_env _ServiceConfig.endpoint]. rewrite Hblank. reflexivity.
  - intros Hset. rewrite (ensure_configuration_fresh w2 s Hs).
    cbn [config_of_env _ServiceConfig.endpoint]. unfold PyStr.truthy.
    apply String.eqb_neq in Hset. rewrite Hset. cbn [negb]. eexists. reflexivity.
Qed.

Lemma missing_endpoint_fails_first_witness :
  _config __init__ = None
  /\ PyStr.strip (PyStr.or_str
                    (getenv (Sample.world [("CONTENT_UNDERSTANDING_ENDPOINT", "   ")])
                       "CONTENT_UNDERSTANDING_ENDPOINT") "") = ""
  /\ ContentUnderstandingService.analyze_invoice
       (Sample.world [("CONTENT_UNDERSTANDING_ENDPOINT", "   ")]) (Sample.request None)
       __init__
     = ([Getenv "CONTENT_UNDERSTANDING_ENDPOINT"; Getenv "CONTENT_UNDERSTANDING_API_KEY";
         Getenv "CONTENT_UNDERSTANDING_ANALYZER_ID";
         Getenv "CONTENT_UNDERSTANDING_API_VERSION"],
        __init__,
        Err (Exn ContentUnderstandingServiceError
               ContentUnderstandingService.endpoint_required)).
Proof.
  assert (H1 : _config __init__ = None) by reflexivity.
  assert (H2 : PyStr.strip
                 (PyStr.or_str
                    (getenv (Sample.world [("CONTENT_UNDERSTANDING_ENDPOINT", "   ")])
                       "CONTENT_UNDERSTANDING_ENDPOINT") "") = "") by reflexivity.
  repeat (split; [assumption|]).
  exact (proj1 (missing_endpoint_fails_first
                  (Sample.world [("CONTENT_UNDERSTANDING_ENDPOINT", "   ")])
                  (Sample.world Sample.env) (Sample.request None) __init__ H1 H2)).
Defined.

(** The value of [(os.getenv(name) or default).strip()] followed by the
    fallback of lines 132-136. *)
Lemma override_then_default (override : option string) (default : string) :
  PyStr.strip default = default ->
  default <> "" ->
  let chosen := PyStr.strip (PyStr.or_str override default) in
  let value := if negb (PyStr.truthy chosen) then default else chosen in
  value <> ""
  /\ PyStr.strip value = value
  /\ (forall text, override = Some text -> PyStr.strip text <> "" -> value = PyStr.strip text)
  /\ (override = None \/ (exists text, override = Some text /\ PyStr.strip text = "") ->
      value = default).
Proof.
  intros Hfixed Hne chosen value. unfold value, PyStr.truthy.
  destruct (chosen =? "") eqn:Hc; cbn [negb].
  - apply String.eqb_eq in Hc. repeat split; auto.
    intros text -> Htext. exfalso. apply Htext.
    unfold chosen, PyStr.or_str, PyStr.truthy in Hc.
    destruct (text =? "") eqn:Ht; cbn [negb] in Hc; [|exact Hc].
    apply String.eqb_eq in Ht. subst text. reflexivity.
  - apply String.eqb_neq in Hc. repeat split.
    + exact Hc.
    + apply strip_idempotent.
    + intros text -> Htext. unfold chosen, PyStr.or_str, PyStr.truthy.
      destruct (text =? "") eqn:Ht; cbn [negb]; [|reflexivity].
      apply String.eqb_eq in Ht. subst text. contradiction Htext. reflexivity.
    + intros [->|(text & -> & Htext)].
      * unfold chosen. cbn [PyStr.or_str]. exact Hfixed.
      * unfold chosen, PyStr.or_str, PyStr.truthy.
        destruct (text =? "") eqn:Ht; cbn [negb]; [exact Hfixed|].
        unfold chosen, PyStr.or_str, PyStr.truthy in Hc. rewrite Ht in Hc.
        cbn [negb] in Hc. contradiction.
Qed.

(** X10. In every snapshot built from the environment the endpoint, the
    analyzer identifier and the API version are not empty and carry no
    surrounding white space. The analyzer identifier and the API version are
    the trimmed override when the variable holds more than white space, and the
    default when it is unset, empty or blank. The subscription key is absent
    when its variable is unset, empty or blank, and is the trimmed, non-empty
    value otherwise. *)
Theorem snapshot_fields (w : World) (s s' : service) (t : list event)
    (config : _ServiceConfig.t) :
  _config s = None ->
  ContentUnderstandingService._ensure_configuration w s = (t, s', Ok config) ->
  let blank (o : option string) :=
    o = None \/ exists text, o = Some text /\ PyStr.strip text = "" in
  (_ServiceConfig.endpoint config <> ""
   /\ PyStr.strip (_ServiceConfig.endpoint config) = _ServiceConfig.endpoint config)
  /\ (_ServiceConfig.analyzer_id config <> ""
      /\ PyStr.strip (_ServiceConfig.analyzer_id config) = _ServiceConfig.analyzer_id config
      /\ (forall text, getenv w "CONTENT_UNDERSTANDING_ANALYZER_ID" = Some text ->
                       PyStr.strip text <> "" ->
                       _ServiceConfig.analyzer_id config = PyStr.strip text)
      /\ (blank (getenv w "CONTENT_UNDERSTANDING_ANALYZER_ID") ->
          _ServiceConfig.analyzer_id config = "prebuilt-invoice"))
  /\ (_ServiceConfig.api_version config <> ""
      /\ PyStr.strip (_ServiceConfig.api_version config) = _ServiceConfig.api_version config
      /\ (forall text, getenv w "CONTENT_UNDERSTANDING_API_VERSION" = Some text ->
                       PyStr.strip text <> "" ->
                       _ServiceConfig.api_version config = PyStr.strip text)
      /\ (blank (getenv w "CONTENT_UNDERSTANDING_API_VERSION") ->
          _ServiceConfig.api_version config = "2025-05-01-preview"))
  /\ (blank (getenv w "CONTENT_UNDERSTANDING_API_KEY") ->
      _ServiceConfig.subscription_key config = None)
  /\ (forall text, getenv w "CONTENT_UNDERSTANDING_API_KEY" = Some text ->
                   PyStr.strip text <> "" ->
                   _ServiceConfig.subscription_key config = Some (PyStr.strip text)).
Proof.
  intros Hs Hrun blank. rewrite (ensure_configuration_fresh w s Hs) in Hrun.
  destruct (PyStr.truthy (_ServiceConfig.endpoint (config_of_env w))) eqn:Hend;
    [|discriminate].
  injection Hrun as _ _ <-.
  split; [|split; [|split; [|split]]].
  - split.
    + intros H. rewrite H in Hend. discriminate.
    + cbn [config_of_env _ServiceConfig.endpoint]. apply strip_idempotent.
  - cbn [config_of_env _ServiceConfig.analyzer_id].
    exact (override_then_default (getenv w "CONTENT_UNDERSTANDING_ANALYZER_ID")
             ContentUnderstandingService._DEFAULT_ANALYZER_ID eq_refl
             ltac:(discriminate)).
  - cbn [config_of_env _ServiceConfig.api_version].
    exact (override_then_default (getenv w "CONTENT_UNDERSTANDING_API_VERSION")
             ContentUnderstandingService._DEFAULT_API_VERSION eq_refl
             ltac:(discriminate)).
  - cbn [config_of_env _ServiceConfig.subscription_key].
    intros [->|(text & -> & Htext)]; [reflexivity|].
    unfold PyStr.or_str, PyStr.truthy.
    destruct (text =? ""); cbn [negb]; [reflexivity|]. rewrite Htext. reflexivity.
  - cbn [config_of_env _ServiceConfig.subscription_key].
    intros text -> Htext. unfold PyStr.or_str, PyStr.truthy.
    destruct (text =? "") eqn:Ht; cbn [negb].
    + apply String.eqb_eq in Ht. subst text. contradiction Htext. reflexivity.
    + unfold PyStr.or_none, PyStr.or_opt, PyStr.opt_truthy, PyStr.truthy.
      apply String.eqb_neq in Htext. rewrite Htext. reflexivity.
Qed.

Lemma snapshot_fields_witness :
  let w := Sample.world [ ("CONTENT_UNDERSTANDING_ENDPOINT", " https://cu.example.com ");
                          ("CONTENT_UNDERSTANDING_ANALYZER_ID", "  my-analyzer ");
                          ("CONTENT_UNDERSTANDING_API_VERSION", "   ");
                          ("CONTENT_UNDERSTANDING_API_KEY", " s3cr3t ") ] in
  _config __init__ = None
  /\ exists t s' config,
       ContentUnderstandingService._ensure_configuration w __init__ = (t, s', Ok config)
       /\ _ServiceConfig.endpoint config = "https://cu.example.com"
       /\ _ServiceConfig.analyzer_id config = "my-analyzer"
       /\ _ServiceConfig.api_version config = "2025-05-01-preview"
       /\ _ServiceConfig.subscription_key config = Some "s3cr3t"
       /\ PyStr.strip (_ServiceConfig.analyzer_id config) = _ServiceConfig.analyzer_id config.
Proof.
  intros w.
  assert (H1 : _config __init__ = None) by reflexivity.
  split; [exact H1|].
  pose (run := ContentUnderstandingService._ensure_configuration w __init__).
  exists (fst (fst run)), (snd (fst run)), (config_of_env w).
  assert (H2 : run = (fst (fst run), snd (fst run), Ok (config_of_env w)))
    by (vm_compute; reflexivity).
  split; [exact H2|].
  repeat (split; [reflexivity|]).
  exact (proj1 (proj2 (proj1 (proj2 (snapshot_fields w __init__ _ _ _ H1 H2))))).
Defined.

(* ===================================================================== *)
(** ** The client manager *)
(* ===================================================================== *)

(** The client built for a configuration, with or without a token provider. *)
Lemma ensure_client_fresh (w : World) (config : _ServiceConfig.t) (s : service) :
  _client s = None ->
  (forall c, credential_init w c = None) ->
  (forall p, token_provider_init w p = None) ->
  (forall c, client_init w c = None) ->
  let credential := DefaultAzureCredential true in
  let provider := get_bearer_token_provider credential ContentUnderstandingService._AUTH_SCOPE in
  let client token_provider :=
    {| Client.endpoint := _ServiceConfig.endpoint config;
       Client.api_version := _ServiceConfig.api_version config;
       Client.token_provider := token_provider;
       Client.subscription_key := _ServiceConfig.subscription_key config;
       Client.x_ms_useragent := _ServiceConfig.user_agent config |} in
  ContentUnderstandingService._ensure_client w config s
  = if PyStr.opt_truthy (_ServiceConfig.subscription_key config)
    then ([NewClient (client None)],
          {| _config := _config s; _credential := None; _client := Some (client None) |},
          Ok (client None))
    else ([NewCredential credential; NewTokenProvider provider;
           NewClient (client (Some provider))],
          {| _config := _config s; _credential := Some credential;
             _client := Some (client (Some provider)) |},
          Ok (client (Some provider))).
Proof.
  intros Hc Hcred Htok Hcli. cbv zeta.
  unfold ContentUnderstandingService._ensure_client.
  rewrite (bind_pure _ _ _ (_client s)) by reflexivity.
  rewrite Hc.
  unfold bind, new_credential, new_token_provider, new_client, bind, emit, raise_if,
    set_client, set_credential, ret, raise.
  destruct (PyStr.opt_truthy (_ServiceConfig.subscription_key config)); cbn [negb].
  - cbn [fst snd app]. rewrite Hcli. reflexivity.
  - rewrite Hcred, Htok. cbn [fst snd app]. rewrite Hcli. reflexivity.
Qed.

(** What a first successful call of [_ensure_client] constructs and caches. *)
Lemma ensure_client_built (w : World) (config : _ServiceConfig.t) (s s' : service)
    (t : list event) (client : Client.t) :
  _client s = None ->
  ContentUnderstandingService._ensure_client w config s = (t, s', Ok client) ->
  _client s' = Some client
  /\ _config s' = _config s
  /\ Client.endpoint client = _ServiceConfig.endpoint config
  /\ Client.api_version client = _ServiceConfig.api_version config
  /\ Client.x_ms_useragent client = _ServiceConfig.user_agent config
  /\ Client.subscription_key client = _ServiceConfig.subscription_key config
  /\ (PyStr.opt_truthy (_ServiceConfig.subscription_key config) = true ->
      Client.token_provider client = None
      /\ _credential s' = None
      /\ t = [NewClient client])
  /\ (PyStr.opt_truthy (_ServiceConfig.subscription_key config) = false ->
      let credential := DefaultAzureCredential true in
      let provider :=
        get_bearer_token_provider credential "https://cognitiveservices.azure.com/.default" in
      Client.token_provider client = Some provider
      /\ _credential s' = Some credential
      /\ t = [NewCredential credential; NewTokenProvider provider; NewClient client]).
Proof.
  intros Hc. unfold ContentUnderstandingService._ensure_client.
  rewrite (bind_pure _ _ _ (_client s)) by reflexivity.
  rewrite Hc.
  unfold bind, new_credential, new_token_provider, new_client, bind, emit, raise_if,
    set_client, set_credential, ret, raise.
  destruct (PyStr.opt_truthy (_ServiceConfig.subscription_key config)); cbn [negb].
  - cbn [fst snd app]. destruct (client_init w _); [discriminate|].
    intros H. injection H as <- <- <-. cbn.
    repeat split; try reflexivity; congruence.
  - destruct (credential_init w _); [discriminate|].
    destruct (token_provider_init w _); [discriminate|].
    cbn [fst snd app]. destruct (client_init w _); [discriminate|].
    intros H. injection H as <- <- <-. cbn.
    repeat split; try reflexivity; congruence.
Qed.

(** X11. The two authentication strategies. When the configuration holds a
    subscription key, the client is constructed with that key and without a
    token provider; no credential is constructed and none is kept. When it
    holds none, a credential that excludes the interactive browser flow is
    constructed, then a token provider for the Cognitive Services scope, then
    the client with that provider and no key; the credential is kept in the
    service object. In both cases the client carries the endpoint, the API
    version and the user agent of the configuration, and is cached. *)
Theorem authentication_strategy (w : World) (config : _ServiceConfig.t) (s s' : service)
    (t : list event) (client : Client.t) :
  _client s = None ->
  ContentUnderstandingService._ensure_client w config s = (t, s', Ok client) ->
  _client s' = Some client
  /\ _config s' = _config s
  /\ Client.endpoint client = _ServiceConfig.endpoint config
  /\ Client.api_version client = _ServiceConfig.api_version config
  /\ Client.x_ms_useragent client = _ServiceConfig.user_agent config
  /\ Client.subscription_key client = _ServiceConfig.subscription_key config
  /\ (PyStr.opt_truthy (_ServiceConfig.subscription_key config) = true ->
      Client.token_provider client = None
      /\ _credential s' = None
      /\ t = [NewClient client])
  /\ (PyStr.opt_truthy (_ServiceConfig.subscription_key config) = false ->
      let credential := DefaultAzureCredential true in
      let provider :=
        get_bearer_token_provider credential "https://cognitiveservices.azure.com/.default" in
      Client.token_provider client = Some provider
      /\ _credential s' = Some credential
      /\ t = [NewCredential credential; NewTokenProvider provider; NewClient client]).
Proof. apply ensure_client_built. Qed.

Lemma authentication_strategy_witness :
  let config := with_subscription_key Sample.config (Some "s3cr3t") in
  let client :=
    {| Client.endpoint := Sample.endpoint;
       Client.api_version := "2025-05-01-preview";
       Client.token_provider := None;
       Client.subscription_key := Some "s3cr3t";
       Client.x_ms_useragent := "remote-mcp-functions-python/1.0" |} in
  _client __init__ = None
  /\ exists s',
       ContentUnderstandingService._ensure_client (Sample.world Sample.env) config __init__
       = ([NewClient client], s', Ok client)
       /\ _credential s' = None.
Proof.
  intros config client.
  assert (H1 : _client __init__ = None) by reflexivity.
  split; [exact H1|].
  pose (run := ContentUnderstandingService._ensure_client (Sample.world Sample.env)
                 config __init__).
  exists (snd (fst run)).
  assert (H2 : run = ([NewClient client], snd (fst run), Ok client))
    by (vm_compute; reflexivity).
  split; [exact H2|].
  exact (proj1 (proj2 (proj1 (proj2 (proj2 (proj2 (proj2 (proj2 (proj2
           (authentication_strategy (Sample.world Sample.env) config __init__ _ _ _
              H1 H2))))))) eq_refl))).
Defined.

(** X12. The client is constructed once. After [_ensure_client] has returned a
    client, every later call returns that client and constructs nothing, in
    whatever world and for whatever configuration it is called, even one with
    another endpoint or another key. *)
Theorem client_is_built_once (w w2 : World) (config config2 : _ServiceConfig.t)
    (s s1 : service) (t : list event) (client : Client.t) :
  ContentUnderstandingService._ensure_client w config s = (t, s1, Ok client) ->
  _client s1 = Some client
  /\ ContentUnderstandingService._ensure_client w2 config2 s1 = ([], s1, Ok client).
Proof.
  intros Hrun.
  assert (Hcached : _client s1 = Some client).
  { destruct (_client s) as [c|] eqn:Hc.
    - rewrite (ensure_client_cached w config s c Hc) in Hrun.
      injection Hrun as _ <- <-. exact Hc.
    - exact (proj1 (ensure_client_built w config s s1 t client Hc Hrun)). }
  split; [exact Hcached|]. apply ensure_client_cached. exact Hcached.
Qed.

Lemma client_is_built_once_witness :
  let other := with_subscription_key Sample.config (Some "another-key") in
  exists t s1 client,
    ContentUnderstandingService._ensure_client (Sample.world Sample.env) Sample.config
      __init__ = (t, s1, Ok client)
    /\ ContentUnderstandingService._ensure_client Sample.unreachable other s1
       = ([], s1, Ok client).
Proof.
  intros other.
  pose (run := ContentUnderstandingService._ensure_client (Sample.world Sample.env)
                 Sample.config __init__).
  exists (fst (fst run)), (snd (fst run)), Sample.client.
  assert (H : run = (fst (fst run), snd (fst run), Ok Sample.client))
    by (vm_compute; reflexivity).
  split; [exact H|].
  exact (proj2 (client_is_built_once (Sample.world Sample.env) Sample.unreachable
                  Sample.config other __init__ _ _ _ H)).
Defined.

(** X13. A construction that fails leaves nothing behind: when [_ensure_client]
    raises, the exception is the one a constructor raised, the service object is
    exactly as before (no client, and the credential that may have been
    constructed is not kept), so that the next call constructs again. *)
Theorem failed_construction_is_not_cached (w w2 : World) (config : _ServiceConfig.t)
    (s s' : service) (t : list event) (e : exn) :
  ContentUnderstandingService._ensure_client w config s = (t, s', Err e) ->
  s' = s
  /\ _client s = None
  /\ ((exists c, credential_init w c = Some e)
      \/ (exists p, token_provider_init w p = Some e)
      \/ (exists c, client_init w c = Some e))
  /\ ((forall c, credential_init w2 c = None) ->
      (forall p, token_provider_init w2 p = None) ->
      (forall c, client_init w2 c = None) ->
      exists t2 s2 client,
        ContentUnderstandingService._ensure_client w2 config s' = (t2, s2, Ok client)
        /\ In (NewClient client) t2).
Proof.
  intros Hrun.
  assert (Hnone : _client s = None).
  { destruct (_client s) as [c|] eqn:Hc; [|reflexivity].
    rewrite (ensure_client_cached w config s c Hc) in Hrun. discriminate. }
  destruct (ensure_client_cases w config s)
    as [(t1 & s1 & client & Hok & _)|(t1 & e1 & Herr & Hraised)].
  { rewrite Hok in Hrun. discriminate. }
  rewrite Herr in Hrun. injection Hrun as _ <- <-.
  repeat split; try assumption.
  intros Hcred Htok Hcli.
  rewrite (ensure_client_fresh w2 config s Hnone Hcred Htok Hcli).
  destruct (PyStr.opt_truthy _); do 3 eexists; (split; [reflexivity|]); cbn; auto.
Qed.

Lemma failed_construction_is_not_cached_witness :
  let broken :=
    {| getenv := getenv (Sample.world Sample.env);
       float_of_str := float_of_str (Sample.world Sample.env);
       guess_type := guess_type (Sample.world Sample.env);
       resolve := resolve (Sample.world Sample.env);
       path_exists := path_exists (Sample.world Sample.env);
       st_size := st_size (Sample.world Sample.env);
       credential_init := fun _ => None;
       token_provider_init := fun _ => None;
       client_init := fun _ => Some (Exn ValueError "Endpoint must be provided.");
       begin_analyze := begin_analyze (Sample.world Sample.env);
       poll_result := poll_result (Sample.world Sample.env) |} in
  exists t,
    ContentUnderstandingService._ensure_client broken Sample.config __init__
    = (t, __init__, Err (Exn ValueError "Endpoint must be provided."))
    /\ _client __init__ = None.
Proof.
  intros broken.
  pose (run := ContentUnderstandingService._ensure_client broken Sample.config __init__).
  exists (fst (fst run)).
  assert (H : run = (fst (fst run), __init__,
                     Err (Exn ValueError "Endpoint must be provided.")))
    by (vm_compute; reflexivity).
  split; [exact H|].
  exact (proj1 (proj2 (failed_construction_is_not_cached broken (Sample.world Sample.env)
                         Sample.config __init__ _ _ _ H))).
Defined.

(* ===================================================================== *)
(** ** The orchestrator: its calls and its caches *)
(* ===================================================================== *)

Lemma filter_none {A : Type} (f : A -> bool) (l : list A) :
  (forall x, In x l -> f x = false) -> filter f l = [].
Proof.
  induction l as [|a l IH]; intros H; [reflexivity|].
  cbn. rewrite (H a (or_introl eq_refl)). apply IH. intros x Hx. apply H. right. exact Hx.
Qed.

Lemma float_env_warning_logs (w : World) (name : string) (default : spec_float) (x : event) :
  In x (float_env_warning w name default) -> exists lv fmt args, x = Log logging lv fmt args.
Proof.
  unfold float_env_warning. destruct (getenv w name) as [raw|]; [|intros []].
  destruct (float_of_str w raw) as [value|].
  - destruct (SFleb value float_zero); [|intros []]. intros [<-|[]]. eauto.
  - intros [<-|[]]. eauto.
Qed.

(** The configuration resolver reads variables and writes log records, nothing
    else; it leaves the client and the credential alone, keeps a cached
    snapshot, and caches the one it returns. *)
Lemma ensure_configuration_effect (w : World) (s s' : service) (t : list event)
    (r : result _ServiceConfig.t) :
  ContentUnderstandingService._ensure_configuration w s = (t, s', r) ->
  (forall x, In x t ->
             is_submission x = false /\ is_poll x = false
             /\ is_file_access x = false /\ is_construction x = false)
  /\ _client s' = _client s
  /\ _credential s' = _credential s
  /\ (forall c, _config s = Some c -> s' = s /\ r = Ok c /\ t = [])
  /\ (forall c, r = Ok c -> _config s' = Some c)
  /\ (forall e, r = Err e -> s' = s).
Proof.
  intros Hrun. destruct (_config s) as [c|] eqn:Hs.
  - rewrite (ensure_configuration_cached w s c Hs) in Hrun. injection Hrun as <- <- <-.
    split; [intros x []|].
    split; [reflexivity|]. split; [reflexivity|].
    split; [intros c0 Hc0; injection Hc0 as <-; auto|].
    split; [intros c0 Hc0; injection Hc0 as <-; exact Hs|].
    intros e He. discriminate He.
  - rewrite (ensure_configuration_fresh w s Hs) in Hrun.
    destruct (PyStr.truthy _).
    + injection Hrun as <- <- <-.
      split.
      { intros x Hin.
        do 6 (destruct Hin as [<-|Hin]; [repeat split; reflexivity|]).
        apply in_app_or in Hin. destruct Hin as [Hin|Hin].
        { apply float_env_warning_logs in Hin. destruct Hin as (lv & fmt & args & ->).
          repeat split; reflexivity. }
        destruct Hin as [<-|Hin]; [repeat split; reflexivity|].
        apply in_app_or in Hin. destruct Hin as [Hin|Hin].
        { apply float_env_warning_logs in Hin. destruct Hin as (lv & fmt & args & ->).
          repeat split; reflexivity. }
        destruct Hin as [<-|[]]. repeat split; reflexivity. }
      split; [reflexivity|]. split; [reflexivity|].
      split; [intros c0 Hc0; discriminate Hc0|].
      split; [intros c0 Hc0; injection Hc0 as <-; reflexivity|].
      intros e He. discriminate He.
    + injection Hrun as <- <- <-.
      split.
      { intros x Hin. cbn in Hin.
        repeat (destruct Hin as [<-|Hin]; [repeat split; reflexivity|]). destruct Hin. }
      split; [reflexivity|]. split; [reflexivity|].
      split; [intros c0 Hc0; discriminate Hc0|].
      split; [intros c0 Hc0; discriminate Hc0|].
      intros e He. reflexivity.
Qed.

(** The client manager constructs, and does nothing else; it leaves the
    snapshot alone, keeps a cached client, and caches the one it returns. *)
Lemma ensure_client_effect (w : World) (config : _ServiceConfig.t) (s s' : service)
    (t : list event) (r : result Client.t) :
  ContentUnderstandingService._ensure_client w config s = (t, s', r) ->
  (forall x, In x t ->
             is_submission x = false /\ is_poll x = false /\ is_file_access x = false)
  /\ _config s' = _config s
  /\ (forall c, _client s = Some c -> s' = s /\ r = Ok c /\ t = [])
  /\ (forall c, r = Ok c -> _client s' = Some c)
  /\ (forall e, r = Err e -> s' = s).
Proof.
  destruct (_client s) as [c|] eqn:Hc.
  - rewrite (ensure_client_cached w config s c Hc). intros H. injection H as <- <- <-.
    split; [intros x []|]. split; [reflexivity|].
    split; [intros c0 Hc0; injection Hc0 as <-; auto|].
    split; [intros c0 Hc0; injection Hc0 as <-; exact Hc|].
    intros e He. discriminate He.
  - unfold ContentUnderstandingService._ensure_client.
    rewrite (bind_pure _ _ _ (_client s)) by reflexivity.
    rewrite Hc.
    unfold bind, new_credential, new_token_provider, new_client, bind, emit, raise_if,
      set_client, set_credential, ret, raise.
    destruct (negb (PyStr.opt_truthy (_ServiceConfig.subscription_key config)));
      [destruct (credential_init w _); [|destruct (token_provider_init w _)]|];
      cbn [fst snd app]; try destruct (client_init w _);
      intros H; injection H as <- <- <-;
      (split; [intros x Hin; cbn in Hin;
               repeat (destruct Hin as [<-|Hin]; [repeat split; reflexivity|]);
               destruct Hin|]);
      (split; [reflexivity|]);
      (split; [intros c0 Hc0; discriminate Hc0|]);
      (split; [intros c0 Hc0; try discriminate Hc0; injection Hc0 as <-; reflexivity|]);
      intros e0 He0; try discriminate He0; reflexivity.
Qed.

(** The events of lines 73-119: at most one submission, a poll only after it. *)
Lemma analyze_with_calls (w : World) (request : InvoiceAnalysisRequest.t)
    (config : _ServiceConfig.t) (client : Client.t) (s s' : service) (t : list event)
    (r : result json) :
  ContentUnderstandingService.analyze_with w request config client s = (t, s', r) ->
  s' = s
  /\ (length (filter is_submission t) <= 1)%nat
  /\ (length (filter is_poll t) <= length (filter is_submission t))%nat
  /\ (forall d, r = Ok d ->
                length (filter is_submission t) = 1%nat /\ length (filter is_poll t) = 1%nat)
  /\ (path_exists w (InvoiceAnalysisRequest.file_path request) = false ->
      filter is_submission t = []
      /\ r = Err (Exn ContentUnderstandingServiceError
                    ("Invoice file not found: "
                     ++ Path.to_string (InvoiceAnalysisRequest.file_path request))))
  /\ (forall c op timeout interval,
         In (PollResult c op timeout interval) t ->
         c = client
         /\ timeout = _ServiceConfig.poll_timeout_seconds config
         /\ interval = _ServiceConfig.poll_interval_seconds config
         /\ begin_analyze w client
              (ContentUnderstandingService.effective_analyzer_id request config)
              (Path.to_string (InvoiceAnalysisRequest.file_path request))
              (InvoiceAnalysisRequest.content_type request) = Ok op).
Proof.
  rewrite analyze_with_run. cbv zeta.
  assert (Hcase : forall (t0 : list event) (r0 : result json),
             (length (filter is_submission t0) <= 1)%nat ->
             (length (filter is_poll t0) <= length (filter is_submission t0))%nat ->
             (forall d, r0 = Ok d ->
                        length (filter is_submission t0) = 1%nat
                        /\ length (filter is_poll t0) = 1%nat) ->
             (path_exists w (InvoiceAnalysisRequest.file_path request) = false ->
              filter is_submission t0 = []
              /\ r0 = Err (Exn ContentUnderstandingServiceError
                             ("Invoice file not found: "
                              ++ Path.to_string (InvoiceAnalysisRequest.file_path request)))) ->
             (forall c op timeout interval,
                 In (PollResult c op timeout interval) t0 ->
                 c = client
                 /\ timeout = _ServiceConfig.poll_timeout_seconds config
                 /\ interval = _ServiceConfig.poll_interval_seconds config
                 /\ begin_analyze w client
                      (ContentUnderstandingService.effective_analyzer_id request config)
                      (Path.to_string (InvoiceAnalysisRequest.file_path request))
                      (InvoiceAnalysisRequest.content_type request) = Ok op) ->
             (t0, s, r0) = (t, s', r) ->
             s' = s
             /\ (length (filter is_submission t) <= 1)%nat
             /\ (length (filter is_poll t) <= length (filter is_submission t))%nat
             /\ (forall d, r = Ok d ->
                           length (filter is_submission t) = 1%nat
                           /\ length (filter is_poll t) = 1%nat)
             /\ (path_exists w (InvoiceAnalysisRequest.file_path request) = false ->
                 filter is_submission t = []
                 /\ r = Err (Exn ContentUnderstandingServiceError
                               ("Invoice file not found: "
                                ++ Path.to_string (InvoiceAnalysisRequest.file_path request))))
             /\ (forall c op timeout interval,
                    In (PollResult c op timeout interval) t ->
                    c = client
                    /\ timeout = _ServiceConfig.poll_timeout_seconds config
                    /\ interval = _ServiceConfig.poll_interval_seconds config
                    /\ begin_analyze w client
                         (ContentUnderstandingService.effective_analyzer_id request config)
                         (Path.to_string (InvoiceAnalysisRequest.file_path request))
                         (InvoiceAnalysisRequest.content_type request) = Ok op)).
  { intros t0 r0 H1 H2 H3 H4 H5 H. injection H as <- <- <-. auto 10. }
  destruct (path_exists w (InvoiceAnalysisRequest.file_path request)) eqn:Hex; cbn [negb].
  2:{ apply Hcase; cbn; auto.
      - intros d Hd. discriminate Hd.
      - intros c op timeout interval [H|[H|[]]]; discriminate H. }
  destruct (negb (PyStr.truthy _)).
  { apply Hcase; cbn; auto.
    - intros d Hd. discriminate Hd.
    - intros Habs. discriminate Habs.
    - intros c op timeout interval [H|[]]; discriminate H. }
  destruct (begin_analyze w client _ _ _) as [operation|exc] eqn:Hb.
  - destruct (poll_result w client operation _ _) as [result|exc] eqn:Hp.
    + apply Hcase; cbn; auto.
      * intros Habs. discriminate Habs.
      * intros c op timeout interval Hin.
        repeat (destruct Hin as [Hin|Hin];
                [try discriminate Hin; injection Hin as <- <- <- <-; auto|]).
        destruct Hin.
    + destruct (ContentUnderstandingService.caught_by_analyze exc);
        apply Hcase; cbn; auto;
        try (intros d Hd; discriminate Hd);
        try (intros Habs; discriminate Habs);
        intros c op timeout interval Hin;
        repeat (destruct Hin as [Hin|Hin];
                [try discriminate Hin; injection Hin as <- <- <- <-; auto|]);
        destruct Hin.
  - destruct (ContentUnderstandingService.caught_by_analyze exc);
      apply Hcase; cbn; auto;
      try (intros d Hd; discriminate Hd);
      try (intros Habs; discriminate Habs);
      intros c op timeout interval Hin;
      repeat (destruct Hin as [Hin|Hin]; [discriminate Hin|]);
      destruct Hin.
Qed.

Lemma filter_app_none {A : Type} (f : A -> bool) (l1 l2 : list A) :
  (forall x, In x l1 -> f x = false) -> filter f (l1 ++ l2) = filter f l2.
Proof. intros H. rewrite filter_app, (filter_none f l1 H). reflexivity. Qed.

(** A run of the orchestrator, cut into its three steps. *)
Lemma analyze_invoice_steps (w : World) (request : InvoiceAnalysisRequest.t)
    (s s' : service) (t : list event) (r : result json) :
  ContentUnderstandingService.analyze_invoice w request s = (t, s', r) ->
  (exists e, r = Err e /\ filter is_submission t = [] /\ filter is_poll t = []
             /\ (forall c, _config s = Some c -> _config s' = Some c)
             /\ (forall c, _client s = Some c -> _client s' = Some c)
             /\ (_config s = None \/ _client s = None))
  \/ (exists config client s2 t0 t3,
         t = (t0 ++ t3)%list
         /\ (forall x, In x t0 -> is_submission x = false /\ is_poll x = false)
         /\ ContentUnderstandingService.analyze_with w request config client s2 = (t3, s', r)
         /\ _config s2 = Some config /\ _client s2 = Some client
         /\ (forall c, _config s = Some c -> c = config)
         /\ (forall c, _client s = Some c -> c = client)).
Proof.
  unfold ContentUnderstandingService.analyze_invoice. intros Hrun.
  destruct (ContentUnderstandingService._ensure_configuration w s) as [[t1 s1] r1] eqn:Hcfg.
  destruct (ensure_configuration_effect _ _ _ _ _ Hcfg)
    as (Htrace1 & Hclient1 & _ & Hkeep1 & Hset1 & Hfail1).
  destruct r1 as [config|e].
  2:{ rewrite (bind_err _ _ _ _ _ _ Hcfg) in Hrun. injection Hrun as <- <- <-.
      left. exists e. rewrite (Hfail1 e eq_refl).
      split; [reflexivity|].
      split; [apply filter_none; intros x Hx; apply (Htrace1 x Hx)|].
      split; [apply filter_none; intros x Hx; apply (Htrace1 x Hx)|].
      split; [auto|]. split; [auto|]. left.
      destruct (_config s) as [c|]; [|reflexivity].
      destruct (Hkeep1 c eq_refl) as (_ & Habs & _). discriminate Habs. }
  rewrite (bind_ok _ _ _ _ _ _ Hcfg) in Hrun.
  destruct (ContentUnderstandingService._ensure_client w config s1) as [[t2 s2] r2] eqn:Hcl.
  destruct (ensure_client_effect _ _ _ _ _ _ Hcl)
    as (Htrace2 & Hconfig2 & Hkeep2 & Hset2 & Hfail2).
  destruct r2 as [client|e].
  2:{ rewrite (bind_err _ _ _ _ _ _ Hcl) in Hrun. injection Hrun as <- <- <-.
      left. exists e. rewrite (Hfail2 e eq_refl).
      split; [reflexivity|].
      assert (Hquiet : forall x, In x (t1 ++ t2)%list ->
                                 is_submission x = false /\ is_poll x = false).
      { intros x Hx. apply in_app_or in Hx as [Hx|Hx].
        - destruct (Htrace1 x Hx) as (? & ? & _). auto.
        - destruct (Htrace2 x Hx) as (? & ? & _). auto. }
      split; [apply filter_none; intros x Hx; apply (Hquiet x Hx)|].
      split; [apply filter_none; intros x Hx; apply (Hquiet x Hx)|].
      split.
      { intros c Hc. destruct (Hkeep1 c Hc) as (-> & _ & _). exact Hc. }
      split; [intros c Hc; rewrite Hclient1; exact Hc|].
      right. rewrite <- Hclient1.
      destruct (_client s1) as [c|]; [|reflexivity].
      destruct (Hkeep2 c eq_refl) as (_ & Habs & _). discriminate Habs. }
  rewrite (bind_ok _ _ _ _ _ _ Hcl) in Hrun.
  destruct (ContentUnderstandingService.analyze_with w request config client s2)
    as [[t3 s3] r3] eqn:Hwith.
  injection Hrun as <- <- <-.
  right. exists config, client, s2, (t1 ++ t2)%list, t3.
  split; [rewrite app_assoc; reflexivity|].
  split.
  { intros x Hx. apply in_app_or in Hx as [Hx|Hx].
    - destruct (Htrace1 x Hx) as (? & ? & _). auto.
    - destruct (Htrace2 x Hx) as (? & ? & _). auto. }
  split; [exact Hwith|].
  split; [rewrite Hconfig2; apply Hset1; reflexivity|].
  split; [apply Hset2; reflexivity|].
  split.
  - intros c Hc. destruct (Hkeep1 c Hc) as (_ & Heq & _). injection Heq as <-. reflexivity.
  - intros c Hc. rewrite <- Hclient1 in Hc.
    destruct (Hkeep2 c Hc) as (_ & Heq & _). injection Heq as <-. reflexivity.
Qed.

Lemma length_zero_nil {A : Type} (l : list A) : (length l <= 0)%nat -> l = [].
Proof. destruct l; [reflexivity|]. cbn. intros H. inversion H. Qed.

(** X14. The file is checked again when the analysis starts. If it is not
    there any more, the orchestrator raises (the "Invoice file not found"
    error whenever the configuration and the client are in place) and neither
    submits nor polls. *)
Theorem missing_file_is_not_submitted (w : World) (request : InvoiceAnalysisRequest.t)
    (s s' : service) (t : list event) (r : result json) :
  path_exists w (InvoiceAnalysisRequest.file_path request) = false ->
  ContentUnderstandingService.analyze_invoice w request s = (t, s', r) ->
  (exists e, r = Err e)
  /\ filter is_submission t = []
  /\ filter is_poll t = []
  /\ (forall config client,
         _config s = Some config -> _client s = Some client ->
         r = Err (Exn ContentUnderstandingServiceError
                    ("Invoice file not found: "
                     ++ Path.to_string (InvoiceAnalysisRequest.file_path request)))).
Proof.
  intros Hex Hrun.
  destruct (analyze_invoice_steps _ _ _ _ _ _ Hrun)
    as [(e & -> & Hsub & Hpoll & _ & _ & Hnone)
       |(config & client & s2 & t0 & t3 & -> & Hquiet & Hwith & _)].
  - repeat split; eauto.
    intros config client Hc Hcl. destruct Hnone as [H|H]; congruence.
  - destruct (analyze_with_calls _ _ _ _ _ _ _ _ Hwith)
      as (_ & _ & Hle & _ & Hmissing & _).
    destruct (Hmissing Hex) as (Hsub & ->).
    rewrite Hsub in Hle.
    rewrite !filter_app_none by (intros x Hx; apply (Hquiet x Hx)).
    repeat split; eauto. apply length_zero_nil. exact Hle.
Qed.

Lemma missing_file_is_not_submitted_witness :
  let gone :=
    {| InvoiceAnalysisRequest.file_path := Path.of_string "/srv/app/data/removed.pdf";
       InvoiceAnalysisRequest.content_type := None;
       InvoiceAnalysisRequest.file_name := None;
       InvoiceAnalysisRequest.analyzer_id := None |} in
  path_exists (Sample.world Sample.env) (InvoiceAnalysisRequest.file_path gone) = false
  /\ exists t s',
       ContentUnderstandingService.analyze_invoice (Sample.world Sample.env) gone __init__
       = (t, s', Err (Exn ContentUnderstandingServiceError
                        "Invoice file not found: /srv/app/data/removed.pdf"))
       /\ filter is_submission t = [].
Proof.
  intros gone.
  assert (H1 : path_exists (Sample.world Sample.env)
                 (InvoiceAnalysisRequest.file_path gone) = false)
    by (vm_compute; reflexivity).
  split; [exact H1|].
  pose (run := ContentUnderstandingService.analyze_invoice (Sample.world Sample.env)
                 gone __init__).
  exists (fst (fst run)), (snd (fst run)).
  assert (H2 : run = (fst (fst run), snd (fst run),
                      Err (Exn ContentUnderstandingServiceError
                             "Invoice file not found: /srv/app/data/removed.pdf")))
    by (vm_compute; reflexivity).
  split; [exact H2|].
  exact (proj1 (proj2 (missing_file_is_not_submitted (Sample.world Sample.env) gone
                         __init__ _ _ _ H1 H2))).
Defined.

(** X15. One call of the orchestrator submits at most once and polls at most
    once, and never polls without having submitted; a call that returns has
    done both exactly once. There is no retry. Every poll is made with the
    timeout and the interval of the cached configuration, on the operation the
    submission returned. *)
Theorem one_submission_one_poll (w : World) (request : InvoiceAnalysisRequest.t)
    (s s' : service) (t : list event) (r : result json) :
  ContentUnderstandingService.analyze_invoice w request s = (t, s', r) ->
  (length (filter is_submission t) <= 1)%nat
  /\ (length (filter is_poll t) <= length (filter is_submission t))%nat
  /\ (forall d, r = Ok d ->
                length (filter is_submission t) = 1%nat /\ length (filter is_poll t) = 1%nat)
  /\ (forall c op timeout interval,
         In (PollResult c op timeout interval) t ->
         exists config,
           _config s' = Some config
           /\ timeout = _ServiceConfig.poll_timeout_seconds config
           /\ interval = _ServiceConfig.poll_interval_seconds config
           /\ begin_analyze w c
                (ContentUnderstandingService.effective_analyzer_id request config)
                (Path.to_string (InvoiceAnalysisRequest.file_path request))
                (InvoiceAnalysisRequest.content_type request) = Ok op).
Proof.
  intros Hrun.
  destruct (analyze_invoice_steps _ _ _ _ _ _ Hrun)
    as [(e & -> & Hsub & Hpoll & _)
       |(config & client & s2 & t0 & t3 & -> & Hquiet & Hwith & Hcfg & _)].
  - rewrite Hsub, Hpoll. cbn. split; [auto|]. split; [auto|].
    split; [intros d Hd; discriminate Hd|].
    intros c op timeout interval Hin.
    assert (Habs : In (PollResult c op timeout interval) (filter is_poll t)).
    { apply filter_In. split; [exact Hin | reflexivity]. }
    rewrite Hpoll in Habs. destruct Habs.
  - destruct (analyze_with_calls _ _ _ _ _ _ _ _ Hwith)
      as (-> & Hone & Hle & Hok & _ & Hparams).
    rewrite !filter_app_none by (intros x Hx; apply (Hquiet x Hx)).
    split; [exact Hone|]. split; [exact Hle|]. split; [exact Hok|].
    intros c op timeout interval Hin.
    apply in_app_or in Hin as [Hin|Hin].
    + destruct (Hquiet _ Hin) as (_ & Habs). discriminate Habs.
    + destruct (Hparams _ _ _ _ Hin) as (-> & -> & -> & Hb).
      exists config. auto.
Qed.

Lemma one_submission_one_poll_witness :
  exists t s' d,
    ContentUnderstandingService.analyze_invoice (Sample.world Sample.env)
      (Sample.request None) __init__ = (t, s', Ok d)
    /\ length (filter is_submission t) = 1%nat
    /\ length (filter is_poll t) = 1%nat.
Proof.
  pose (run := ContentUnderstandingService.analyze_invoice (Sample.world Sample.env)
                 (Sample.request None) __init__).
  exists (fst (fst run)), (snd (fst run)),
    (ContentUnderstandingService._build_analysis_response "prebuilt-invoice"
       (Sample.request None) Sample.config Sample.payload).
  assert (H : run = (fst (fst run), snd (fst run),
                     Ok (ContentUnderstandingService._build_analysis_response
                           "prebuilt-invoice" (Sample.request None) Sample.config
                           Sample.payload)))
    by (vm_compute; reflexivity).
  split; [exact H|].
  exact (proj1 (proj2 (proj2 (one_submission_one_poll _ _ _ _ _ _ H))) _ eq_refl).
Defined.

(** X16. Nothing is ever taken out of the caches. Whatever a call of the
    orchestrator does, and whether it returns or raises, a configuration and a
    client that were cached before the call are the ones cached after it; and
    after a call that returns, both are cached. *)
Theorem caches_are_kept (w : World) (request : InvoiceAnalysisRequest.t)
    (s s' : service) (t : list event) (r : result json) :
  ContentUnderstandingService.analyze_invoice w request s = (t, s', r) ->
  (forall config, _config s = Some config -> _config s' = Some config)
  /\ (forall client, _client s = Some client -> _client s' = Some client)
  /\ (forall d, r = Ok d -> _config s' <> None /\ _client s' <> None).
Proof.
  intros Hrun.
  destruct (analyze_invoice_steps _ _ _ _ _ _ Hrun)
    as [(e & -> & _ & _ & Hc & Hcl & _)
       |(config & client & s2 & t0 & t3 & -> & _ & Hwith & Hcfg & Hclient & Hsame & Hsame')].
  - repeat split; auto; discriminate.
  - destruct (analyze_with_calls _ _ _ _ _ _ _ _ Hwith) as (-> & _).
    split; [intros c Hc; rewrite (Hsame c Hc); exact Hcfg|].
    split; [intros c Hc; rewrite (Hsame' c Hc); exact Hclient|].
    intros d _. rewrite Hcfg, Hclient. split; discriminate.
Qed.

Lemma caches_are_kept_witness :
  exists t s',
    ContentUnderstandingService.analyze_invoice Sample.unreachable (Sample.request None)
      Sample.warm
    = (t, s', Err (Exn ContentUnderstandingServiceError
                     "Failed to analyze invoice: connection refused"))
    /\ _config s' = Some Sample.config
    /\ _client s' = Some Sample.client.
Proof.
  pose (run := ContentUnderstandingService.analyze_invoice Sample.unreachable
                 (Sample.request None) Sample.warm).
  exists (fst (fst run)), (snd (fst run)).
  assert (H : run = (fst (fst run), snd (fst run),
                     Err (Exn ContentUnderstandingServiceError
                            "Failed to analyze invoice: connection refused")))
    by (vm_compute; reflexivity).
  split; [exact H|]. split.
  - exact (proj1 (caches_are_kept _ _ _ _ _ _ H) Sample.config eq_refl).
  - exact (proj1 (proj2 (caches_are_kept _ _ _ _ _ _ H)) Sample.client eq_refl).
Defined.

(* ===================================================================== *)
(** ** The numeric overrides *)
(* ===================================================================== *)

(** X17. [_get_float_env] never raises and never changes the service object.
    It reads the variable once. Unset, it returns the default silently. Set to
    text that [float] refuses, or to a value [v] with [v <= 0], it logs one
    warning and returns the default. Otherwise it returns the parsed value
    silently. *)
Theorem get_float_env_outcomes (w : World) (name : string) (default : spec_float)
    (s : service) :
  exists warnings value,
    ContentUnderstandingService._get_float_env w name default s
    = (Getenv name :: warnings, s, Ok value)
    /\ (getenv w name = None -> warnings = [] /\ value = default)
    /\ (forall raw,
           getenv w name = Some raw ->
           let warning :=
             Log logging WARNING "Ignoring invalid %s value '%s'; using default %.2f"
               [AStr name; AStr raw; AFloat default] in
           (float_of_str w raw = None -> warnings = [warning] /\ value = default)
           /\ (forall v, float_of_str w raw = Some v -> SFleb v float_zero = true ->
                         warnings = [warning] /\ value = default)
           /\ (forall v, float_of_str w raw = Some v -> SFleb v float_zero = false ->
                         warnings = [] /\ value = v)).
Proof.
  exists (float_env_warning w name default), (float_env_value w name default).
  split; [apply get_float_env_run|].
  unfold float_env_warning, float_env_value.
  split.
  - intros ->. auto.
  - intros raw ->. cbv zeta.
    split; [intros ->; auto|].
    split; intros v -> ->; auto.
Qed.

(* ===================================================================== *)
(** * The weather service and the [get_weather] tool *)
(* ===================================================================== *)

Section WeatherFacts.
Import Weather.
Local Open Scope weather_scope.

Lemma weather_bind_returns {A B : Type} (t : list event) (a : A) (k : A -> W B) :
  bind (t, Returns a) k = ((t ++ fst (k a))%list, snd (k a)).
Proof. unfold bind. destruct (k a); reflexivity. Qed.

Lemma weather_bind_ret {A B : Type} (a : A) (k : A -> W B) :
  bind ([], Returns a) k = k a.
Proof. unfold bind. destruct (k a); reflexivity. Qed.

(** What one request gives: the payload, or the translation of the exception
    by the first [except] clause that names one of its classes. *)
Lemma perform_get_cases (web : Web) (self : WeatherService.t) (url : string)
    (params : Dict.t) :
  let timeout := WeatherService._timeout self in
  let request := Get url params timeout in
  (exists payload,
      request_returns web url params timeout payload
      /\ WeatherService._perform_get web self url params = ([request], Returns payload))
  \/ (exists exc,
         request_raises web url params timeout exc
         /\ ((isinstance exc HTTPError = true
              /\ WeatherService._perform_get web self url params
                 = ([request; Log EXCEPTION "Weather API returned HTTP %s"
                                [WeatherService.status_of exc]],
                    Raises (error_of WeatherServiceError WeatherService.error_response)))
             \/ (isinstance exc HTTPError = false
                 /\ isinstance exc RequestException = true
                 /\ WeatherService._perform_get web self url params
                    = ([request; Log EXCEPTION "Weather API request failed: %s" [AError exc]],
                       Raises (error_of WeatherServiceError WeatherService.unreachable)))
             \/ (isinstance exc HTTPError = false
                 /\ isinstance exc RequestException = false
                 /\ isinstance exc ValueError = true
                 /\ WeatherService._perform_get web self url params
                    = ([request; Log EXCEPTION "Failed to decode weather API response" []],
                       Raises (error_of WeatherServiceError WeatherService.unexpected_data)))
             \/ (caught_by_perform_get exc = false
                 /\ WeatherService._perform_get web self url params
                    = ([request], Raises exc)))).
Proof.
  intros timeout request.
  assert (Hhandled : forall exc,
             request_raises web url params timeout exc ->
             WeatherService._perform_get web self url params
             = try_except ([request], Raises exc)
                 (fun exc =>
                    if isinstance exc HTTPError then
                      Some (log EXCEPTION "Weather API returned HTTP %s"
                              [WeatherService.status_of exc] ;;;
                            raise (error_of WeatherServiceError WeatherService.error_response))
                    else if isinstance exc RequestException then
                      Some (log EXCEPTION "Weather API request failed: %s" [AError exc] ;;;
                            raise (error_of WeatherServiceError WeatherService.unreachable))
                    else if isinstance exc ValueError then
                      Some (log EXCEPTION "Failed to decode weather API response" [] ;;;
                            raise (error_of WeatherServiceError WeatherService.unexpected_data))
                    else None)).
  { intros exc Hexc. unfold WeatherService._perform_get.
    fold timeout. fold request.
    destruct Hexc as [Hget | (r & Hget & [Hstatus | (Hstatus & Hjson)])].
    - rewrite Hget. reflexivity.
    - rewrite Hget. rewrite weather_bind_returns. rewrite Hstatus. reflexivity.
    - rewrite Hget. rewrite weather_bind_returns. rewrite Hstatus, Hjson. reflexivity. }
  assert (Hcases : (exists payload, request_returns web url params timeout payload)
                   \/ (exists exc, request_raises web url params timeout exc)).
  { unfold request_returns, request_raises.
    destruct (session_get web url params timeout) as [r | exc] eqn:Hget.
    - destruct (Response.raise_for_status r) as [exc | ] eqn:Hstatus.
      + right. exists exc. right. exists r. auto.
      + destruct (Response.json r) as [payload | exc] eqn:Hjson.
        * left. exists payload, r. auto.
        * right. exists exc. right. exists r. auto.
    - right. exists exc. left. reflexivity. }
  destruct Hcases as [(payload & Hreturns) | (exc & Hraises)].
  - left. exists payload. split; [exact Hreturns | ].
    destruct Hreturns as (r & Hget & Hstatus & Hjson).
    unfold WeatherService._perform_get. fold timeout. fold request.
    rewrite Hget, weather_bind_returns, Hstatus, Hjson. reflexivity.
  - right. exists exc. split; [exact Hraises | ].
    rewrite (Hhandled exc Hraises). unfold try_except, caught_by_perform_get.
    destruct (isinstance exc HTTPError) eqn:Hhttp.
    + left. split; reflexivity.
    + destruct (isinstance exc RequestException) eqn:Hrequest.
      * right. left. repeat split; reflexivity.
      * destruct (isinstance exc ValueError) eqn:Hvalue.
        -- right. right. left. repeat split; reflexivity.
        -- right. right. right. split; reflexivity.
Qed.

Lemma float_outcome (web : Web) (raw : json) :
  exists o,
    float web raw = ([], o)
    /\ match o with
       | Returns _ => True
       | Raises e => is_number raw = false /\ class_of e <> WeatherServiceError
       end.
Proof.
  destruct raw as [ | b | z | f | text | l | d]; cbn.
  - eexists; split; [reflexivity | ]. cbn. split; [reflexivity | discriminate].
  - eexists; split; [reflexivity | ]. exact I.
  - destruct (float_of_Z z) eqn:Hz;
      (eexists; split; [reflexivity | ]); cbn; try exact I.
    split; [reflexivity | discriminate].
  - eexists; split; [reflexivity | ]. exact I.
  - destruct (float_of_str web text);
      (eexists; split; [reflexivity | ]); cbn; try exact I.
    split; [reflexivity | discriminate].
  - eexists; split; [reflexivity | ]. cbn. split; [reflexivity | discriminate].
  - eexists; split; [reflexivity | ]. cbn. split; [reflexivity | discriminate].
Qed.

(** [float(city[key])] *)
Lemma coordinate_outcome (web : Web) (c : Dict.t) (key : string) :
  exists o,
    (raw <- getitem c key ;; float web raw) = ([], o)
    /\ match o with
       | Returns f =>
           exists raw, Dict.lookup c key = Some raw /\ float web raw = ([], Returns f)
       | Raises e => is_number (field c key) = false /\ class_of e <> WeatherServiceError
       end.
Proof.
  unfold getitem, field. destruct (Dict.lookup c key) as [raw | ] eqn:Hraw.
  - unfold ret. rewrite weather_bind_returns.
    destruct (float_outcome web raw) as (o & Hfloat & Ho). rewrite Hfloat. cbn.
    exists o. split; [reflexivity | ].
    destruct o as [f | e]; [ | exact Ho]. exists raw. auto.
  - eexists. split; [reflexivity | ]. cbn. split; [reflexivity | discriminate].
Qed.

Lemma or_else_truthy (a b : json) : truthy a = true -> or_else a b = a.
Proof. unfold or_else. intros ->. reflexivity. Qed.

Lemma or_else_falsy (a b : json) : truthy a = false -> or_else a b = b.
Proof. unfold or_else. intros ->. reflexivity. Qed.

(** The location a geocoding payload holds: lines 92-102 emit nothing. *)
Lemma location_of_outcome (web : Web) (city_name : string) (payload : json) :
  exists o,
    WeatherService.location_of web city_name payload = ([], o)
    /\ match o with
       | Returns location =>
           exists d c rest,
             payload = JDict d
             /\ field d "results" = JList (JDict c :: rest)
             /\ Location.name location = field_default c "name" (JStr city_name)
             /\ Location.country location = field c "country"
             /\ (exists raw,
                    Dict.lookup c "latitude" = Some raw
                    /\ float web raw = ([], Returns (Location.latitude location)))
             /\ (exists raw,
                    Dict.lookup c "longitude" = Some raw
                    /\ float web raw = ([], Returns (Location.longitude location)))
       | Raises e =>
           (e = error_of WeatherServiceError (WeatherService.no_results city_name)
            /\ exists d, payload = JDict d /\ truthy (field d "results") = false)
           \/ (geocoding_shape payload = false /\ class_of e <> WeatherServiceError)
       end.
Proof.
  unfold WeatherService.location_of.
  destruct payload as [ | b | z | f | text | l | d];
    try (eexists; split; [reflexivity | ]; right; split; [reflexivity | discriminate]).
  unfold get, ret. rewrite weather_bind_returns.
  destruct (truthy (field d "results")) eqn:Htruthy.
  2:{ rewrite (or_else_falsy _ _ Htruthy). cbn.
      eexists; split; [reflexivity | ]. left. split; [reflexivity | ].
      exists d. auto. }
  rewrite (or_else_truthy _ _ Htruthy). rewrite Htruthy.
  cbv beta iota zeta delta [negb fst snd].
  assert (Hfails : forall e : error,
             geocoding_shape (JDict d) = false ->
             class_of e <> WeatherServiceError ->
             exists o,
               ([] : list event, @Raises Location.t e) = ([], o)
               /\ match o with
                  | Returns location =>
                      exists d0 c rest,
                        JDict d = JDict d0
                        /\ field d0 "results" = JList (JDict c :: rest)
                        /\ Location.name location = field_default c "name" (JStr city_name)
                        /\ Location.country location = field c "country"
                        /\ (exists raw,
                               Dict.lookup c "latitude" = Some raw
                               /\ float web raw = ([], Returns (Location.latitude location)))
                        /\ (exists raw,
                               Dict.lookup c "longitude" = Some raw
                               /\ float web raw = ([], Returns (Location.longitude location)))
                  | Raises e =>
                      (e = error_of WeatherServiceError (WeatherService.no_results city_name)
                       /\ exists d0, JDict d = JDict d0 /\ truthy (field d0 "results") = false)
                      \/ (geocoding_shape (JDict d) = false
                          /\ class_of e <> WeatherServiceError)
                  end).
  { intros e Hshape Hclass. exists (Raises e). split; [reflexivity | ]. right. auto. }
  destruct (field d "results") as [ | b | z | f | text | l | d'] eqn:Hresults.
  - discriminate Htruthy.
  - apply Hfails; [cbn; rewrite Hresults; reflexivity | discriminate].
  - apply Hfails; [cbn; rewrite Hresults; reflexivity | discriminate].
  - apply Hfails; [cbn; rewrite Hresults; reflexivity | discriminate].
  - destruct text as [ | ch text]; [discriminate Htruthy | ].
    apply Hfails; [cbn; rewrite Hresults; reflexivity | discriminate].
  - destruct l as [ | city rest]; [discriminate Htruthy | ].
    unfold first_item, ret. rewrite weather_bind_returns.
    destruct city as [ | b | z | f | text | l | c];
      try (apply Hfails; [cbn; rewrite Hresults; reflexivity | discriminate]).
    destruct (coordinate_outcome web c "latitude") as (olat & Hlat & Holat).
    rewrite Hlat.
    destruct olat as [latitude | e].
    2:{ destruct Holat as [Hnumber Hclass]. apply Hfails; [ | exact Hclass].
        cbn. rewrite Hresults, Hnumber. reflexivity. }
    rewrite weather_bind_returns.
    destruct (coordinate_outcome web c "longitude") as (olon & Hlon & Holon).
    rewrite Hlon.
    destruct olon as [longitude | e].
    2:{ destruct Holon as [Hnumber Hclass]. apply Hfails; [ | exact Hclass].
        cbn. rewrite Hresults, Hnumber. apply andb_false_r. }
    eexists. split; [reflexivity | ].
    exists d, c, rest. cbn. repeat split; assumption.
  - destruct d' as [ | item d']; [discriminate Htruthy | ].
    apply Hfails; [cbn; rewrite Hresults; reflexivity | discriminate].
Qed.

Lemma weather_bind_assoc {A B C : Type} (m : W A) (f : A -> W B) (g : B -> W C) :
  bind (bind m f) g = bind m (fun a => bind (f a) g).
Proof.
  destruct m as [t [a | e]]; [ | reflexivity].
  unfold bind at 2 3. destruct (f a) as [t' [b | e]].
  - unfold bind. destruct (g b) as [t'' o]. rewrite app_assoc. reflexivity.
  - reflexivity.
Qed.

(** A request followed by the reading of its payload, when the reading emits
    nothing. *)
Lemma request_then {A : Type} (web : Web) (self : WeatherService.t) (url : string)
    (params : Dict.t) (k : json -> W A) (shape : json -> bool) (others : list string) :
  (forall payload,
      exists o,
        k payload = ([], o)
        /\ match o with
           | Returns _ => True
           | Raises e =>
               (class_of e = WeatherServiceError /\ In (str_of e) others)
               \/ (shape payload = false /\ class_of e <> WeatherServiceError)
           end) ->
  let timeout := WeatherService._timeout self in
  let request := Get url params timeout in
  (exists logs e,
      bind (WeatherService._perform_get web self url params) k = (request :: logs, Raises e)
      /\ filter is_request logs = []
      /\ lookup_failure web url params timeout shape others e)
  \/ (exists payload a,
         request_returns web url params timeout payload
         /\ k payload = ([], Returns a)
         /\ bind (WeatherService._perform_get web self url params) k
            = ([request], Returns a)).
Proof.
  intros Hk timeout request.
  destruct (perform_get_cases web self url params)
    as [(payload & Hreturns & Hrun)
       | (exc & Hraises & [(Hhttp & Hrun)
                          | [(Hhttp & Hrequest & Hrun)
                            | [(Hhttp & Hrequest & Hvalue & Hrun)
                              | (Hcaught & Hrun)]]])];
    fold timeout in Hrun; fold request in Hrun; rewrite Hrun;
    fold timeout in Hraises || fold timeout in Hreturns.
  - rewrite weather_bind_returns.
    destruct (Hk payload) as (o & Hpayload & Ho). rewrite Hpayload. cbn.
    destruct o as [a | e].
    + right. exists payload, a. auto.
    + left. exists [], e. split; [reflexivity | ]. split; [reflexivity | ].
      destruct Ho as [(Hclass & Hin) | (Hshape & Hclass)].
      * left. split; [exact Hclass | ]. split; [cbn; auto | ].
        right. exists payload. exact Hreturns.
      * right. right. exists payload. auto.
  - left. eexists _, _. split; [reflexivity | ]. split; [reflexivity | ].
    left. split; [reflexivity | ]. split; [cbn; auto | ].
    left. exists exc. split; [exact Hraises | ].
    unfold caught_by_perform_get. rewrite Hhttp. reflexivity.
  - left. eexists _, _. split; [reflexivity | ]. split; [reflexivity | ].
    left. split; [reflexivity | ]. split; [cbn; auto | ].
    left. exists exc. split; [exact Hraises | ].
    unfold caught_by_perform_get. rewrite Hhttp, Hrequest. reflexivity.
  - left. eexists _, _. split; [reflexivity | ]. split; [reflexivity | ].
    left. split; [reflexivity | ]. split; [cbn; auto | ].
    left. exists exc. split; [exact Hraises | ].
    unfold caught_by_perform_get. rewrite Hhttp, Hrequest, Hvalue. reflexivity.
  - left. exists [], exc. split; [reflexivity | ]. split; [reflexivity | ].
    right. left. auto.
Qed.

(** Lines 112-114 and 38-79: the document a forecast payload gives. *)
Lemma forecast_outcome (location : Location.t) (payload : json) :
  exists o,
    bind (WeatherService.with_current payload) (WeatherService.summarize location) = ([], o)
    /\ match o with
       | Returns document =>
           exists p current units,
             payload = JDict p
             /\ Dict.lookup p "current" = Some (JDict current)
             /\ field_default p "current_units" (JDict []) = JDict units
             /\ document = WeatherService.summary location current units
       | Raises e =>
           (class_of e = WeatherServiceError
            /\ In (str_of e) [WeatherService.missing_current])
           \/ (forecast_shape payload = false /\ class_of e <> WeatherServiceError)
       end.
Proof.
  unfold WeatherService.with_current.
  destruct payload as [ | b | z | f | text | l | p];
    try (eexists; split; [reflexivity | ]; right; split; [reflexivity | discriminate]).
  - cbn. destruct (PyStr.contains "current" text); cbn.
    + eexists; split; [reflexivity | ]. right. split; [reflexivity | discriminate].
    + eexists; split; [reflexivity | ]. left. split; [reflexivity | cbn; auto].
  - cbn. destruct (existsb (is_text "current") l); cbn.
    + eexists; split; [reflexivity | ]. right. split; [reflexivity | discriminate].
    + eexists; split; [reflexivity | ]. left. split; [reflexivity | cbn; auto].
  - unfold contains, ret. rewrite weather_bind_ret.
    destruct (Dict.lookup p "current") as [current | ] eqn:Hcurrent.
    2:{ eexists; split; [reflexivity | ]. left. split; [reflexivity | cbn; auto]. }
    cbv beta iota zeta delta [negb]. rewrite weather_bind_ret.
    unfold WeatherService.summarize, get_default, ret. rewrite !weather_bind_ret.
    assert (Hfield : field_default p "current" (JDict []) = current)
      by (unfold field_default; rewrite Hcurrent; reflexivity).
    rewrite Hfield.
    assert (Hshape : forall v,
               is_object v = false -> is_object current && is_object v = false).
    { intros v ->. apply andb_false_r. }
    destruct current as [ | b | z | f | text | l | c];
      try (eexists; split; [reflexivity | ]; right;
           split; [cbn; unfold field_default; rewrite Hcurrent; reflexivity
                  | discriminate]).
    destruct (field_default p "current_units" (JDict [])) as [ | b | z | f | text | l | u]
      eqn:Hunits;
      try (eexists; split; [reflexivity | ]; right;
           split; [cbn; rewrite Hunits; unfold field_default; rewrite Hcurrent; reflexivity
                  | discriminate]).
    eexists; split; [reflexivity | ]. exists p, c, u. auto.
Qed.

(** The outcomes of one lookup of the service. *)
Lemma get_weather_cases (web : Web) (self : WeatherService.t) (city_name : string)
    (country_code : json) :
  let timeout := WeatherService._timeout self in
  let params := WeatherService.geocoding_params city_name country_code in
  let geocoding := Get WeatherService._GEOCODING_ENDPOINT params timeout in
  (exists logs e,
      WeatherService.get_weather web self city_name country_code
      = (geocoding :: logs, Raises e)
      /\ filter is_request logs = []
      /\ lookup_failure web WeatherService._GEOCODING_ENDPOINT params timeout
           geocoding_shape [WeatherService.no_results city_name] e)
  \/ (exists location,
         located web self city_name country_code location
         /\ let forecast :=
              Get WeatherService._WEATHER_ENDPOINT
                (WeatherService.forecast_params location) timeout in
            (exists logs e,
                WeatherService.get_weather web self city_name country_code
                = (geocoding :: forecast :: logs, Raises e)
                /\ filter is_request logs = []
                /\ lookup_failure web WeatherService._WEATHER_ENDPOINT
                     (WeatherService.forecast_params location) timeout
                     forecast_shape [WeatherService.missing_current] e)
            \/ (exists p current units,
                   request_returns web WeatherService._WEATHER_ENDPOINT
                     (WeatherService.forecast_params location) timeout (JDict p)
                   /\ Dict.lookup p "current" = Some (JDict current)
                   /\ field_default p "current_units" (JDict []) = JDict units
                   /\ WeatherService.get_weather web self city_name country_code
                      = ([geocoding; forecast],
                         Returns (WeatherService.summary location current units)))).
Proof.
  intros timeout params geocoding.
  unfold WeatherService.get_weather, WeatherService._resolve_location.
  fold params.
  destruct (request_then web self WeatherService._GEOCODING_ENDPOINT params
              (WeatherService.location_of web city_name) geocoding_shape
              [WeatherService.no_results city_name])
    as [(logs & e & Hrun & Hlogs & Hfailure) | (payload & location & Hreturns & Hk & Hrun)].
  { intros payload.
    destruct (location_of_outcome web city_name payload) as (o & Hrun & Ho).
    exists o. split; [exact Hrun | ].
    destruct o as [location | e]; [exact I | ].
    destruct Ho as [(-> & _) | Ho]; [left; cbn; auto | right; exact Ho]. }
  - left. exists logs, e.
    change (bind (WeatherService._perform_get web self
                    WeatherService._GEOCODING_ENDPOINT params)
              (fun payload => WeatherService.location_of web city_name payload))
      with (bind (WeatherService._perform_get web self
                    WeatherService._GEOCODING_ENDPOINT params)
              (WeatherService.location_of web city_name)).
    rewrite Hrun. auto.
  - change (bind (WeatherService._perform_get web self
                    WeatherService._GEOCODING_ENDPOINT params)
              (fun payload => WeatherService.location_of web city_name payload))
      with (bind (WeatherService._perform_get web self
                    WeatherService._GEOCODING_ENDPOINT params)
              (WeatherService.location_of web city_name)).
    right. exists location. split.
    { destruct (location_of_outcome web city_name payload) as (o & Hrun' & Ho).
      rewrite Hk in Hrun'. injection Hrun' as <-.
      destruct Ho as (d & c & rest & -> & Ho). exists d, c, rest. auto. }
    cbv zeta.
    assert (Hsecond :
              bind (WeatherService._fetch_weather web self location)
                (fun weather_payload => WeatherService.summarize location weather_payload)
              = bind (WeatherService._perform_get web self WeatherService._WEATHER_ENDPOINT
                        (WeatherService.forecast_params location))
                  (fun payload =>
                     bind (WeatherService.with_current payload)
                       (WeatherService.summarize location))).
    { unfold WeatherService._fetch_weather. rewrite weather_bind_assoc. reflexivity. }
    rewrite Hrun, weather_bind_returns. cbv beta. rewrite Hsecond.
    destruct (request_then web self WeatherService._WEATHER_ENDPOINT
                (WeatherService.forecast_params location)
                (fun payload =>
                   bind (WeatherService.with_current payload)
                     (WeatherService.summarize location))
                forecast_shape [WeatherService.missing_current])
      as [(logs & e & Hrun2 & Hlogs & Hfailure)
         | (payload2 & document & Hreturns2 & Hk2 & Hrun2)].
    { intros payload2.
      destruct (forecast_outcome location payload2) as (o & Hrun2 & Ho).
      exists o. split; [exact Hrun2 | ].
      destruct o as [document | e]; [exact I | exact Ho]. }
    + left. exists logs, e. rewrite Hrun2. auto.
    + right.
      destruct (forecast_outcome location payload2) as (o & Hrun' & Ho).
      rewrite Hk2 in Hrun'. injection Hrun' as <-.
      destruct Ho as (p & current & units & -> & Hcurrent & Hunits & ->).
      exists p, current, units. rewrite Hrun2. auto.
Qed.

Lemma isinstance_service_error (e : error) :
  isinstance e WeatherServiceError = true <-> class_of e = WeatherServiceError.
Proof.
  unfold isinstance. destruct (class_of e); cbn; split; congruence.
Qed.

(** Lines 138-142: what the tool makes of a run of the service. *)
Lemma lookup_weather_run (web : Web) (weather_service : WeatherService.t)
    (city_name : string) (country_code : json) (t : list event) (o : outcome json) :
  WeatherService.get_weather web weather_service city_name country_code = (t, o) ->
  function_app.lookup_weather web weather_service city_name country_code
  = match o with
    | Returns document => (t, Returns document)
    | Raises e =>
        if isinstance e WeatherServiceError
        then ((t ++ [Log WARNING "Weather lookup failed for %s (%s)"
                       [AText city_name;
                        AValue (or_else country_code (JStr "no country"))]])%list,
              Returns (function_app.error_envelope "Unable to retrieve weather information"
                         (str_of e)))
        else (t, Raises e)
    end.
Proof.
  intros Hrun. unfold function_app.lookup_weather. rewrite Hrun.
  destruct o as [document | e]; [reflexivity | ].
  unfold try_except. destruct (isinstance e WeatherServiceError); reflexivity.
Qed.

(** Lines 126-133 on a payload that is an object holding an object of
    arguments. *)
Lemma decode_arguments_object (content a : Dict.t) :
  field_default content "arguments" (JDict []) = JDict a ->
  function_app.decode_arguments (Returns (JDict content))
  = match or_else (field a "city") (JStr "") with
    | JStr text => ([], Returns (inr (PyStr.strip text, field a "countryCode")))
    | other => ([], Raises (no_attribute other "strip"))
    end.
Proof.
  intros Harguments. unfold function_app.decode_arguments, lift, get_default, ret.
  rewrite weather_bind_ret, Harguments, weather_bind_ret.
  unfold get, ret. rewrite weather_bind_ret.
  unfold function_app._CITY_NAME_PROPERTY_NAME, function_app._COUNTRY_CODE_PROPERTY_NAME.
  destruct (or_else (field a "city") (JStr "")) as [ | b | z | f | text | l | d];
    reflexivity.
Qed.

(** The tool on such a payload, when the city is text. *)
Lemma get_weather_text (web : Web) (weather_service : WeatherService.t)
    (content a : Dict.t) (text : string) :
  field_default content "arguments" (JDict []) = JDict a ->
  or_else (field a "city") (JStr "") = JStr text ->
  function_app.get_weather web weather_service (Returns (JDict content))
  = if PyStr.truthy (PyStr.strip text)
    then function_app.lookup_weather web weather_service (PyStr.strip text)
           (field a "countryCode")
    else ([], Returns function_app.city_name_is_required).
Proof.
  intros Harguments Hcity. unfold function_app.get_weather.
  rewrite (decode_arguments_object content a Harguments), Hcity, weather_bind_ret.
  destruct (PyStr.truthy (PyStr.strip text)); reflexivity.
Qed.

(** Every lookup starts with the geocoding request. *)
Lemma lookup_weather_requests (web : Web) (weather_service : WeatherService.t)
    (city_name : string) (country_code : json) :
  exists events o,
    function_app.lookup_weather web weather_service city_name country_code
    = (Get WeatherService._GEOCODING_ENDPOINT
         (WeatherService.geocoding_params city_name country_code)
         (WeatherService._timeout weather_service) :: events, o).
Proof.
  destruct (get_weather_cases web weather_service city_name country_code)
    as [(logs & e & Hrun & _)
       | (location & _ & [(logs & e & Hrun & _) | (p & c & u & _ & _ & _ & Hrun)])];
    rewrite (lookup_weather_run _ _ _ _ _ _ Hrun);
    try (destruct (isinstance e WeatherServiceError));
    eexists _, _; reflexivity.
Qed.

Lemma truthy_text (text : string) : PyStr.truthy text = false <-> text = "".
Proof.
  unfold PyStr.truthy. destruct text; cbn; split; congruence.
Qed.

(** X18. The city is required. For a payload that is an object whose arguments
    are an object, the tool returns the one-key answer "City name is required",
    without a request and without a log record, exactly when the [city]
    argument is missing, is a value that counts as false (null, false, 0, an
    empty string, list or object), or is a string of white space only. *)
Theorem city_is_required (web : Web) (weather_service : WeatherService.t)
    (content a : Dict.t) :
  field_default content "arguments" (JDict []) = JDict a ->
  function_app.get_weather web weather_service (Returns (JDict content))
  = ([], Returns (JDict [("error", JStr "City name is required")]))
  <-> (truthy (field a "city") = false
       \/ exists text, field a "city" = JStr text /\ PyStr.strip text = "").
Proof.
  intros Harguments. split.
  - intros Hrun.
    destruct (truthy (field a "city")) eqn:Htruthy; [right | left; reflexivity].
    unfold function_app.get_weather in Hrun.
    rewrite (decode_arguments_object content a Harguments) in Hrun.
    rewrite (or_else_truthy _ _ Htruthy) in Hrun.
    destruct (field a "city") as [ | b | z | f | text | l | d] eqn:Hcity;
      try discriminate Hrun.
    exists text. split; [reflexivity | ].
    rewrite weather_bind_ret in Hrun.
    destruct (PyStr.truthy (PyStr.strip text)) eqn:Hblank.
    + cbn [negb] in Hrun.
      destruct (lookup_weather_requests web weather_service (PyStr.strip text)
                  (field a "countryCode")) as (events & o & Hlookup).
      rewrite Hlookup in Hrun. discriminate Hrun.
    + apply truthy_text. exact Hblank.
  - intros [Htruthy | (text & Hcity & Hblank)].
    + rewrite (get_weather_text web weather_service content a ""%string Harguments).
      * reflexivity.
      * apply or_else_falsy. exact Htruthy.
    + rewrite (get_weather_text web weather_service content a text Harguments).
      * rewrite Hblank. reflexivity.
      * rewrite Hcity. unfold or_else. cbn.
        destruct (PyStr.truthy text) eqn:Htext; [reflexivity | ].
        apply truthy_text in Htext. rewrite Htext. reflexivity.
Qed.

Lemma city_is_required_witness :
  field_default [("name", JStr "get_weather"); ("arguments", JDict [("city", JStr "   ")])]
    "arguments" (JDict [])
  = JDict [("city", JStr "   ")]
  /\ function_app.get_weather (Demo.web (Demo.ok Demo.found) (Demo.ok Demo.forecast))
       WeatherService.__init__ (Demo.call [("city", JStr "   ")])
     = ([], Returns (JDict [("error", JStr "City name is required")])).
Proof.
  assert (Harguments :
            field_default
              [("name", JStr "get_weather"); ("arguments", JDict [("city", JStr "   ")])]
              "arguments" (JDict [])
            = JDict [("city", JStr "   ")]) by reflexivity.
  split; [exact Harguments | ].
  apply (proj2 (city_is_required (Demo.web (Demo.ok Demo.found) (Demo.ok Demo.forecast))
                  WeatherService.__init__ _ _ Harguments)).
  right. exists "   "%string. split; reflexivity.
Defined.

(** X19. What the tool does not catch while it reads its arguments. A payload
    that is no object, arguments that are no object, and a [city] that counts
    as true without being a string (a number, a list, an object, [true]) make
    the tool raise [AttributeError]: no answer is returned, nothing is logged
    and no request is made. *)
Theorem malformed_arguments_escape (web : Web) (weather_service : WeatherService.t) :
  (forall payload,
      is_object payload = false ->
      function_app.get_weather web weather_service (Returns payload)
      = ([], Raises (no_attribute payload "get")))
  /\ (forall content arguments,
         field_default content "arguments" (JDict []) = arguments ->
         is_object arguments = false ->
         function_app.get_weather web weather_service (Returns (JDict content))
         = ([], Raises (no_attribute arguments "get")))
  /\ (forall content a city,
         field_default content "arguments" (JDict []) = JDict a ->
         field a "city" = city ->
         truthy city = true ->
         (forall text, city <> JStr text) ->
         function_app.get_weather web weather_service (Returns (JDict content))
         = ([], Raises (no_attribute city "strip"))).
Proof.
  split; [ | split].
  - intros payload Hobject.
    destruct payload as [ | b | z | f | text | l | d]; try discriminate Hobject;
      reflexivity.
  - intros content arguments Harguments Hobject.
    unfold function_app.get_weather, function_app.decode_arguments, lift, get_default, ret.
    rewrite weather_bind_ret, Harguments, weather_bind_ret.
    destruct arguments as [ | b | z | f | text | l | d]; try discriminate Hobject;
      reflexivity.
  - intros content a city Harguments Hcity Htruthy Htext.
    unfold function_app.get_weather.
    rewrite (decode_arguments_object content a Harguments), Hcity.
    rewrite (or_else_truthy _ _ Htruthy).
    destruct city as [ | b | z | f | text | l | d]; try reflexivity.
    exfalso. apply (Htext text). reflexivity.
Qed.

Lemma malformed_arguments_escape_witness :
  function_app.get_weather (Demo.web (Demo.ok Demo.found) (Demo.ok Demo.forecast))
    WeatherService.__init__ (Returns (JList []))
  = ([], Raises (no_attribute (JList []) "get"))
  /\ function_app.get_weather (Demo.web (Demo.ok Demo.found) (Demo.ok Demo.forecast))
       WeatherService.__init__ (Returns (JDict [("arguments", JNull)]))
     = ([], Raises (no_attribute JNull "get"))
  /\ function_app.get_weather (Demo.web (Demo.ok Demo.found) (Demo.ok Demo.forecast))
       WeatherService.__init__ (Demo.call [("city", JInt 75001)])
     = ([], Raises (no_attribute (JInt 75001) "strip")).
Proof.
  pose proof (malformed_arguments_escape
                (Demo.web (Demo.ok Demo.found) (Demo.ok Demo.forecast))
                WeatherService.__init__) as (Hpayload & Harguments & Hcity).
  split; [ | split].
  - apply Hpayload. reflexivity.
  - apply (Harguments [("arguments", JNull)] JNull); reflexivity.
  - apply (Hcity _ [("city", JInt 75001)] (JInt 75001)); try reflexivity.
    intros text. discriminate.
Defined.

(** X20. How a failed request is reported. Whichever of [session.get],
    [raise_for_status] and [json] raises, one request was made, and the
    exception is replaced according to the first [except] clause that names
    one of its classes: an [HTTPError] by "Weather service returned an error
    response"; any other request exception by "Unable to reach the weather
    service", and so the decoding error of [requests], although it is a
    [ValueError] as well; a [ValueError] that is no request exception by
    "Received unexpected data from the weather service". Each of these is
    logged once. An exception of no such class is raised as it is, without a
    log record. *)
Theorem request_failures_are_translated (web : Web) (self : WeatherService.t)
    (url : string) (params : Dict.t) (exc : error) :
  let timeout := WeatherService._timeout self in
  let request := Get url params timeout in
  request_raises web url params timeout exc ->
  (class_of exc = HTTPError ->
   WeatherService._perform_get web self url params
   = ([request;
       Log EXCEPTION "Weather API returned HTTP %s"
         [match response exc with
          | Some r => if truth r then AStatus (status_code r) else AText "unknown"
          | None => AText "unknown"
          end]],
      Raises (error_of WeatherServiceError "Weather service returned an error response")))
  /\ (class_of exc = RequestException \/ class_of exc = RequestsJSONDecodeError ->
      WeatherService._perform_get web self url params
      = ([request; Log EXCEPTION "Weather API request failed: %s" [AError exc]],
         Raises (error_of WeatherServiceError "Unable to reach the weather service")))
  /\ (class_of exc = ValueError \/ class_of exc = JSONDecodeError ->
      WeatherService._perform_get web self url params
      = ([request; Log EXCEPTION "Failed to decode weather API response" []],
         Raises (error_of WeatherServiceError
                   "Received unexpected data from the weather service")))
  /\ (caught_by_perform_get exc = false ->
      WeatherService._perform_get web self url params = ([request], Raises exc)).
Proof.
  intros timeout request Hraises.
  assert (Hbody : WeatherService._perform_get web self url params
                  = try_except ([request], Raises exc)
                      (fun exc =>
                         if isinstance exc HTTPError then
                           Some (log EXCEPTION "Weather API returned HTTP %s"
                                   [WeatherService.status_of exc] ;;;
                                 raise (error_of WeatherServiceError
                                          WeatherService.error_response))
                         else if isinstance exc RequestException then
                           Some (log EXCEPTION "Weather API request failed: %s"
                                   [AError exc] ;;;
                                 raise (error_of WeatherServiceError
                                          WeatherService.unreachable))
                         else if isinstance exc ValueError then
                           Some (log EXCEPTION "Failed to decode weather API response" [] ;;;
                                 raise (error_of WeatherServiceError
                                          WeatherService.unexpected_data))
                         else None)).
  { unfold WeatherService._perform_get. fold timeout. fold request.
    destruct Hraises as [Hget | (r & Hget & [Hstatus | (Hstatus & Hjson)])].
    - rewrite Hget. reflexivity.
    - rewrite Hget, weather_bind_returns, Hstatus. reflexivity.
    - rewrite Hget, weather_bind_returns, Hstatus, Hjson. reflexivity. }
  rewrite Hbody. unfold try_except, caught_by_perform_get, isinstance.
  repeat split.
  - intros ->. reflexivity.
  - intros [-> | ->]; reflexivity.
  - intros [-> | ->]; reflexivity.
  - intros Hcaught.
    destruct (issubclass (class_of exc) HTTPError); [discriminate Hcaught | ].
    destruct (issubclass (class_of exc) RequestException); [discriminate Hcaught | ].
    destruct (issubclass (class_of exc) ValueError); [discriminate Hcaught | ].
    reflexivity.
Qed.

Lemma request_failures_are_translated_witness :
  request_raises (Demo.web (Raises Demo.not_found) (Demo.ok Demo.forecast))
    WeatherService._GEOCODING_ENDPOINT [("name", JStr "Paris")] 10 Demo.not_found
  /\ WeatherService._perform_get (Demo.web (Raises Demo.not_found) (Demo.ok Demo.forecast))
       WeatherService.__init__ WeatherService._GEOCODING_ENDPOINT [("name", JStr "Paris")]
     = ([Get WeatherService._GEOCODING_ENDPOINT [("name", JStr "Paris")] 10;
         Log EXCEPTION "Weather API returned HTTP %s" [AText "unknown"]],
        Raises (error_of WeatherServiceError "Weather service returned an error response")).
Proof.
  assert (Hraises :
            request_raises (Demo.web (Raises Demo.not_found) (Demo.ok Demo.forecast))
              WeatherService._GEOCODING_ENDPOINT [("name", JStr "Paris")] 10
              Demo.not_found) by (left; reflexivity).
  split; [exact Hraises | ].
  exact (proj1 (request_failures_are_translated
                  (Demo.web (Raises Demo.not_found) (Demo.ok Demo.forecast))
                  WeatherService.__init__ WeatherService._GEOCODING_ENDPOINT
                  [("name", JStr "Paris")] Demo.not_found Hraises) eq_refl).
Defined.

Lemma filter_requests_of_logs (request : event) (logs : list event) :
  is_request request = true ->
  filter is_request logs = [] ->
  filter is_request (request :: logs) = [request].
Proof. intros Hrequest Hlogs. cbn. rewrite Hrequest, Hlogs. reflexivity. Qed.

(** X21. The requests of one lookup. The service first asks the geocoding
    endpoint for one result in English for the city, with the country only
    when a country code was given that counts as true. It asks the forecast
    endpoint only after it has read a location from the first result, then
    once, for the coordinates of that location and the six current readings.
    Both requests carry the timeout of the service. A lookup that returns has
    made both requests. No request is repeated. *)
Theorem requests_of_a_lookup (web : Web) (self : WeatherService.t) (city_name : string)
    (country_code : json) (t : list event) (o : outcome json) :
  WeatherService.get_weather web self city_name country_code = (t, o) ->
  let timeout := WeatherService._timeout self in
  let geocoding :=
    Get "https://geocoding-api.open-meteo.com/v1/search"
      ([("name", JStr city_name); ("count", JInt 1); ("language", JStr "en");
        ("format", JStr "json")]
       ++ (if truthy country_code then [("country", country_code)] else []))%list
      timeout in
  (filter is_request t = [geocoding] /\ exists e, o = Raises e)
  \/ (exists location,
         located web self city_name country_code location
         /\ filter is_request t
            = [geocoding;
               Get "https://api.open-meteo.com/v1/forecast"
                 [("latitude", JFloat (Location.latitude location));
                  ("longitude", JFloat (Location.longitude location));
                  ("current",
                   JStr "temperature_2m,relative_humidity_2m,wind_speed_10m,wind_direction_10m,precipitation,weather_code")]
                 timeout]).
Proof.
  intros Hrun timeout geocoding.
  destruct (get_weather_cases web self city_name country_code)
    as [(logs & e & Hcase & Hlogs & _)
       | (location & Hlocated
          & [(logs & e & Hcase & Hlogs & _) | (p & c & u & _ & _ & _ & Hcase)])];
    rewrite Hcase in Hrun; injection Hrun as <- <-.
  - left. split; [ | exists e; reflexivity].
    apply filter_requests_of_logs; [reflexivity | exact Hlogs].
  - right. exists location. split; [exact Hlocated | ].
    cbn [filter is_request]. rewrite Hlogs. reflexivity.
  - right. exists location. split; [exact Hlocated | ]. reflexivity.
Qed.

Lemma requests_of_a_lookup_witness :
  exists location,
    located (Demo.web (Demo.ok Demo.found) (Raises Demo.timed_out)) WeatherService.__init__
      "Paris" (JStr "FR") location
    /\ filter is_request
         (fst (WeatherService.get_weather
                 (Demo.web (Demo.ok Demo.found) (Raises Demo.timed_out))
                 WeatherService.__init__ "Paris" (JStr "FR")))
       = [Get "https://geocoding-api.open-meteo.com/v1/search"
            [("name", JStr "Paris"); ("count", JInt 1); ("language", JStr "en");
             ("format", JStr "json"); ("country", JStr "FR")] 10;
          Get "https://api.open-meteo.com/v1/forecast"
            [("latitude", JFloat (Location.latitude location));
             ("longitude", JFloat (Location.longitude location));
             ("current",
              JStr "temperature_2m,relative_humidity_2m,wind_speed_10m,wind_direction_10m,precipitation,weather_code")]
            10].
Proof.
  destruct (requests_of_a_lookup (Demo.web (Demo.ok Demo.found) (Raises Demo.timed_out))
              WeatherService.__init__ "Paris" (JStr "FR") _ _ eq_refl)
    as [(Hone & _) | (location & Hlocated & Htwo)].
  - vm_compute in Hone. discriminate Hone.
  - exists location. split; [exact Hlocated | exact Htwo].
Defined.

Lemma request_returns_unique (web : Web) (url : string) (params : Dict.t) (timeout : Z)
    (payload payload' : json) :
  request_returns web url params timeout payload ->
  request_returns web url params timeout payload' ->
  payload = payload'.
Proof.
  intros (r & Hget & _ & Hjson) (r' & Hget' & _ & Hjson'). congruence.
Qed.

Lemma request_returns_not_raises (web : Web) (url : string) (params : Dict.t) (timeout : Z)
    (payload : json) (exc : error) :
  request_returns web url params timeout payload ->
  request_raises web url params timeout exc ->
  False.
Proof.
  intros (r & Hget & Hstatus & Hjson) [Hget' | (r' & Hget' & [Hstatus' | (_ & Hjson')])];
    congruence.
Qed.

(** X22. A city the geocoding service does not know. When the geocoding
    request returns an object whose [results] are missing or count as false
    (null, an empty list), the tool makes that one request, logs one warning
    with the city and the country code (or "no country"), and answers "Unable to
    retrieve weather information" with the details "No results found for
    '<city>'", where the city is the argument without the white space around
    it. The forecast is not requested. *)
Theorem unknown_city_is_reported (web : Web) (weather_service : WeatherService.t)
    (content a d : Dict.t) (text : string) :
  field_default content "arguments" (JDict []) = JDict a ->
  field a "city" = JStr text ->
  PyStr.strip text <> "" ->
  request_returns web WeatherService._GEOCODING_ENDPOINT
    (WeatherService.geocoding_params (PyStr.strip text) (field a "countryCode"))
    (WeatherService._timeout weather_service) (JDict d) ->
  truthy (field d "results") = false ->
  function_app.get_weather web weather_service (Returns (JDict content))
  = ([Get WeatherService._GEOCODING_ENDPOINT
        (WeatherService.geocoding_params (PyStr.strip text) (field a "countryCode"))
        (WeatherService._timeout weather_service);
      Log WARNING "Weather lookup failed for %s (%s)"
        [AText (PyStr.strip text);
         AValue (if truthy (field a "countryCode") then field a "countryCode"
                 else JStr "no country")]],
     Returns (JDict [("error", JStr "Unable to retrieve weather information");
                     ("details", JStr ("No results found for '" ++ PyStr.strip text ++ "'"))])).
Proof.
  intros Harguments Hcity Hblank Hreturns Hresults.
  assert (Htext : PyStr.truthy text = true).
  { destruct (PyStr.truthy text) eqn:Htext; [reflexivity | ].
    apply truthy_text in Htext. subst text. contradiction Hblank. reflexivity. }
  rewrite (get_weather_text web weather_service content a text Harguments).
  2:{ rewrite Hcity. apply or_else_truthy. exact Htext. }
  assert (Hstrip : PyStr.truthy (PyStr.strip text) = true).
  { destruct (PyStr.truthy (PyStr.strip text)) eqn:Hs; [reflexivity | ].
    apply truthy_text in Hs. contradiction. }
  rewrite Hstrip.
  assert (Hrun : WeatherService.get_weather web weather_service (PyStr.strip text)
                   (field a "countryCode")
                 = ([Get WeatherService._GEOCODING_ENDPOINT
                       (WeatherService.geocoding_params (PyStr.strip text)
                          (field a "countryCode"))
                       (WeatherService._timeout weather_service)],
                    Raises (error_of WeatherServiceError
                              (WeatherService.no_results (PyStr.strip text))))).
  { unfold WeatherService.get_weather, WeatherService._resolve_location.
    destruct (perform_get_cases web weather_service WeatherService._GEOCODING_ENDPOINT
                (WeatherService.geocoding_params (PyStr.strip text) (field a "countryCode")))
      as [(payload & Hreturns' & Hget) | (exc & Hraises & _)].
    - rewrite (request_returns_unique _ _ _ _ _ _ Hreturns' Hreturns) in Hget.
      rewrite Hget, weather_bind_returns.
      unfold WeatherService.location_of, get, ret. rewrite weather_bind_ret.
      rewrite (or_else_falsy _ _ Hresults). reflexivity.
    - exfalso. exact (request_returns_not_raises _ _ _ _ _ _ Hreturns Hraises). }
  rewrite (lookup_weather_run _ _ _ _ _ _ Hrun). reflexivity.
Qed.

Lemma unknown_city_is_reported_witness :
  function_app.get_weather (Demo.web (Demo.ok Demo.nothing_found) (Demo.ok Demo.forecast))
    WeatherService.__init__ (Demo.call [("city", JStr " Atlantis ")])
  = ([Get "https://geocoding-api.open-meteo.com/v1/search"
        [("name", JStr "Atlantis"); ("count", JInt 1); ("language", JStr "en");
         ("format", JStr "json")] 10;
      Log WARNING "Weather lookup failed for %s (%s)"
        [AText "Atlantis"; AValue (JStr "no country")]],
     Returns (JDict [("error", JStr "Unable to retrieve weather information");
                     ("details", JStr "No results found for 'Atlantis'")])).
Proof.
  assert (Hblank : PyStr.strip " Atlantis " <> ""%string) by (vm_compute; discriminate).
  assert (Hreturns :
            request_returns (Demo.web (Demo.ok Demo.nothing_found) (Demo.ok Demo.forecast))
              WeatherService._GEOCODING_ENDPOINT
              (WeatherService.geocoding_params (PyStr.strip " Atlantis ")
                 (field [("city", JStr " Atlantis ")] "countryCode"))
              (WeatherService._timeout WeatherService.__init__)
              (JDict [("generationtime_ms", JFloat (Demo.number "0.3"))])).
  { eexists. split; [reflexivity | ]. split; reflexivity. }
  exact (unknown_city_is_reported
           (Demo.web (Demo.ok Demo.nothing_found) (Demo.ok Demo.forecast))
           WeatherService.__init__
           [("name", JStr "get_weather"); ("arguments", JDict [("city", JStr " Atlantis ")])]
           [("city", JStr " Atlantis ")]
           [("generationtime_ms", JFloat (Demo.number "0.3"))]
           " Atlantis " eq_refl eq_refl Hblank Hreturns eq_refl).
Defined.

(** X23. What a lookup returns. When the service returns a document, it made
    the two requests and logged nothing; the forecast payload is an object
    whose [current] is an object, and whose [current_units] is an object or is
    missing. The document holds the location read from the first geocoding
    result (its name, or the city asked for when the result has none; its
    country, or null), the readings taken from [current] and their units from
    [current_units], with null for every reading or unit that is missing, and
    the attribution of Open-Meteo. *)
Theorem summary_of_a_lookup (web : Web) (self : WeatherService.t) (city_name : string)
    (country_code : json) (t : list event) (document : json) :
  WeatherService.get_weather web self city_name country_code = (t, Returns document) ->
  exists location p current units,
    located web self city_name country_code location
    /\ request_returns web WeatherService._WEATHER_ENDPOINT
         (WeatherService.forecast_params location) (WeatherService._timeout self) (JDict p)
    /\ Dict.lookup p "current" = Some (JDict current)
    /\ (Dict.lookup p "current_units" = Some (JDict units)
        \/ (Dict.lookup p "current_units" = None /\ units = []))
    /\ t = [Get WeatherService._GEOCODING_ENDPOINT
              (WeatherService.geocoding_params city_name country_code)
              (WeatherService._timeout self);
            Get WeatherService._WEATHER_ENDPOINT (WeatherService.forecast_params location)
              (WeatherService._timeout self)]
    /\ let reading key :=
         JDict [("value", field current key); ("unit", field units key)] in
       document
       = JDict
           [ ("location",
              JDict [ ("city", Location.name location);
                      ("country", Location.country location);
                      ("latitude", JFloat (Location.latitude location));
                      ("longitude", JFloat (Location.longitude location)) ]);
             ("conditions",
              JDict [ ("temperature", reading "temperature_2m");
                      ("relativeHumidity", reading "relative_humidity_2m");
                      ("wind",
                       JDict [ ("speed", reading "wind_speed_10m");
                               ("direction", reading "wind_direction_10m") ]);
                      ("precipitation", reading "precipitation");
                      ("weatherCode", field current "weather_code");
                      ("time", field current "time") ]);
             ("attribution",
              JDict [ ("source", JStr "Open-Meteo");
                      ("license", JStr "CC BY 4.0");
                      ("url", JStr "https://open-meteo.com/") ]) ].
Proof.
  intros Hrun.
  destruct (get_weather_cases web self city_name country_code)
    as [(logs & e & Hcase & _)
       | (location & Hlocated
          & [(logs & e & Hcase & _)
            | (p & current & units & Hreturns & Hcurrent & Hunits & Hcase)])];
    rewrite Hcase in Hrun; try discriminate Hrun.
  injection Hrun as <- <-.
  exists location, p, current, units.
  split; [exact Hlocated | ]. split; [exact Hreturns | ]. split; [exact Hcurrent | ].
  split; [ | split; reflexivity].
  unfold field_default in Hunits.
  destruct (Dict.lookup p "current_units") as [v | ].
  - left. rewrite Hunits. reflexivity.
  - right. split; [reflexivity | ]. congruence.
Qed.

Lemma summary_of_a_lookup_witness :
  exists location p current units,
    located (Demo.web (Demo.ok Demo.found) (Demo.ok Demo.forecast)) WeatherService.__init__
      "Paris" JNull location
    /\ Dict.lookup p "current" = Some (JDict current)
    /\ (Dict.lookup p "current_units" = Some (JDict units)
        \/ (Dict.lookup p "current_units" = None /\ units = []))
    /\ snd (WeatherService.get_weather (Demo.web (Demo.ok Demo.found) (Demo.ok Demo.forecast))
              WeatherService.__init__ "Paris" JNull)
       = Returns (WeatherService.summary location current units).
Proof.
  destruct (summary_of_a_lookup (Demo.web (Demo.ok Demo.found) (Demo.ok Demo.forecast))
              WeatherService.__init__ "Paris" JNull _ _ eq_refl)
    as (location & p & current & units & Hlocated & _ & Hcurrent & Hunits & _ & Hdocument).
  exists location, p, current, units.
  split; [exact Hlocated | ]. split; [exact Hcurrent | ]. split; [exact Hunits | ].
  cbv zeta in Hdocument. exact (f_equal Returns Hdocument).
Defined.

(** What a lookup at the tool gives, from the outcomes of the service. *)
Lemma lookup_weather_cases (web : Web) (weather_service : WeatherService.t)
    (city_name : string) (country_code : json) :
  let timeout := WeatherService._timeout weather_service in
  let warning :=
    Log WARNING "Weather lookup failed for %s (%s)"
      [AText city_name; AValue (or_else country_code (JStr "no country"))] in
  (exists t location current units,
      function_app.lookup_weather web weather_service city_name country_code
      = (t, Returns (WeatherService.summary location current units)))
  \/ (exists t e url params shape others,
         function_app.lookup_weather web weather_service city_name country_code
         = ((t ++ [warning])%list,
            Returns (function_app.error_envelope "Unable to retrieve weather information"
                       (str_of e)))
         /\ class_of e = WeatherServiceError
         /\ lookup_failure web url params timeout shape others e
         /\ incl others [WeatherService.no_results city_name; WeatherService.missing_current])
  \/ (exists t e url params shape others,
         function_app.lookup_weather web weather_service city_name country_code
         = (t, Raises e)
         /\ class_of e <> WeatherServiceError
         /\ lookup_failure web url params timeout shape others e
         /\ ((url = WeatherService._GEOCODING_ENDPOINT /\ shape = geocoding_shape)
             \/ (url = WeatherService._WEATHER_ENDPOINT /\ shape = forecast_shape))).
Proof.
  intros timeout warning.
  assert (Hfailure : forall t e url params shape others,
             WeatherService.get_weather web weather_service city_name country_code
             = (t, Raises e) ->
             lookup_failure web url params timeout shape others e ->
             incl others [WeatherService.no_results city_name;
                          WeatherService.missing_current] ->
             (url = WeatherService._GEOCODING_ENDPOINT /\ shape = geocoding_shape)
             \/ (url = WeatherService._WEATHER_ENDPOINT /\ shape = forecast_shape) ->
             (exists t e url params shape others,
                 function_app.lookup_weather web weather_service city_name country_code
                 = ((t ++ [warning])%list,
                    Returns (function_app.error_envelope
                               "Unable to retrieve weather information" (str_of e)))
                 /\ class_of e = WeatherServiceError
                 /\ lookup_failure web url params timeout shape others e
                 /\ incl others [WeatherService.no_results city_name;
                                 WeatherService.missing_current])
             \/ (exists t e url params shape others,
                    function_app.lookup_weather web weather_service city_name country_code
                    = (t, Raises e)
                    /\ class_of e <> WeatherServiceError
                    /\ lookup_failure web url params timeout shape others e
                    /\ ((url = WeatherService._GEOCODING_ENDPOINT /\ shape = geocoding_shape)
                        \/ (url = WeatherService._WEATHER_ENDPOINT
                            /\ shape = forecast_shape)))).
  { intros t e url params shape others Hrun Hlookup Hothers Hurl.
    rewrite (lookup_weather_run _ _ _ _ _ _ Hrun).
    destruct (isinstance e WeatherServiceError) eqn:Hclass.
    - left. exists t, e, url, params, shape, others.
      split; [reflexivity | ]. split; [apply isinstance_service_error; exact Hclass | ].
      auto.
    - right. exists t, e, url, params, shape, others.
      split; [reflexivity | ]. split; [ | auto].
      intros Habsurd. apply isinstance_service_error in Habsurd. congruence. }
  destruct (get_weather_cases web weather_service city_name country_code)
    as [(logs & e & Hrun & _ & Hlookup)
       | (location & _
          & [(logs & e & Hrun & _ & Hlookup)
            | (p & current & units & _ & _ & _ & Hrun)])].
  - right. eapply Hfailure; [exact Hrun | exact Hlookup | | left; auto].
    intros x [<- | []]. left. reflexivity.
  - right. eapply Hfailure; [exact Hrun | exact Hlookup | | right; auto].
    intros x [<- | []]. right. left. reflexivity.
  - left. rewrite (lookup_weather_run _ _ _ _ _ _ Hrun).
    eexists _, location, current, units. reflexivity.
Qed.

(** X24. In a world where a request raises only exceptions that an [except]
    clause of [_perform_get] names, where the geocoding payload is an object
    whose [results] are missing, null or a list that is empty or starts with an
    object with numeric [latitude] and [longitude], and where the forecast
    payload is an object whose [current] and [current_units], when present, are
    objects, the tool never raises on an object of arguments whose [city] is a
    string, is missing or counts as false: it returns "City name is required",
    the answer "Unable to retrieve weather information", or the weather
    document. *)
Theorem weather_tool_answers (web : Web) (weather_service : WeatherService.t)
    (content a : Dict.t) :
  (forall url params timeout exc,
      request_raises web url params timeout exc -> caught_by_perform_get exc = true) ->
  (forall params timeout payload,
      request_returns web WeatherService._GEOCODING_ENDPOINT params timeout payload ->
      geocoding_shape payload = true) ->
  (forall params timeout payload,
      request_returns web WeatherService._WEATHER_ENDPOINT params timeout payload ->
      forecast_shape payload = true) ->
  field_default content "arguments" (JDict []) = JDict a ->
  (truthy (field a "city") = false \/ exists text, field a "city" = JStr text) ->
  exists t out,
    function_app.get_weather web weather_service (Returns (JDict content)) = (t, Returns out)
    /\ (out = JDict [("error", JStr "City name is required")]
        \/ (exists details,
               out = JDict [("error", JStr "Unable to retrieve weather information");
                            ("details", JStr details)])
        \/ (exists location current units,
               out = WeatherService.summary location current units)).
Proof.
  intros Hraises Hgeocoding Hforecast Harguments Hcity.
  assert (Htext : exists text, or_else (field a "city") (JStr "") = JStr text).
  { destruct Hcity as [Hfalse | (text & Htext)].
    - exists ""%string. apply or_else_falsy. exact Hfalse.
    - rewrite Htext. unfold or_else. destruct (truthy (JStr text)); eauto. }
  destruct Htext as (text & Htext).
  rewrite (get_weather_text web weather_service content a text Harguments Htext).
  destruct (PyStr.truthy (PyStr.strip text)).
  2:{ eexists _, _. split; [reflexivity | ]. left. reflexivity. }
  destruct (lookup_weather_cases web weather_service (PyStr.strip text)
              (field a "countryCode"))
    as [(t & location & current & units & Hrun)
       | [(t & e & url & params & shape & others & Hrun & _)
         | (t & e & url & params & shape & others & Hrun & Hclass & Hlookup & Hurl)]].
  - rewrite Hrun. eexists _, _. split; [reflexivity | ].
    right. right. exists location, current, units. reflexivity.
  - rewrite Hrun. eexists _, _. split; [reflexivity | ].
    right. left. exists (str_of e). reflexivity.
  - exfalso.
    destruct Hlookup as [(Hservice & _) | [(Hexc & Hcaught) | (payload & Hreturns & Hshape & _)]].
    + contradiction.
    + rewrite (Hraises _ _ _ _ Hexc) in Hcaught. discriminate Hcaught.
    + destruct Hurl as [(-> & ->) | (-> & ->)].
      * rewrite (Hgeocoding _ _ _ Hreturns) in Hshape. discriminate Hshape.
      * rewrite (Hforecast _ _ _ Hreturns) in Hshape. discriminate Hshape.
Qed.

Lemma weather_tool_answers_witness :
  exists t out,
    function_app.get_weather (Demo.web (Demo.ok Demo.found) (Demo.ok Demo.forecast))
      WeatherService.__init__ (Demo.call [("city", JStr "Paris")])
    = (t, Returns out)
    /\ (out = JDict [("error", JStr "City name is required")]
        \/ (exists details,
               out = JDict [("error", JStr "Unable to retrieve weather information");
                            ("details", JStr details)])
        \/ (exists location current units,
               out = WeatherService.summary location current units)).
Proof.
  apply (weather_tool_answers (Demo.web (Demo.ok Demo.found) (Demo.ok Demo.forecast))
           WeatherService.__init__
           [("name", JStr "get_weather"); ("arguments", JDict [("city", JStr "Paris")])]
           [("city", JStr "Paris")]).
  - intros url params timeout exc. unfold request_raises. cbn [session_get Demo.web].
    destruct (url =? WeatherService._GEOCODING_ENDPOINT)%string;
      [ | destruct (url =? WeatherService._WEATHER_ENDPOINT)%string ];
      intros [Hget | (r & Hget & [Hstatus | (Hstatus & Hjson)])];
      try discriminate Hget;
      try (injection Hget as <-; discriminate).
    injection Hget as <-. reflexivity.
  - intros params timeout payload (r & Hget & _ & Hjson).
    cbn in Hget. injection Hget as <-. cbn in Hjson. injection Hjson as <-.
    vm_compute. reflexivity.
  - intros params timeout payload (r & Hget & _ & Hjson).
    cbn in Hget. injection Hget as <-. cbn in Hjson. injection Hjson as <-.
    vm_compute. reflexivity.
  - reflexivity.
  - right. exists "Paris"%string. reflexivity.
Defined.

(** Lines 126-133: the three outcomes of reading the arguments. *)
Lemma decode_arguments_cases (loaded : outcome json) :
  (exists text country_code,
      function_app.decode_arguments loaded
      = ([], Returns (inr (PyStr.strip text, country_code))))
  \/ (exists details,
         function_app.decode_arguments loaded
         = ([Log EXCEPTION "Failed to decode tool arguments for get_weather" []],
            Returns (inl (function_app.error_envelope "Invalid request payload" details))))
  \/ (exists e, function_app.decode_arguments loaded = ([], Raises e)).
Proof.
  destruct loaded as [content | err].
  - destruct content as [ | b | z | f | text | l | content];
      try (right; right; eexists; reflexivity).
    destruct (field_default content "arguments" (JDict [])) as [ | b | z | f | text | l | a]
      eqn:Harguments;
      try (right; right; eexists;
           unfold function_app.decode_arguments, lift, get_default, ret;
           rewrite weather_bind_ret, Harguments; reflexivity).
    rewrite (decode_arguments_object content a Harguments).
    destruct (or_else (field a "city") (JStr "")) as [ | b | z | f | text | l | d];
      try (right; right; eexists; reflexivity).
    left. eexists _, _. reflexivity.
  - unfold function_app.decode_arguments, lift, try_except.
    cbn [bind].
    destruct (isinstance err TypeError || isinstance err JSONDecodeError).
    + right. left. eexists. reflexivity.
    + right. right. eexists. reflexivity.
Qed.

(** X25. The details of a failed lookup are fixed texts. In a world whose
    requests raise no [WeatherServiceError] of their own, whenever the tool
    answers "Unable to retrieve weather information" the details are one of
    five messages: the three of [_perform_get], "Weather API response missing
    current conditions", or "No results found for '<city>'" with the city
    without the white space around it; the text of the exception that caused the
    failure is never part of the answer. The city is not empty, and the failure
    was logged as a warning with the city. *)
Theorem failure_details_are_fixed (web : Web) (weather_service : WeatherService.t)
    (loaded : outcome json) (t : list event) (details : string) :
  (forall url params timeout exc,
      request_raises web url params timeout exc -> class_of exc <> WeatherServiceError) ->
  function_app.get_weather web weather_service loaded
  = (t, Returns (JDict [("error", JStr "Unable to retrieve weather information");
                        ("details", JStr details)])) ->
  exists text country,
    PyStr.strip text <> ""
    /\ In details
         [ "Weather service returned an error response";
           "Unable to reach the weather service";
           "Received unexpected data from the weather service";
           "Weather API response missing current conditions";
           "No results found for '" ++ PyStr.strip text ++ "'" ]
    /\ In (Log WARNING "Weather lookup failed for %s (%s)"
             [AText (PyStr.strip text); AValue country]) t.
Proof.
  intros Hworld Hrun. unfold function_app.get_weather in Hrun.
  destruct (decode_arguments_cases loaded)
    as [(text & country_code & Hdecode) | [(details' & Hdecode) | (e & Hdecode)]];
    rewrite Hdecode in Hrun.
  - rewrite weather_bind_ret in Hrun.
    destruct (PyStr.truthy (PyStr.strip text)) eqn:Htruthy; [ | discriminate Hrun].
    cbn [negb] in Hrun.
    exists text, (or_else country_code (JStr "no country")).
    split.
    { intros Hempty. rewrite Hempty in Htruthy. discriminate Htruthy. }
    destruct (lookup_weather_cases web weather_service (PyStr.strip text) country_code)
      as [(t' & location & current & units & Hcase)
         | [(t' & e & url & params & shape & others & Hcase & Hclass & Hlookup & Hothers)
           | (t' & e & url & params & shape & others & Hcase & _)]];
      rewrite Hcase in Hrun; try discriminate Hrun.
    injection Hrun as <- <-.
    split; [ | apply in_or_app; right; left; reflexivity].
    destruct Hlookup as [(_ & Hin & _) | [(Hexc & _) | (payload & _ & _ & Hnot)]].
    + destruct Hin as [<- | [<- | [<- | Hin]]]; cbn; auto.
      apply Hothers in Hin. destruct Hin as [<- | [<- | []]]; cbn; auto 6.
    + exfalso. exact (Hworld _ _ _ _ Hexc Hclass).
    + contradiction.
  - cbn in Hrun. discriminate Hrun.
  - discriminate Hrun.
Qed.

Lemma failure_details_are_fixed_witness :
  exists text country,
    PyStr.strip text <> ""
    /\ In "Unable to reach the weather service"
         [ "Weather service returned an error response";
           "Unable to reach the weather service";
           "Received unexpected data from the weather service";
           "Weather API response missing current conditions";
           "No results found for '" ++ PyStr.strip text ++ "'" ]
    /\ In (Log WARNING "Weather lookup failed for %s (%s)"
             [AText (PyStr.strip text); AValue country])
         (fst (function_app.get_weather
                 (Demo.web (Demo.ok Demo.found) (Raises Demo.timed_out))
                 WeatherService.__init__ (Demo.call [("city", JStr "Paris")]))).
Proof.
  apply (failure_details_are_fixed (Demo.web (Demo.ok Demo.found) (Raises Demo.timed_out))
           WeatherService.__init__ (Demo.call [("city", JStr "Paris")])).
  - intros url params timeout exc. unfold request_raises. cbn [session_get Demo.web].
    destruct (url =? WeatherService._GEOCODING_ENDPOINT)%string;
      [ | destruct (url =? WeatherService._WEATHER_ENDPOINT)%string ];
      intros [Hget | (r & Hget & [Hstatus | (Hstatus & Hjson)])];
      try discriminate Hget;
      try (injection Hget as <-; discriminate).
  - reflexivity.
Defined.

(** X26. A geocoding result without coordinates is not reported as a failure
    of the lookup. When the first result of the geocoding request is an object
    that has no [latitude], the service raises [KeyError], and so does the
    tool: its [except] clause names [WeatherServiceError] only. One request
    was made, nothing was logged, and no answer is returned. *)
Theorem result_without_coordinates_escapes (web : Web) (weather_service : WeatherService.t)
    (content a d c : Dict.t) (rest : list json) (text : string) :
  field_default content "arguments" (JDict []) = JDict a ->
  field a "city" = JStr text ->
  PyStr.strip text <> "" ->
  request_returns web WeatherService._GEOCODING_ENDPOINT
    (WeatherService.geocoding_params (PyStr.strip text) (field a "countryCode"))
    (WeatherService._timeout weather_service) (JDict d) ->
  field d "results" = JList (JDict c :: rest) ->
  Dict.lookup c "latitude" = None ->
  let run := ([Get WeatherService._GEOCODING_ENDPOINT
                 (WeatherService.geocoding_params (PyStr.strip text) (field a "countryCode"))
                 (WeatherService._timeout weather_service)],
              Raises (error_of KeyError "'latitude'")) in
  WeatherService.get_weather web weather_service (PyStr.strip text) (field a "countryCode")
  = run
  /\ function_app.get_weather web weather_service (Returns (JDict content)) = run.
Proof.
  intros Harguments Hcity Hblank Hreturns Hresults Hlatitude run.
  assert (Hrun : WeatherService.get_weather web weather_service (PyStr.strip text)
                   (field a "countryCode") = run).
  { unfold WeatherService.get_weather, WeatherService._resolve_location.
    destruct (perform_get_cases web weather_service WeatherService._GEOCODING_ENDPOINT
                (WeatherService.geocoding_params (PyStr.strip text) (field a "countryCode")))
      as [(payload & Hreturns' & Hget) | (exc & Hraises & _)].
    - rewrite (request_returns_unique _ _ _ _ _ _ Hreturns' Hreturns) in Hget.
      rewrite Hget, weather_bind_returns.
      unfold WeatherService.location_of, get, ret. rewrite weather_bind_ret.
      rewrite Hresults. unfold or_else. cbn [truthy negb first_item].
      unfold ret. rewrite weather_bind_ret.
      unfold getitem. rewrite Hlatitude. reflexivity.
    - exfalso. exact (request_returns_not_raises _ _ _ _ _ _ Hreturns Hraises). }
  split; [exact Hrun | ].
  assert (Htext : PyStr.truthy text = true).
  { destruct (PyStr.truthy text) eqn:Htext; [reflexivity | ].
    apply truthy_text in Htext. subst text. contradiction Hblank. reflexivity. }
  rewrite (get_weather_text web weather_service content a text Harguments).
  2:{ rewrite Hcity. apply or_else_truthy. exact Htext. }
  assert (Hstrip : PyStr.truthy (PyStr.strip text) = true).
  { destruct (PyStr.truthy (PyStr.strip text)) eqn:Hs; [reflexivity | ].
    apply truthy_text in Hs. contradiction. }
  rewrite Hstrip. rewrite (lookup_weather_run _ _ _ _ _ _ Hrun). reflexivity.
Qed.

Lemma result_without_coordinates_escapes_witness :
  function_app.get_weather
    (Demo.web (Demo.ok (JDict [("results", JList [JDict [("name", JStr "Paris")]])]))
       (Demo.ok Demo.forecast))
    WeatherService.__init__ (Demo.call [("city", JStr "Paris")])
  = ([Get "https://geocoding-api.open-meteo.com/v1/search"
        [("name", JStr "Paris"); ("count", JInt 1); ("language", JStr "en");
         ("format", JStr "json")] 10],
     Raises (error_of KeyError "'latitude'")).
Proof.
  assert (Hblank : PyStr.strip "Paris" <> ""%string) by (vm_compute; discriminate).
  assert (Hreturns :
            request_returns
              (Demo.web (Demo.ok (JDict [("results", JList [JDict [("name", JStr "Paris")]])]))
                 (Demo.ok Demo.forecast))
              WeatherService._GEOCODING_ENDPOINT
              (WeatherService.geocoding_params (PyStr.strip "Paris")
                 (field [("city", JStr "Paris")] "countryCode"))
              (WeatherService._timeout WeatherService.__init__)
              (JDict [("results", JList [JDict [("name", JStr "Paris")]])])).
  { eexists. split; [reflexivity | ]. split; reflexivity. }
  exact (proj2 (result_without_coordinates_escapes
                  (Demo.web
                     (Demo.ok (JDict [("results", JList [JDict [("name", JStr "Paris")]])]))
                     (Demo.ok Demo.forecast))
                  WeatherService.__init__
                  [("name", JStr "get_weather"); ("arguments", JDict [("city", JStr "Paris")])]
                  [("city", JStr "Paris")]
                  [("results", JList [JDict [("name", JStr "Paris")]])]
                  [("name", JStr "Paris")] [] "Paris"
                  eq_refl eq_refl Hblank Hreturns eq_refl eq_refl)).
Defined.

End WeatherFacts.
